(** * The OQS key-method adapter (crypto/ec/oqs_meth.c)

    A shallow embedding of the adapter that binds the Picnic signature
    engine into the EVP public-key layer: the key record, its allocation
    and teardown, the public-key and private-key wire codecs, the key
    queries, and the sign / verify / keygen bridge.

    Every C function of the file is a Rocq function of the same name in
    the monad [M]: it reads the answers of the collaborators it calls
    (allocators, the signature engine, the container accessors) from an
    environment, it writes the calls that matter for resources and error
    reports to a trace, and it is undefined where the C code dereferences
    a null pointer or copies out of bounds. *)

From Stdlib Require Import ZArith NArith List Bool Lia String Ascii.
From Stdlib.Strings Require Import Byte.
Import ListNotations.

Local Open Scope Z_scope.

(** ** Bytes *)

Definition bytes := list byte.

(** The length of a buffer as a C [int]. *)
Definition blen (b : bytes) : Z := Z.of_nat (List.length b).

(** The byte of value [n mod 256]. *)
Definition byte_of_N (n : N) : byte :=
  match Byte.of_N (n mod 256)%N with
  | Some b => b
  | None => x00
  end.

(** [memcpy(dest + off, src, n)]: the [n] first bytes of [src] replace the
    bytes [off .. off+n-1] of [dest].  Reading past the end of [src] or
    writing past the end of [dest] is undefined. *)
Definition memcpy (dest : bytes) (off : Z) (src : bytes) (n : Z) : option bytes :=
  if (0 <=? off) && (0 <=? n) && (n <=? blen src) && (off + n <=? blen dest)
  then Some (firstn (Z.to_nat off) dest ++ firstn (Z.to_nat n) src
               ++ skipn (Z.to_nat (off + n)) dest)
  else None.

(** ** The octet-string codec *)

(** The [k] low-order bytes of [n], most significant first. *)
Fixpoint be_bytes (k : nat) (n : N) : bytes :=
  match k with
  | O => []
  | S k' => byte_of_N (N.shiftr n (8 * N.of_nat k')) :: be_bytes k' n
  end.

(** The number a byte string denotes, most significant byte first. *)
Definition be_value (bs : bytes) : N :=
  fold_left (fun acc b => (acc * 256 + Byte.to_N b)%N) bs 0%N.

(** How many bytes the long form of a length takes. *)
Definition length_octets (n : N) : nat := N.to_nat ((N.size n + 7) / 8).

(** Modelled from the spec: the length prefix of the "length-prefixed byte
    string codec" (section 6), which asn1_lib.c writes and which is not
    among the sources: one byte below 128, else the count of length bytes
    with the top bit set, then the length, most significant byte first. *)
Definition put_length (n : N) : bytes :=
  if (n <? 128)%N then [byte_of_N n]
  else byte_of_N (128 + N.of_nat (length_octets n)) :: be_bytes (length_octets n) n.

(** Modelled from the spec: reading that length prefix back; the rest of
    the input comes with the length. *)
Definition get_length (bs : bytes) : option (N * bytes) :=
  match bs with
  | [] => None
  | b :: rest =>
      let v := Byte.to_N b in
      if (v <? 128)%N then Some (v, rest)
      else
        let k := N.to_nat (v - 128) in
        if (k =? 0)%nat then None
        else if (List.length rest <? k)%nat then None
        else Some (be_value (firstn k rest), skipn k rest)
  end.

(** The tag byte of a primitive OCTET STRING. *)
Definition V_ASN1_OCTET_STRING : byte := x04.

(** Modelled from the spec: the encoding of an octet string, tag, length
    prefix, content (the encoder behind i2d_ASN1_OCTET_STRING). *)
Definition der_octet_string (content : bytes) : bytes :=
  V_ASN1_OCTET_STRING :: put_length (N.of_nat (List.length content)) ++ content.

(** Modelled from the spec: the decoder behind d2i_ASN1_OCTET_STRING; it
    refuses another tag, a bad length prefix and a content longer than
    the input. *)
Definition der_octet_string_content (der : bytes) : option bytes :=
  match der with
  | [] => None
  | tag :: rest =>
      if Byte.eqb tag V_ASN1_OCTET_STRING then
        match get_length rest with
        | Some (n, body) =>
            if (List.length body <? N.to_nat n)%nat then None
            else Some (firstn (N.to_nat n) body)
        | None => None
        end
      else None
  end.

(** ** Constants of the host headers *)

(** The adapter names these constants and none of the sources defines
    them: the numeric identifier of the one scheme and the engine's
    selector for it, the parameter tag that stands for "absent", the two
    reason codes, the engine's success status and the two control
    requests.  The development holds for every value of them. *)
Class HostConstants : Type := {
  NID_picnicL1FS : Z;
  NID_undef : Z;
  OQS_SIG_picnic_L1_FS : Z;
  V_ASN1_UNDEF : Z;
  ERR_R_FATAL : Z;
  ERR_R_MALLOC_FAILURE : Z;
  OQS_SUCCESS : Z;
  EVP_PKEY_CTRL_MD : Z;
  EVP_PKEY_CTRL_DIGESTINIT : Z;
  X509_SIG_INFO_TLS : Z
}.

(** ** The data model *)

(** The engine's randomness source, an opaque handle. *)
Inductive OQS_RAND : Type := OQS_RAND_handle (id : nat).

(** The engine instance: the fields of [OQS_SIG] the adapter reads. *)
Record OQS_SIG : Type := {
  rand : option OQS_RAND;
  estimated_classical_security : Z;
  priv_key_len : Z;
  pub_key_len : Z;
  max_sig_len : Z
}.

(** [OQS_KEY]: a null pointer is [None]. *)
Record OQS_KEY : Type := {
  s : option OQS_SIG;
  pubkey : option bytes;
  privkey : option bytes
}.

Definition set_s (k : OQS_KEY) (v : option OQS_SIG) : OQS_KEY :=
  {| s := v; pubkey := pubkey k; privkey := privkey k |}.
Definition set_pubkey (k : OQS_KEY) (v : option bytes) : OQS_KEY :=
  {| s := s k; pubkey := v; privkey := privkey k |}.
Definition set_privkey (k : OQS_KEY) (v : option bytes) : OQS_KEY :=
  {| s := s k; pubkey := pubkey k; privkey := v |}.

(** [oqs_key_type_t]; the enumerators number from 0, so the literal 0 of
    a caller is [KEY_TYPE_PUBLIC] and 1 is [KEY_TYPE_PRIVATE]. *)
Inductive oqs_key_type_t : Type := KEY_TYPE_PUBLIC | KEY_TYPE_PRIVATE.

(** An ASN.1 object, known by its numeric identifier. *)
Definition ASN1_OBJECT := Z.

(** An algorithm identifier: the object and the tag of its parameters. *)
Record X509_ALGOR : Type := {
  algorithm : ASN1_OBJECT;
  parameter_type : Z
}.

(** An ASN.1 string, named by its two accessors. *)
Record ASN1_STRING : Type := {
  ASN1_STRING_length : Z;
  ASN1_STRING_get0_data : option bytes
}.

(** The public-key container. *)
Record X509_PUBKEY : Type := {
  algor : option X509_ALGOR;
  public_key : ASN1_STRING
}.

(** The private-key container. *)
Record PKCS8_PRIV_KEY_INFO : Type := {
  p8_version : Z;
  pkeyalg : option X509_ALGOR;
  p8_pkey : ASN1_STRING
}.

(** The generic key object: [pkey->ameth->pkey_id] and [pkey->pkey.ptr]. *)
Record EVP_PKEY : Type := {
  ameth_pkey_id : Z;
  ptr : option OQS_KEY
}.

(** The key context: [ctx->pmeth->pkey_id] and [ctx->pkey]. *)
Record EVP_PKEY_CTX : Type := {
  pmeth_pkey_id : Z;
  ctx_pkey : option EVP_PKEY
}.

(** The digest context, which holds the key context. *)
Record EVP_MD_CTX : Type := {
  EVP_MD_CTX_pkey_ctx : option EVP_PKEY_CTX
}.

(** A digest, an opaque handle. *)
Inductive EVP_MD : Type := EVP_MD_handle (nid : Z).

(** What X509_SIG_INFO_set stores. *)
Record X509_SIG_INFO : Type := {
  mdnid : Z;
  pknid : Z;
  secbits : Z;
  siginf_flags : Z
}.

(** ** The trace *)

(** The C variable or field a block of memory is held in. *)
Inductive block : Type :=
  b_oqs_key | b_pubkey | b_privkey | b_buf | b_penc | b_oct.

(** The calls an operation makes to its collaborators, in the order it
    makes them.  An allocation is written when it gives a block. *)
Module Ev.
Inductive event : Type :=
| OQSerr (reason : Z)
| OPENSSL_zalloc (p : block)
| OPENSSL_malloc (p : block) (num : Z)
| OPENSSL_secure_malloc (p : block) (num : Z)
| OPENSSL_memdup (p : block) (num : Z)
| OPENSSL_free (p : block)
| OPENSSL_secure_clear_free (p : block) (num : Z)
| OPENSSL_clear_free (p : block) (num : Z)
| OQS_RAND_new (r : OQS_RAND)
| OQS_RAND_free (r : OQS_RAND)
| OQS_SIG_new (sg : OQS_SIG)
| OQS_SIG_free (sg : OQS_SIG)
| OQS_SIG_keygen (sg : OQS_SIG)
| OQS_SIG_sign (sg : OQS_SIG)
| OQS_SIG_verify (sg : OQS_SIG)
| i2d_ASN1_OCTET_STRING (p : block) (num : Z)
| d2i_ASN1_OCTET_STRING (p : block)
| ASN1_OCTET_STRING_free (p : block)
| EVP_DigestVerifyInit
| BIO_printf (indent : Z) (text : string)
| ASN1_buf_print (num : Z) (off : Z).
End Ev.

Definition trace := list Ev.event.

(** ** The environment *)

(** What the collaborators answer.  Allocators may refuse; the engine is
    opaque: it gives an instance for a selector or refuses, and it maps
    the buffers it is handed to their new contents and a status. *)
Record Env : Type := {
  on_OPENSSL_zalloc : bool;
  on_OPENSSL_malloc : Z -> bool;
  on_OPENSSL_secure_malloc : Z -> bool;
  on_OPENSSL_memdup : Z -> bool;
  uninit : nat -> byte;
  on_OQS_RAND_new : option OQS_RAND;
  on_OQS_SIG_new : OQS_RAND -> Z -> option OQS_SIG;
  on_OQS_SIG_keygen : OQS_SIG -> bytes -> bytes -> Z * bytes * bytes;
  on_OQS_SIG_sign : OQS_SIG -> bytes -> option bytes -> Z -> bytes -> Z -> Z * bytes * Z;
  on_OQS_SIG_verify : OQS_SIG -> bytes -> bytes -> Z -> bytes -> Z -> Z;
  on_X509_PUBKEY_get0_param : bool;
  on_X509_PUBKEY_set0_param : bool;
  on_PKCS8_pkey_get0 : bool;
  on_PKCS8_pkey_set0 : bool;
  on_i2d_ASN1_OCTET_STRING : bool;
  on_d2i_ASN1_OCTET_STRING : bool;
  on_EVP_DigestVerifyInit : Z;
  on_BIO_printf : string -> Z;
  on_ASN1_buf_print : Z;
  OBJ_nid2ln : Z -> string
}.

(** ** The monad *)

(** A computation reads the environment and gives a result and the calls
    it made, or is undefined ([None]). *)
Definition M (A : Type) : Type := Env -> option (A * trace).

Definition ret {A : Type} (a : A) : M A := fun _ => Some (a, []).

Definition bind {A B : Type} (m : M A) (k : A -> M B) : M B :=
  fun e =>
    match m e with
    | Some (a, t1) =>
        match k a e with
        | Some (b, t2) => Some (b, t1 ++ t2)
        | None => None
        end
    | None => None
    end.

Definition undefined {A : Type} : M A := fun _ => None.

Definition emit (ev : Ev.event) : M unit := fun _ => Some (tt, [ev]).

Definition ask {A : Type} (f : Env -> A) : M A := fun e => Some (f e, []).

(** Reading through a pointer: undefined when it is null. *)
Definition deref {A : Type} (p : option A) : M A :=
  match p with
  | Some a => ret a
  | None => undefined
  end.

Declare Scope oqs_scope.
Delimit Scope oqs_scope with oqs.
Notation "x <- m ;; k" := (bind m (fun x => k))
  (at level 61, m at next level, right associativity) : oqs_scope.
Notation "' pat <- m ;; k" := (bind m (fun x => match x with pat => k end))
  (at level 61, pat pattern, m at next level, right associativity) : oqs_scope.
Notation "m ;; k" := (bind m (fun _ => k))
  (at level 61, right associativity) : oqs_scope.
Local Open Scope oqs_scope.

(** ** The collaborators *)

(** The contents of a block nobody has written yet. *)
Definition fresh (e : Env) (num : Z) : bytes :=
  map (uninit e) (seq 0 (Z.to_nat num)).

(** Modelled from the spec: the host error-reporting facility behind the
    OQSerr macro, which takes a function code and a reason code. *)
Definition OQSerr (f r : Z) : M unit := emit (Ev.OQSerr r).

(** Modelled from the spec: the allocation primitives of section 6; each
    gives a block of the size asked for, or a null pointer. *)
Definition OPENSSL_zalloc (p : block) : M (option OQS_KEY) :=
  fun e =>
    if on_OPENSSL_zalloc e
    then Some (Some {| s := None; pubkey := None; privkey := None |}, [Ev.OPENSSL_zalloc p])
    else Some (None, []).

Definition OPENSSL_malloc (p : block) (num : Z) : M (option bytes) :=
  fun e =>
    if on_OPENSSL_malloc e num
    then Some (Some (fresh e num), [Ev.OPENSSL_malloc p num])
    else Some (None, []).

Definition OPENSSL_secure_malloc (p : block) (num : Z) : M (option bytes) :=
  fun e =>
    if on_OPENSSL_secure_malloc e num
    then Some (Some (fresh e num), [Ev.OPENSSL_secure_malloc p num])
    else Some (None, []).

(** Modelled from the spec: a copy of the [siz] first bytes of [data] in
    a new block; reading past the end of [data] is undefined. *)
Definition OPENSSL_memdup (p : block) (data : bytes) (siz : Z) : M (option bytes) :=
  fun e =>
    if (siz <? 0) || (blen data <? siz) then None
    else if on_OPENSSL_memdup e siz
    then Some (Some (firstn (Z.to_nat siz) data), [Ev.OPENSSL_memdup p siz])
    else Some (None, []).

(** Modelled from the spec: the release primitives of section 6; the
    clearing ones overwrite [num] bytes of the block before they free it. *)
Definition OPENSSL_free (p : block) : M unit := emit (Ev.OPENSSL_free p).
Definition OPENSSL_secure_clear_free (p : block) (num : Z) : M unit :=
  emit (Ev.OPENSSL_secure_clear_free p num).
Definition OPENSSL_clear_free (p : block) (num : Z) : M unit :=
  emit (Ev.OPENSSL_clear_free p num).

(** The engine, by its interface: an instance and its randomness source
    are created and freed, and the three operations answer as the
    environment says. *)
Definition OQS_RAND_new : M (option OQS_RAND) :=
  fun e =>
    match on_OQS_RAND_new e with
    | Some r => Some (Some r, [Ev.OQS_RAND_new r])
    | None => Some (None, [])
    end.

Definition OQS_RAND_free (r : OQS_RAND) : M unit := emit (Ev.OQS_RAND_free r).

Definition OQS_SIG_new (r : OQS_RAND) (algid : Z) : M (option OQS_SIG) :=
  fun e =>
    match on_OQS_SIG_new e r algid with
    | Some sg => Some (Some sg, [Ev.OQS_SIG_new sg])
    | None => Some (None, [])
    end.

Definition OQS_SIG_free (sg : OQS_SIG) : M unit := emit (Ev.OQS_SIG_free sg).

(** [OQS_SIG_keygen(s, priv, pub)]: the status and the two buffers as the
    engine leaves them. *)
Definition OQS_SIG_keygen (sg : option OQS_SIG) (priv pub : option bytes)
  : M (Z * bytes * bytes) :=
  sg' <- deref sg ;;
  priv' <- deref priv ;;
  pub' <- deref pub ;;
  emit (Ev.OQS_SIG_keygen sg') ;;
  ask (fun e => on_OQS_SIG_keygen e sg' priv' pub').

(** [OQS_SIG_sign(s, priv, msg, msg_len, sig, sig_len)]: the status, the
    signature buffer and the length as the engine leaves them. *)
Definition OQS_SIG_sign (sg : OQS_SIG) (priv : bytes) (msg : option bytes)
  (msg_len : Z) (sig : bytes) (sig_len : Z) : M (Z * bytes * Z) :=
  emit (Ev.OQS_SIG_sign sg) ;;
  ask (fun e => on_OQS_SIG_sign e sg priv msg msg_len sig sig_len).

(** [OQS_SIG_verify(s, pub, msg, msg_len, sig, sig_len)]: the status. *)
Definition OQS_SIG_verify (sg : OQS_SIG) (pub : bytes) (msg : bytes)
  (msg_len : Z) (sig : bytes) (sig_len : Z) : M Z :=
  emit (Ev.OQS_SIG_verify sg) ;;
  ask (fun e => on_OQS_SIG_verify e sg pub msg msg_len sig sig_len).

(** Modelled from the spec: the registry that maps a numeric identifier
    to its object and back (section 6); an object is its identifier. *)
Definition OBJ_nid2obj (nid : Z) : ASN1_OBJECT := nid.
Definition OBJ_obj2nid (obj : ASN1_OBJECT) : Z := obj.

(** Modelled from the spec: the accessors of an algorithm identifier,
    which read and store the object and the parameter tag (section 6). *)
Definition X509_ALGOR_get0 (alg : X509_ALGOR) : ASN1_OBJECT * Z :=
  (algorithm alg, parameter_type alg).

Definition X509_ALGOR_set0 (alg : option X509_ALGOR) (aobj : ASN1_OBJECT) (ptype : Z)
  : option X509_ALGOR :=
  match alg with
  | Some _ => Some {| algorithm := aobj; parameter_type := ptype |}
  | None => None
  end.

(** Modelled from the spec: the public-key container accessors, "extract
    or store: algorithm id, parameter tag, raw byte span" (section 6).
    The adapter tests their result, so they may refuse. *)
Definition X509_PUBKEY_get0_param (pub : X509_PUBKEY)
  : M (option (option bytes * Z * option X509_ALGOR)) :=
  fun e =>
    if on_X509_PUBKEY_get0_param e
    then Some (Some (ASN1_STRING_get0_data (public_key pub),
                     ASN1_STRING_length (public_key pub), algor pub), [])
    else Some (None, []).

Definition X509_PUBKEY_set0_param (pub : X509_PUBKEY) (aobj : ASN1_OBJECT)
  (ptype : Z) (penc : bytes) (penclen : Z) : M (Z * X509_PUBKEY) :=
  fun e =>
    if on_X509_PUBKEY_set0_param e
    then Some ((1, {| algor := Some {| algorithm := aobj; parameter_type := ptype |};
                      public_key := {| ASN1_STRING_length := penclen;
                                       ASN1_STRING_get0_data := Some penc |} |}), [])
    else Some ((0, pub), []).

(** Modelled from the spec: the private-key container accessors, as the
    public ones. *)
Definition PKCS8_pkey_get0 (p8 : PKCS8_PRIV_KEY_INFO)
  : M (option (option bytes * Z * option X509_ALGOR)) :=
  fun e =>
    if on_PKCS8_pkey_get0 e
    then Some (Some (ASN1_STRING_get0_data (p8_pkey p8),
                     ASN1_STRING_length (p8_pkey p8), pkeyalg p8), [])
    else Some (None, []).

Definition PKCS8_pkey_set0 (priv : PKCS8_PRIV_KEY_INFO) (aobj : ASN1_OBJECT)
  (version : Z) (ptype : Z) (penc : option bytes) (penclen : Z)
  : M (Z * PKCS8_PRIV_KEY_INFO) :=
  fun e =>
    if on_PKCS8_pkey_set0 e
    then Some ((1, {| p8_version := if 0 <=? version then version else p8_version priv;
                      pkeyalg := Some {| algorithm := aobj; parameter_type := ptype |};
                      p8_pkey := match penc with
                                 | Some _ => {| ASN1_STRING_length := penclen;
                                                ASN1_STRING_get0_data := penc |}
                                 | None => p8_pkey priv
                                 end |}), [])
    else Some ((0, priv), []).

(** Modelled from the spec: the octet-string encoder (section 6).  It
    allocates the encoding and returns its length, or a negative number
    when it cannot allocate; it reads [length] bytes through [data]. *)
Definition i2d_ASN1_OCTET_STRING (a : ASN1_STRING) : M (Z * option bytes) :=
  content <- deref (ASN1_STRING_get0_data a) ;;
  if (ASN1_STRING_length a <? 0) || (blen content <? ASN1_STRING_length a) then undefined
  else
    let enc := der_octet_string (firstn (Z.to_nat (ASN1_STRING_length a)) content) in
    fun e =>
      if on_i2d_ASN1_OCTET_STRING e
      then Some ((blen enc, Some enc), [Ev.i2d_ASN1_OCTET_STRING b_penc (blen enc)])
      else Some ((-1, None), []).

(** Modelled from the spec: the octet-string decoder (section 6), over
    the [len] first bytes at [p]; it gives a new string, or a null pointer
    when the input does not parse or the string cannot be allocated. *)
Definition d2i_ASN1_OCTET_STRING (p : option bytes) (len : Z) : M (option ASN1_STRING) :=
  match p with
  | None => ret None
  | Some b =>
      match der_octet_string_content (firstn (Z.to_nat len) b) with
      | None => ret None
      | Some content =>
          fun e =>
            if on_d2i_ASN1_OCTET_STRING e
            then Some (Some {| ASN1_STRING_length := blen content;
                               ASN1_STRING_get0_data := Some content |},
                       [Ev.d2i_ASN1_OCTET_STRING b_oct])
            else Some (None, [])
      end
  end.

(** Freeing a null string does nothing. *)
Definition ASN1_OCTET_STRING_free (a : option ASN1_STRING) : M unit :=
  match a with
  | Some _ => emit (Ev.ASN1_OCTET_STRING_free b_oct)
  | None => ret tt
  end.

(** Modelled from the spec: the key object takes the record; the adapter
    ignores the result. *)
Definition EVP_PKEY_assign (pkey : EVP_PKEY) (type : Z) (key : option OQS_KEY) : EVP_PKEY :=
  {| ameth_pkey_id := type; ptr := key |}.

(** Modelled from the spec: "the generic digest-engine initialization
    call" (section 1), which succeeds or not as the host decides. *)
Definition EVP_DigestVerifyInit (pkey : EVP_PKEY) : M Z :=
  emit Ev.EVP_DigestVerifyInit ;; ask on_EVP_DigestVerifyInit.

(** Modelled from the spec: printing to the output channel; the result
    is positive when the text was written. *)
Definition BIO_printf (indent : Z) (text : string) : M Z :=
  emit (Ev.BIO_printf indent text) ;; ask (fun e => on_BIO_printf e text).

Definition ASN1_buf_print (buf : option bytes) (buflen : Z) (off : Z) : M Z :=
  _ <- deref buf ;;
  emit (Ev.ASN1_buf_print buflen off) ;; ask on_ASN1_buf_print.

(** Modelled from the spec: the "constant-time byte comparison" of
    section 6: 0 when the [len] first bytes agree.  With [len] positive it
    reads through both pointers. *)
Definition CRYPTO_memcmp (a b : option bytes) (len : Z) : M Z :=
  if len <=? 0 then ret 0
  else
    a' <- deref a ;;
    b' <- deref b ;;
    if (blen a' <? len) || (blen b' <? len) then undefined
    else if list_eq_dec byte_eq_dec (firstn (Z.to_nat len) a') (firstn (Z.to_nat len) b')
         then ret 0 else ret 1.

(** [memcpy] through pointers that may be null. *)
Definition memcpy_to (dest : option bytes) (off : Z) (src : option bytes) (n : Z) : M bytes :=
  dest' <- deref dest ;;
  src' <- deref src ;;
  deref (memcpy dest' off src' n).

(** ** The adapter *)

Section Adapter.
Context `{HostConstants}.

(** Maps OpenSSL NIDs to OQS IDs. *)
Definition get_oqs_alg_id (openssl_nid : Z) : Z :=
  if openssl_nid =? NID_picnicL1FS then OQS_SIG_picnic_L1_FS else -1.

(** Returns the security level in bits for an OQS alg. *)
Definition get_oqs_security_bits (openssl_nid : Z) : Z :=
  if openssl_nid =? NID_picnicL1FS then 128 else -1.

(** Frees the OQS_KEY, including its keys. *)
Definition oqs_pkey_ctx_free (key : option OQS_KEY) : M unit :=
  match key with
  | None => ret tt
  | Some k =>
      privkey_len <-
        match s k with
        | Some sg =>
            match rand sg with
            | Some r => OQS_RAND_free r
            | None => ret tt
            end ;;
            OQS_SIG_free sg ;;
            ret (priv_key_len sg)
        | None => ret 0
        end ;;
      match privkey k with
      | Some _ => OPENSSL_secure_clear_free b_privkey privkey_len
      | None => ret tt
      end ;;
      match pubkey k with
      | Some _ => OPENSSL_free b_pubkey
      | None => ret tt
      end ;;
      OPENSSL_free b_oqs_key
  end.

(** Initializes a OQS_KEY, given an OpenSSL NID.  The result comes with
    the value of [*p_oqs_key], which only success changes. *)
Definition oqs_key_init (p_oqs_key : option OQS_KEY) (nid : Z) (keytype : oqs_key_type_t)
  : M (Z * option OQS_KEY) :=
  let oqs_alg_id := get_oqs_alg_id nid in
  let err (oqs_key : option OQS_KEY) : M (Z * option OQS_KEY) :=
    oqs_pkey_ctx_free oqs_key ;; ret (0, p_oqs_key) in
  oqs_key <- OPENSSL_zalloc b_oqs_key ;;
  match oqs_key with
  | None => OQSerr 0 ERR_R_MALLOC_FAILURE ;; err None
  | Some k0 =>
      oqs_rand <- OQS_RAND_new ;;
      match oqs_rand with
      | None => OQSerr 0 ERR_R_FATAL ;; err (Some k0)
      | Some r =>
          sg <- OQS_SIG_new r oqs_alg_id ;;
          let k1 := set_s k0 sg in
          match sg with
          | None => OQSerr 0 ERR_R_FATAL ;; err (Some k1)
          | Some sg' =>
              pub <- OPENSSL_malloc b_pubkey (pub_key_len sg') ;;
              let k2 := set_pubkey k1 pub in
              match pub with
              | None => OQSerr 0 ERR_R_MALLOC_FAILURE ;; err (Some k2)
              | Some _ =>
                  match keytype with
                  | KEY_TYPE_PRIVATE =>
                      priv <- OPENSSL_secure_malloc b_privkey (priv_key_len sg') ;;
                      let k3 := set_privkey k2 priv in
                      match priv with
                      | None => OQSerr 0 ERR_R_MALLOC_FAILURE ;; err (Some k3)
                      | Some _ => ret (1, Some k3)
                      end
                  | KEY_TYPE_PUBLIC => ret (1, Some k2)
                  end
              end
          end
      end
  end.

(** Whether an algorithm identifier, when the container has one, carries
    parameters: the test "if (palg != NULL) ... if (ptype != V_ASN1_UNDEF)"
    of the two decoders. *)
Definition parameters_present (palg : option X509_ALGOR) : bool :=
  match palg with
  | Some alg => let '(_, ptype) := X509_ALGOR_get0 alg in negb (ptype =? V_ASN1_UNDEF)
  | None => false
  end.

Definition oqs_pub_encode (pk : X509_PUBKEY) (pkey : EVP_PKEY) : M (Z * X509_PUBKEY) :=
  match ptr pkey with
  | None => OQSerr 0 ERR_R_FATAL ;; ret (0, pk)
  | Some oqs_key =>
      match s oqs_key, pubkey oqs_key with
      | Some sg, Some pub =>
          penc <- OPENSSL_memdup b_penc pub (pub_key_len sg) ;;
          match penc with
          | None => OQSerr 0 ERR_R_MALLOC_FAILURE ;; ret (0, pk)
          | Some penc' =>
              '(ok, pk') <- X509_PUBKEY_set0_param pk (OBJ_nid2obj (ameth_pkey_id pkey))
                              V_ASN1_UNDEF penc' (pub_key_len sg) ;;
              if ok =? 0
              then OPENSSL_free b_penc ;; OQSerr 0 ERR_R_MALLOC_FAILURE ;; ret (0, pk')
              else ret (1, pk')
          end
      | _, _ => OQSerr 0 ERR_R_FATAL ;; ret (0, pk)
      end
  end.

Definition oqs_pub_decode (pkey : EVP_PKEY) (pubkey_in : X509_PUBKEY) : M (Z * EVP_PKEY) :=
  let id := ameth_pkey_id pkey in
  got <- X509_PUBKEY_get0_param pubkey_in ;;
  match got with
  | None => ret (0, pkey)
  | Some (p, pklen, palg) =>
      match p with
      | None => OQSerr 0 ERR_R_FATAL ;; ret (0, pkey)
      | Some _ =>
          if parameters_present palg then OQSerr 0 ERR_R_FATAL ;; ret (0, pkey)
          else
            '(ok, oqs_key) <- oqs_key_init None id KEY_TYPE_PUBLIC ;;
            if ok =? 0 then OQSerr 0 ERR_R_FATAL ;; ret (0, pkey)
            else
              k <- deref oqs_key ;;
              sg <- deref (s k) ;;
              if negb (pklen =? pub_key_len sg)
              then OQSerr 0 ERR_R_FATAL ;; oqs_pkey_ctx_free oqs_key ;; ret (0, pkey)
              else
                pub <- memcpy_to (pubkey k) 0 p pklen ;;
                ret (1, EVP_PKEY_assign pkey id (Some (set_pubkey k (Some pub))))
      end
  end.

Definition oqs_pub_cmp (a b : EVP_PKEY) : M Z :=
  match ptr a, ptr b with
  | Some akey, Some bkey =>
      sg <- deref (s akey) ;;
      r <- CRYPTO_memcmp (pubkey akey) (pubkey bkey) (pub_key_len sg) ;;
      ret (if r =? 0 then 1 else 0)
  | _, _ => ret (-2)
  end.

Definition oqs_priv_decode (pkey : EVP_PKEY) (p8 : PKCS8_PRIV_KEY_INFO) : M (Z * EVP_PKEY) :=
  got <- PKCS8_pkey_get0 p8 ;;
  match got with
  | None => ret (0, pkey)
  | Some (p0, plen0, palg) =>
      oct <- d2i_ASN1_OCTET_STRING p0 plen0 ;;
      let '(p, plen) :=
        match oct with
        | None => (None, 0)
        | Some o => (ASN1_STRING_get0_data o, ASN1_STRING_length o)
        end in
      (* oct contains first the private key, then the public key *)
      if parameters_present palg then OQSerr 0 ERR_R_FATAL ;; ret (0, pkey)
      else
        '(ok, oqs_key) <- oqs_key_init None (ameth_pkey_id pkey) KEY_TYPE_PRIVATE ;;
        if ok =? 0 then OQSerr 0 ERR_R_FATAL ;; ret (0, pkey)
        else
          k <- deref oqs_key ;;
          sg <- deref (s k) ;;
          if negb (plen =? priv_key_len sg + pub_key_len sg)
          then OQSerr 0 ERR_R_FATAL ;; oqs_pkey_ctx_free oqs_key ;; ret (0, pkey)
          else
            priv <- memcpy_to (privkey k) 0 p (priv_key_len sg) ;;
            pub <- memcpy_to (pubkey k) 0
                     (option_map (skipn (Z.to_nat (priv_key_len sg))) p) (pub_key_len sg) ;;
            let k' := set_pubkey (set_privkey k (Some priv)) (Some pub) in
            ASN1_OCTET_STRING_free oct ;;
            ret (1, EVP_PKEY_assign pkey (ameth_pkey_id pkey) (Some k'))
  end.

Definition oqs_priv_encode (p8 : PKCS8_PRIV_KEY_INFO) (pkey : EVP_PKEY)
  : M (Z * PKCS8_PRIV_KEY_INFO) :=
  oqskey <- deref (ptr pkey) ;;
  sg <- deref (s oqskey) ;;
  let buflen := priv_key_len sg + pub_key_len sg in
  buf <- OPENSSL_secure_malloc b_buf buflen ;;
  match buf with
  | None => OQSerr 0 ERR_R_MALLOC_FAILURE ;; ret (0, p8)
  | Some _ =>
      buf1 <- memcpy_to buf 0 (privkey oqskey) (priv_key_len sg) ;;
      buf2 <- memcpy_to (Some buf1) (priv_key_len sg) (pubkey oqskey) (pub_key_len sg) ;;
      let oct := {| ASN1_STRING_length := buflen; ASN1_STRING_get0_data := Some buf2 |} in
      '(penclen, penc) <- i2d_ASN1_OCTET_STRING oct ;;
      if penclen <? 0 then OQSerr 0 ERR_R_MALLOC_FAILURE ;; ret (0, p8)
      else
        '(ok, p8') <- PKCS8_pkey_set0 p8 (OBJ_nid2obj (ameth_pkey_id pkey)) 0
                        V_ASN1_UNDEF penc penclen ;;
        if ok =? 0
        then
          OPENSSL_secure_clear_free b_buf buflen ;;
          OPENSSL_clear_free b_penc penclen ;;
          OQSerr 0 ERR_R_MALLOC_FAILURE ;;
          ret (0, p8')
        else
          OPENSSL_secure_clear_free b_buf buflen ;;
          ret (1, p8')
  end.

(** The value of a count as a C [int]: the conversion keeps its low 32
    bits, read in two's complement. *)
Definition int_of (n : Z) : Z := (n + 2 ^ 31) mod 2 ^ 32 - 2 ^ 31.

(** The result is an [int], and the engine's maximum signature length is
    the count that sign compares with and stores in a [size_t]: the
    return statement converts it. *)
Definition oqs_size (pkey : EVP_PKEY) : M Z :=
  match ptr pkey with
  | None => OQSerr 0 ERR_R_FATAL ;; ret 0
  | Some oqskey =>
      match s oqskey with
      | None => OQSerr 0 ERR_R_FATAL ;; ret 0
      | Some sg => ret (int_of (max_sig_len sg))
      end
  end.

Definition oqs_bits (pkey : EVP_PKEY) : M Z :=
  oqskey <- deref (ptr pkey) ;;
  sg <- deref (s oqskey) ;;
  ret (pub_key_len sg).

Definition oqs_security_bits (pkey : EVP_PKEY) : M Z :=
  oqskey <- deref (ptr pkey) ;;
  sg <- deref (s oqskey) ;;
  ret (estimated_classical_security sg).

Definition oqs_free (pkey : EVP_PKEY) : M unit :=
  oqs_pkey_ctx_free (ptr pkey).

(** "parameters" are always equal *)
Definition oqs_cmp_parameters (a b : EVP_PKEY) : Z := 1.

(** The end of a printed line. *)
Definition nl : string := String (ascii_of_nat 10) EmptyString.

Definition oqs_key_print (pkey : EVP_PKEY) (indent : Z) (keytype : oqs_key_type_t) : M Z :=
  let oqskey := ptr pkey in
  nm <- ask (fun e => OBJ_nid2ln e (ameth_pkey_id pkey)) ;;
  let pub_part : M Z :=
    r <- BIO_printf indent ("pub:" ++ nl) ;;
    if r <=? 0 then ret 0
    else
      k <- deref oqskey ;;
      sg <- deref (s k) ;;
      r <- ASN1_buf_print (pubkey k) (pub_key_len sg) (indent + 4) ;;
      if r =? 0 then ret 0 else ret 1 in
  match keytype with
  | KEY_TYPE_PRIVATE =>
      match oqskey with
      | Some {| s := sg; privkey := Some priv |} =>
          r <- BIO_printf indent (nm ++ " Private-Key:" ++ nl) ;;
          if r <=? 0 then ret 0
          else
            r <- BIO_printf indent ("priv:" ++ nl) ;;
            if r <=? 0 then ret 0
            else
              sg' <- deref sg ;;
              r <- ASN1_buf_print (Some priv) (priv_key_len sg') (indent + 4) ;;
              if r =? 0 then ret 0 else pub_part
      | _ =>
          r <- BIO_printf indent ("<INVALID PRIVATE KEY>" ++ nl) ;;
          if r <=? 0 then ret 0 else ret 1
      end
  | KEY_TYPE_PUBLIC =>
      match oqskey with
      | None =>
          r <- BIO_printf indent ("<INVALID PUBLIC KEY>" ++ nl) ;;
          if r <=? 0 then ret 0 else ret 1
      | Some _ =>
          r <- BIO_printf indent (nm ++ " Public-Key:" ++ nl) ;;
          if r <=? 0 then ret 0 else pub_part
      end
  end.

Definition oqs_priv_print (pkey : EVP_PKEY) (indent : Z) : M Z :=
  oqs_key_print pkey indent KEY_TYPE_PRIVATE.

Definition oqs_pub_print (pkey : EVP_PKEY) (indent : Z) : M Z :=
  oqs_key_print pkey indent KEY_TYPE_PUBLIC.

Definition oqs_item_verify (sigalg : option X509_ALGOR) (pkey : EVP_PKEY) : M Z :=
  (* Sanity check: make sure it is an OQS scheme with absent parameters *)
  alg <- deref sigalg ;;
  let '(obj, ptype) := X509_ALGOR_get0 alg in
  let nid := OBJ_obj2nid obj in
  if negb (nid =? NID_picnicL1FS) || negb (ptype =? V_ASN1_UNDEF)
  then OQSerr 0 ERR_R_FATAL ;; ret 0
  else
    r <- EVP_DigestVerifyInit pkey ;;
    if r =? 0 then ret 0 else ret 2.

(** The result comes with the two algorithm identifiers as they are
    left; the second one may be null. *)
Definition oqs_item_sign (alg1 alg2 : option X509_ALGOR)
  : Z * option X509_ALGOR * option X509_ALGOR :=
  (* Set algorithm identifier *)
  let alg1' := X509_ALGOR_set0 alg1 (OBJ_nid2obj NID_picnicL1FS) V_ASN1_UNDEF in
  let alg2' :=
    match alg2 with
    | Some _ => X509_ALGOR_set0 alg2 (OBJ_nid2obj NID_picnicL1FS) V_ASN1_UNDEF
    | None => alg2
    end in
  (* Algorithm identifier set: carry on as normal *)
  (3, alg1', alg2').

Definition oqs_sig_info_set (siginf : X509_SIG_INFO) : Z * X509_SIG_INFO :=
  (1, {| mdnid := NID_undef; pknid := NID_picnicL1FS;
         secbits := get_oqs_security_bits NID_picnicL1FS;
         siginf_flags := X509_SIG_INFO_TLS |}).

Definition pkey_oqs_keygen (ctx : EVP_PKEY_CTX) (pkey : EVP_PKEY) : M (Z * EVP_PKEY) :=
  let id := pmeth_pkey_id ctx in
  let err (oqs_key : option OQS_KEY) : M (Z * EVP_PKEY) :=
    oqs_pkey_ctx_free oqs_key ;; ret (0, pkey) in
  '(ok, oqs_key) <- oqs_key_init None id KEY_TYPE_PRIVATE ;;
  if ok =? 0 then OQSerr 0 ERR_R_FATAL ;; err oqs_key
  else
    k <- deref oqs_key ;;
    '(status, priv, pub) <- OQS_SIG_keygen (s k) (privkey k) (pubkey k) ;;
    let k' := set_pubkey (set_privkey k (Some priv)) (Some pub) in
    if negb (status =? OQS_SUCCESS) then OQSerr 0 ERR_R_FATAL ;; err (Some k')
    else ret (1, EVP_PKEY_assign pkey id (Some k')).

(** The result comes with the signature buffer and [*siglen] as they are
    left. *)
Definition pkey_oqs_digestsign (ctx : EVP_MD_CTX) (sig : option bytes) (siglen : Z)
  (tbs : option bytes) (tbslen : Z) : M (Z * option bytes * Z) :=
  pctx <- deref (EVP_MD_CTX_pkey_ctx ctx) ;;
  pkey <- deref (ctx_pkey pctx) ;;
  match ptr pkey with
  | Some {| s := Some sg; privkey := Some priv |} =>
      match sig with
      | None => ret (1, sig, max_sig_len sg)
      | Some sigbuf =>
          if siglen <? max_sig_len sg then OQSerr 0 ERR_R_FATAL ;; ret (0, sig, siglen)
          else
            '(status, sigbuf', siglen') <- OQS_SIG_sign sg priv tbs tbslen sigbuf siglen ;;
            if negb (status =? OQS_SUCCESS)
            then OQSerr 0 ERR_R_FATAL ;; ret (0, Some sigbuf', siglen')
            else ret (1, Some sigbuf', siglen')
      end
  | _ => OQSerr 0 ERR_R_FATAL ;; ret (0, sig, siglen)
  end.

Definition pkey_oqs_digestverify (ctx : EVP_MD_CTX) (sig : option bytes) (siglen : Z)
  (tbs : option bytes) (tbslen : Z) : M Z :=
  pctx <- deref (EVP_MD_CTX_pkey_ctx ctx) ;;
  pkey <- deref (ctx_pkey pctx) ;;
  match ptr pkey, sig, tbs with
  | Some {| s := Some sg; pubkey := Some pub |}, Some sig', Some tbs' =>
      status <- OQS_SIG_verify sg pub tbs' tbslen sig' siglen ;;
      if negb (status =? OQS_SUCCESS) then OQSerr 0 ERR_R_FATAL ;; ret 0
      else ret 1
  | _, _, _ => OQSerr 0 ERR_R_FATAL ;; ret 0
  end.

Definition pkey_oqs_ctrl (type : Z) (p1 : Z) (p2 : option EVP_MD) : M Z :=
  if type =? EVP_PKEY_CTRL_MD then
    (* Only NULL allowed as digest *)
    match p2 with
    | None => ret 1
    | Some _ => OQSerr 0 ERR_R_FATAL ;; ret 0
    end
  else if type =? EVP_PKEY_CTRL_DIGESTINIT then ret 1
  else ret (-2).

(** ** The method tables *)







(** The records the adapter constructs, each with the trace of the call
    that made it: by key generation, by public-key decode and by
    private-key decode. *)
Inductive constructed (k : OQS_KEY) (t : trace) : Prop :=
| by_keygen (ctx : EVP_PKEY_CTX) (pkey pkey' : EVP_PKEY) (e : Env) :
    pkey_oqs_keygen ctx pkey e = Some ((1, pkey'), t) ->
    ptr pkey' = Some k -> constructed k t
| by_pub_decode (pkey pkey' : EVP_PKEY) (pk : X509_PUBKEY) (e : Env) :
    oqs_pub_decode pkey pk e = Some ((1, pkey'), t) ->
    ptr pkey' = Some k -> constructed k t
| by_priv_decode (pkey pkey' : EVP_PKEY) (p8 : PKCS8_PRIV_KEY_INFO) (e : Env) :
    oqs_priv_decode pkey p8 e = Some ((1, pkey'), t) ->
    ptr pkey' = Some k -> constructed k t.

End Adapter.

(** ** Words of the statements *)

(** The one call made for a resource that is there, none for a null
    pointer. *)
Definition released {A : Type} (o : option A) (f : A -> Ev.event) : trace :=
  match o with
  | Some a => [f a]
  | None => []
  end.

(** The randomness source of a record's engine, when it has both. *)
Definition rand_of (k : OQS_KEY) : option OQS_RAND :=
  match s k with
  | Some sg => rand sg
  | None => None
  end.

(** A trace reports an error when it holds a call of OQSerr. *)
Definition reports_error (t : trace) : Prop :=
  exists reason, In (Ev.OQSerr reason) t.

(** The record a successful allocation builds around the engine [sg]:
    buffers of the engine's sizes that nobody has written yet, the
    private one for a private record only. *)
Definition built (e : Env) (sg : OQS_SIG) (keytype : oqs_key_type_t) : OQS_KEY :=
  {| s := Some sg;
     pubkey := Some (fresh e (pub_key_len sg));
     privkey := match keytype with
                | KEY_TYPE_PRIVATE => Some (fresh e (priv_key_len sg))
                | KEY_TYPE_PUBLIC => None
                end |}.

(** The calls of a successful allocation. *)
Definition built_trace (r : OQS_RAND) (sg : OQS_SIG) (keytype : oqs_key_type_t) : trace :=
  [Ev.OPENSSL_zalloc b_oqs_key; Ev.OQS_RAND_new r; Ev.OQS_SIG_new sg;
   Ev.OPENSSL_malloc b_pubkey (pub_key_len sg)]
  ++ match keytype with
     | KEY_TYPE_PRIVATE => [Ev.OPENSSL_secure_malloc b_privkey (priv_key_len sg)]
     | KEY_TYPE_PUBLIC => []
     end.

(** The world gives allocation what it asks for: the randomness source
    [r], the engine [sg] for the scheme [nid], and the blocks of a record
    of type [keytype]. *)
Definition allocation_succeeds `{HostConstants} (e : Env) (nid : Z) (keytype : oqs_key_type_t)
  (r : OQS_RAND) (sg : OQS_SIG) : Prop :=
  on_OPENSSL_zalloc e = true
  /\ on_OQS_RAND_new e = Some r
  /\ on_OQS_SIG_new e r (get_oqs_alg_id nid) = Some sg
  /\ on_OPENSSL_malloc e (pub_key_len sg) = true
  /\ (keytype = KEY_TYPE_PRIVATE -> on_OPENSSL_secure_malloc e (priv_key_len sg) = true).

(** The payload of a private-key container in a world: the content of
    the octet string its bytes encode, when they decode and the decoder can
    allocate the string. *)
Definition payload_of (e : Env) (p8 : PKCS8_PRIV_KEY_INFO) : option bytes :=
  match ASN1_STRING_get0_data (p8_pkey p8) with
  | Some b =>
      if on_d2i_ASN1_OCTET_STRING e
      then der_octet_string_content (firstn (Z.to_nat (ASN1_STRING_length (p8_pkey p8))) b)
      else None
  | None => None
  end.

(** Its length as the decoder sees it: 0 when there is none. *)
Definition payload_length (e : Env) (p8 : PKCS8_PRIV_KEY_INFO) : Z :=
  match payload_of e p8 with
  | Some c => blen c
  | None => 0
  end.

(** A valid private-capable record: it has its engine and both byte
    strings, each of the engine's length. *)
Definition valid_private_record (k : OQS_KEY) (sg : OQS_SIG) (priv pub : bytes) : Prop :=
  s k = Some sg
  /\ privkey k = Some priv
  /\ pubkey k = Some pub
  /\ blen priv = priv_key_len sg
  /\ blen pub = pub_key_len sg.

(** The private-key container that encoding stores: version 0, the
    scheme with absent parameters, and the octet string of the private
    bytes followed by the public bytes. *)
Definition encoded_p8 `{HostConstants} (nid : Z) (priv pub : bytes) : PKCS8_PRIV_KEY_INFO :=
  {| p8_version := 0;
     pkeyalg := Some {| algorithm := OBJ_nid2obj nid; parameter_type := V_ASN1_UNDEF |};
     p8_pkey := {| ASN1_STRING_length := blen (der_octet_string (priv ++ pub));
                   ASN1_STRING_get0_data := Some (der_octet_string (priv ++ pub)) |} |}.

(** The calls of an allocation that got its record and the randomness
    source [r], and whose engine then gave no instance. *)
Definition engine_refused_trace `{HostConstants} (r : OQS_RAND) : trace :=
  [Ev.OPENSSL_zalloc b_oqs_key; Ev.OQS_RAND_new r; Ev.OQSerr ERR_R_FATAL;
   Ev.OPENSSL_free b_oqs_key].

(** In a trace, every call [a] is followed, later on, by a call [b]. *)
Definition followed_by (a b : Ev.event) (t : trace) : Prop :=
  forall t1 t2, t = t1 ++ a :: t2 -> In b t2.

(** ** A sample world *)

(** Values for the constants: those of the OpenSSL 1.1.1 and liboqs
    headers where they are fixed there, and an identifier for the scheme. *)
Definition sample_constants : HostConstants := {|
  NID_picnicL1FS := 1195;
  NID_undef := 0;
  OQS_SIG_picnic_L1_FS := 1;
  V_ASN1_UNDEF := -1;
  ERR_R_FATAL := 64;
  ERR_R_MALLOC_FAILURE := 65;
  OQS_SUCCESS := 0;
  EVP_PKEY_CTRL_MD := 1;
  EVP_PKEY_CTRL_DIGESTINIT := 7;
  X509_SIG_INFO_TLS := 1
|}.

(** A sample engine instance, with a 49-byte private key and a 33-byte
    public key. *)
Definition sample_rand : OQS_RAND := OQS_RAND_handle 0.

Definition sample_sig : OQS_SIG := {|
  rand := Some sample_rand;
  estimated_classical_security := 128;
  priv_key_len := 49;
  pub_key_len := 33;
  max_sig_len := 34032
|}.

(** The bytes [from], [from + 1], ... *)
Definition count_bytes (from len : nat) : bytes :=
  map (fun i => byte_of_N (N.of_nat i)) (seq from len).

Definition sample_privkey : bytes := count_bytes 1 49.
Definition sample_pubkey : bytes := count_bytes 101 33.

Definition sample_key : OQS_KEY := {|
  s := Some sample_sig;
  pubkey := Some sample_pubkey;
  privkey := Some sample_privkey
|}.

(** What may go wrong in the sample world. *)
Inductive fault : Type :=
| no_fault
| zalloc_fails
| malloc_fails
| secure_malloc_fails
| memdup_fails
| rand_new_fails
| keygen_fails
| sign_fails
| verify_fails
| get0_fails
| set0_fails
| i2d_fails
| d2i_fails
| verify_init_fails
| printf_fails.

Definition is_fault (f g : fault) : bool :=
  match f, g with
  | no_fault, no_fault | zalloc_fails, zalloc_fails | malloc_fails, malloc_fails
  | secure_malloc_fails, secure_malloc_fails | memdup_fails, memdup_fails
  | rand_new_fails, rand_new_fails | keygen_fails, keygen_fails
  | sign_fails, sign_fails | verify_fails, verify_fails | get0_fails, get0_fails
  | set0_fails, set0_fails | i2d_fails, i2d_fails | d2i_fails, d2i_fails
  | verify_init_fails, verify_init_fails | printf_fails, printf_fails => true
  | _, _ => false
  end.

(** The sample world under a fault: every collaborator answers well but
    the one the fault names; the engine knows selector 1 only, and leaves
    the sample key pair in the buffers it is handed. *)
Definition sample_env (f : fault) : Env := {|
  on_OPENSSL_zalloc := negb (is_fault f zalloc_fails);
  on_OPENSSL_malloc := fun _ => negb (is_fault f malloc_fails);
  on_OPENSSL_secure_malloc := fun _ => negb (is_fault f secure_malloc_fails);
  on_OPENSSL_memdup := fun _ => negb (is_fault f memdup_fails);
  uninit := fun _ => xaa;
  on_OQS_RAND_new := if is_fault f rand_new_fails then None else Some sample_rand;
  on_OQS_SIG_new := fun r algid =>
    if algid =? 1 then Some sample_sig else None;
  on_OQS_SIG_keygen := fun _ _ _ =>
    (if is_fault f keygen_fails then -1 else 0, sample_privkey, sample_pubkey);
  on_OQS_SIG_sign := fun _ _ _ _ sig _ =>
    (if is_fault f sign_fails then -1 else 0, sig, 34000);
  on_OQS_SIG_verify := fun _ _ _ _ _ _ => if is_fault f verify_fails then -1 else 0;
  on_X509_PUBKEY_get0_param := negb (is_fault f get0_fails);
  on_X509_PUBKEY_set0_param := negb (is_fault f set0_fails);
  on_PKCS8_pkey_get0 := negb (is_fault f get0_fails);
  on_PKCS8_pkey_set0 := negb (is_fault f set0_fails);
  on_i2d_ASN1_OCTET_STRING := negb (is_fault f i2d_fails);
  on_d2i_ASN1_OCTET_STRING := negb (is_fault f d2i_fails);
  on_EVP_DigestVerifyInit := if is_fault f verify_init_fails then 0 else 1;
  on_BIO_printf := fun _ => if is_fault f printf_fails then 0 else 1;
  on_ASN1_buf_print := 1;
  OBJ_nid2ln := fun _ => "picnicL1FS"%string
|}.

(** A key object of the scheme holding the sample key, and empty ones. *)
Definition sample_pkey : EVP_PKEY := {| ameth_pkey_id := 1195; ptr := Some sample_key |}.
Definition empty_pkey : EVP_PKEY := {| ameth_pkey_id := 1195; ptr := None |}.
Definition empty_string : ASN1_STRING :=
  {| ASN1_STRING_length := 0; ASN1_STRING_get0_data := None |}.
Definition empty_p8 : PKCS8_PRIV_KEY_INFO :=
  {| p8_version := 0; pkeyalg := None; p8_pkey := empty_string |}.
Definition empty_pubkey : X509_PUBKEY :=
  {| algor := None; public_key := empty_string |}.

(** The contexts through which sign and verify reach the sample key. *)
Definition sample_pkey_ctx : EVP_PKEY_CTX :=
  {| pmeth_pkey_id := 1195; ctx_pkey := Some sample_pkey |}.
Definition sample_md_ctx : EVP_MD_CTX :=
  {| EVP_MD_CTX_pkey_ctx := Some sample_pkey_ctx |}.
Definition keygen_ctx : EVP_PKEY_CTX :=
  {| pmeth_pkey_id := 1195; ctx_pkey := None |}.

(** The scheme's algorithm identifier with absent parameters, and with
    parameters of type 5 (an ASN.1 NULL). *)
Definition sample_algor : X509_ALGOR := {| algorithm := 1195; parameter_type := -1 |}.
Definition algor_with_null : X509_ALGOR := {| algorithm := 1195; parameter_type := 5 |}.

(** The public-key container of the sample key, and the same with a
    parameter. *)
Definition sample_pubkey_container : X509_PUBKEY :=
  {| algor := Some sample_algor;
     public_key := {| ASN1_STRING_length := 33;
                      ASN1_STRING_get0_data := Some sample_pubkey |} |}.

(** The private-key container of the sample key. *)
Definition sample_p8 : PKCS8_PRIV_KEY_INFO :=
  @encoded_p8 sample_constants 1195 sample_privkey sample_pubkey.

(** ** More of the sample world *)

(** The sample key without its private bytes, in a key object, and the
    contexts through which sign and verify reach it. *)
Definition sample_public_key : OQS_KEY :=
  {| s := Some sample_sig; pubkey := Some sample_pubkey; privkey := None |}.
Definition sample_public_pkey : EVP_PKEY :=
  {| ameth_pkey_id := 1195; ptr := Some sample_public_key |}.
Definition sample_public_md_ctx : EVP_MD_CTX :=
  {| EVP_MD_CTX_pkey_ctx :=
       Some {| pmeth_pkey_id := 1195; ctx_pkey := Some sample_public_pkey |} |}.

(** The private-key container of the sample key with a parameter in its
    algorithm identifier. *)
Definition p8_with_null : PKCS8_PRIV_KEY_INFO :=
  {| p8_version := 0; pkeyalg := Some algor_with_null; p8_pkey := p8_pkey sample_p8 |}.

(** A message and a signature buffer. *)
Definition sample_message : bytes := count_bytes 65 4.
Definition sample_sigbuf : bytes := count_bytes 0 8.

(** A signature buffer of the sample engine's maximum signature length. *)
Definition sample_signature_buffer : bytes := count_bytes 0 (Z.to_nat 34032).

(** A world with another engine constructor. *)
Definition with_engine (new : OQS_RAND -> Z -> option OQS_SIG) (e : Env) : Env := {|
  on_OPENSSL_zalloc := on_OPENSSL_zalloc e;
  on_OPENSSL_malloc := on_OPENSSL_malloc e;
  on_OPENSSL_secure_malloc := on_OPENSSL_secure_malloc e;
  on_OPENSSL_memdup := on_OPENSSL_memdup e;
  uninit := uninit e;
  on_OQS_RAND_new := on_OQS_RAND_new e;
  on_OQS_SIG_new := new;
  on_OQS_SIG_keygen := on_OQS_SIG_keygen e;
  on_OQS_SIG_sign := on_OQS_SIG_sign e;
  on_OQS_SIG_verify := on_OQS_SIG_verify e;
  on_X509_PUBKEY_get0_param := on_X509_PUBKEY_get0_param e;
  on_X509_PUBKEY_set0_param := on_X509_PUBKEY_set0_param e;
  on_PKCS8_pkey_get0 := on_PKCS8_pkey_get0 e;
  on_PKCS8_pkey_set0 := on_PKCS8_pkey_set0 e;
  on_i2d_ASN1_OCTET_STRING := on_i2d_ASN1_OCTET_STRING e;
  on_d2i_ASN1_OCTET_STRING := on_d2i_ASN1_OCTET_STRING e;
  on_EVP_DigestVerifyInit := on_EVP_DigestVerifyInit e;
  on_BIO_printf := on_BIO_printf e;
  on_ASN1_buf_print := on_ASN1_buf_print e;
  OBJ_nid2ln := OBJ_nid2ln e
|}.

(** The sample world with an engine that gives the sample instance for
    every selector, and with one that gives none. *)
Definition lenient_engine_env : Env :=
  with_engine (fun _ _ => Some sample_sig) (sample_env no_fault).
Definition no_engine_env : Env :=
  with_engine (fun _ _ => None) (sample_env no_fault).

(** An engine instance whose maximum signature length an [int] does not
    hold, and a key object with a record around it. *)
Definition wide_sig : OQS_SIG := {|
  rand := Some sample_rand;
  estimated_classical_security := 128;
  priv_key_len := 49;
  pub_key_len := 33;
  max_sig_len := 4294967295
|}.
Definition wide_pkey : EVP_PKEY :=
  {| ameth_pkey_id := 1195;
     ptr := Some {| s := Some wide_sig; pubkey := Some sample_pubkey;
                    privkey := Some sample_privkey |} |}.

(** The calls of teardown on the sample record. *)
Definition sample_teardown : trace :=
  [Ev.OQS_RAND_free sample_rand; Ev.OQS_SIG_free sample_sig;
   Ev.OPENSSL_secure_clear_free b_privkey 49; Ev.OPENSSL_free b_pubkey;
   Ev.OPENSSL_free b_oqs_key].

(** The trace of an allocation of a private record that the secure
    allocator refuses. *)
Definition refused_private_buffer_trace : trace :=
  [Ev.OPENSSL_zalloc b_oqs_key; Ev.OQS_RAND_new sample_rand; Ev.OQS_SIG_new sample_sig;
   Ev.OPENSSL_malloc b_pubkey 33; Ev.OQSerr 65;
   Ev.OQS_RAND_free sample_rand; Ev.OQS_SIG_free sample_sig;
   Ev.OPENSSL_free b_pubkey; Ev.OPENSSL_free b_oqs_key].

(** The trace of a key generation in which the engine fails. *)
Definition failed_keygen_trace : trace :=
  [Ev.OPENSSL_zalloc b_oqs_key; Ev.OQS_RAND_new sample_rand; Ev.OQS_SIG_new sample_sig;
   Ev.OPENSSL_malloc b_pubkey 33; Ev.OPENSSL_secure_malloc b_privkey 49;
   Ev.OQS_SIG_keygen sample_sig; Ev.OQSerr 64] ++ sample_teardown.

(** ** Tactics *)

Create HintDb oqs.

(** Closes a failure case: the outcome is the one computed, and the
    trace reports an error unless the host accessor refused. *)
Ltac failed :=
  eexists; split;
  [reflexivity | first [left; solve [assumption | reflexivity]
                      | right; cbn; solve [auto 10 with oqs]]].

(** Case analysis of a run: splits on the innermost test of the run [H]
    until its outcome is known. *)
Ltac crunch H :=
  repeat
    (cbv beta iota in H;
     match type of H with
     | None = Some _ => discriminate H
     | Some _ = Some _ => inversion H; subst; clear H
     | context [match ?x with _ => _ end] =>
         lazymatch x with
         | context [match _ with _ => _ end] => fail
         | _ => destruct x eqn:?
         end
     end).

(** Reads a split [t = t1 ++ a :: t2] of a trace whose calls are known,
    one position of [a] at a time, and closes the goal at each. *)
Ltac follows :=
  let t1 := fresh "t1" in
  let t2 := fresh "t2" in
  let Ht := fresh "Ht" in
  intros t1 t2 Ht;
  repeat (destruct t1 as [|? t1]; cbn in Ht; try discriminate Ht);
  inversion Ht; subst; cbn; auto 12.


(** * Properties *)

(** ** The codec round trip *)

Lemma byte_of_N_to_N (n : N) : (n < 256)%N -> Byte.to_N (byte_of_N n) = n.
Proof.
  intros Hn. unfold byte_of_N.
  rewrite N.mod_small by exact Hn.
  destruct (Byte.of_N n) as [b|] eqn:E.
  - now apply Byte.to_of_N.
  - apply Byte.of_N_None_iff in E. lia.
Qed.

Lemma byte_of_N_mod (n : N) : Byte.to_N (byte_of_N n) = (n mod 256)%N.
Proof.
  unfold byte_of_N.
  assert (Hlt : (n mod 256 < 256)%N) by (apply N.mod_upper_bound; lia).
  destruct (Byte.of_N (n mod 256)) as [b|] eqn:E.
  - now apply Byte.to_of_N.
  - apply Byte.of_N_None_iff in E. lia.
Qed.

Lemma be_bytes_length (k : nat) (n : N) : List.length (be_bytes k n) = k.
Proof. induction k as [|k IH]; simpl; [reflexivity | now rewrite IH]. Qed.

Lemma be_value_be_bytes_acc (k : nat) (n acc : N) :
  fold_left (fun a b => (a * 256 + Byte.to_N b)%N) (be_bytes k n) acc
  = (acc * 256 ^ N.of_nat k + n mod 256 ^ N.of_nat k)%N.
Proof.
  revert acc. induction k as [|k IH]; intros acc.
  - simpl. rewrite N.mod_1_r. lia.
  - cbn [be_bytes fold_left]. rewrite IH, byte_of_N_mod.
    rewrite N.shiftr_div_pow2.
    replace (2 ^ (8 * N.of_nat k))%N with (256 ^ N.of_nat k)%N
      by (rewrite N.pow_mul_r; reflexivity).
    replace (N.of_nat (S k)) with (N.succ (N.of_nat k)) by lia.
    rewrite N.pow_succ_r'.
    rewrite (N.mul_comm 256 (256 ^ N.of_nat k)).
    rewrite (N.Div0.mod_mul_r n (256 ^ N.of_nat k) 256).
    lia.
Qed.

Lemma be_value_be_bytes (k : nat) (n : N) :
  (n < 256 ^ N.of_nat k)%N -> be_value (be_bytes k n) = n.
Proof.
  intros Hn. unfold be_value. rewrite be_value_be_bytes_acc.
  rewrite N.mod_small by exact Hn. lia.
Qed.

Lemma length_octets_bound (n : N) : (n < 256 ^ N.of_nat (length_octets n))%N.
Proof.
  unfold length_octets. rewrite N2Nat.id.
  replace 256%N with (2 ^ 8)%N by reflexivity.
  rewrite <- N.pow_mul_r.
  apply N.lt_le_trans with (2 ^ N.size n)%N.
  - apply N.size_gt.
  - apply N.pow_le_mono_r; [lia|].
    pose proof (N.Div0.mul_div_le (N.size n + 7) 8) as H1.
    pose proof (N.Div0.div_mod (N.size n + 7) 8) as H2.
    pose proof (N.mod_upper_bound (N.size n + 7) 8) as H3.
    lia.
Qed.

Lemma length_octets_small (n : N) :
  (n < 2 ^ 32)%N -> (length_octets n <= 4)%nat.
Proof.
  intros Hn. unfold length_octets.
  assert (Hs : (N.size n <= 32)%N).
  { destruct (N.eq_dec n 0) as [->|Hz]; [cbn; lia|].
    rewrite N.size_log2 by exact Hz.
    assert (N.log2 n < 32)%N by (apply N.log2_lt_pow2; lia). lia. }
  assert ((N.size n + 7) / 8 <= 4)%N.
  { apply N.lt_succ_r. apply N.Div0.div_lt_upper_bound. lia. }
  lia.
Qed.

Lemma length_octets_pos (n : N) : (128 <= n)%N -> (1 <= length_octets n)%nat.
Proof.
  intros Hn. pose proof (length_octets_bound n) as Hb.
  destruct (length_octets n) as [|k]; [|lia].
  cbn in Hb. lia.
Qed.

Lemma get_put_length (n : N) (rest : bytes) :
  (n < 2 ^ 32)%N -> get_length (put_length n ++ rest) = Some (n, rest).
Proof.
  intros Hn. unfold put_length.
  destruct (n <? 128)%N eqn:Esmall.
  - apply N.ltb_lt in Esmall. cbn [app get_length].
    rewrite byte_of_N_to_N by lia.
    apply N.ltb_lt in Esmall. now rewrite Esmall.
  - apply N.ltb_ge in Esmall.
    pose proof (length_octets_small n Hn) as Hk4.
    pose proof (length_octets_pos n Esmall) as Hk1.
    set (k := length_octets n) in *.
    cbn [app get_length].
    rewrite byte_of_N_to_N by lia.
    replace (128 + N.of_nat k <? 128)%N with false by (symmetry; apply N.ltb_ge; lia).
    replace (N.to_nat (128 + N.of_nat k - 128)) with k by lia.
    replace (k =? 0)%nat with false by (symmetry; apply Nat.eqb_neq; lia).
    replace (List.length (be_bytes k n ++ rest) <? k)%nat with false
      by (symmetry; apply Nat.ltb_ge; rewrite length_app, be_bytes_length; lia).
    rewrite firstn_app, skipn_app, be_bytes_length, Nat.sub_diag.
    rewrite firstn_all2 by (rewrite be_bytes_length; lia).
    rewrite skipn_all2 by (rewrite be_bytes_length; lia).
    cbn [firstn skipn app]. rewrite app_nil_r.
    rewrite be_value_be_bytes by apply length_octets_bound.
    reflexivity.
Qed.

(** Decoding an encoded octet string gives its content back, for every
    content whose length a C [int] holds. *)
Lemma der_octet_string_roundtrip (content : bytes) :
  blen content < 2 ^ 31 ->
  der_octet_string_content (der_octet_string content) = Some content.
Proof.
  intros Hlen. unfold blen in Hlen.
  unfold der_octet_string, der_octet_string_content.
  cbn [Byte.eqb]. replace (Byte.eqb V_ASN1_OCTET_STRING V_ASN1_OCTET_STRING) with true by reflexivity.
  rewrite get_put_length by lia.
  rewrite Nnat.Nat2N.id, Nat.ltb_irrefl.
  now rewrite firstn_all.
Qed.

(** ** Teardown *)

Section Properties.
Context `{HostConstants}.

(** C2. Teardown is defined on every record, null and partly built ones
    too; on a null record it makes no call; otherwise it frees the
    randomness source, then the engine, then clears and frees the private
    bytes over the private-key length it read from the engine before
    freeing it, then frees the public bytes, and last the record: each
    call is made when its resource is there. *)
Theorem oqs_pkey_ctx_free_order (key : option OQS_KEY) (e : Env) :
  oqs_pkey_ctx_free key e =
  Some (tt,
        match key with
        | None => []
        | Some k =>
            let privkey_len :=
              match s k with
              | Some sg => priv_key_len sg
              | None => 0
              end in
            released (rand_of k) Ev.OQS_RAND_free
            ++ released (s k) Ev.OQS_SIG_free
            ++ released (privkey k)
                 (fun _ => Ev.OPENSSL_secure_clear_free b_privkey privkey_len)
            ++ released (pubkey k) (fun _ => Ev.OPENSSL_free b_pubkey)
            ++ [Ev.OPENSSL_free b_oqs_key]
        end).
Proof.
  destruct key as [[sg pub priv]|]; [|reflexivity].
  unfold oqs_pkey_ctx_free, rand_of, released,
    OQS_RAND_free, OQS_SIG_free, OPENSSL_secure_clear_free, OPENSSL_free.
  destruct sg as [[[r|] ecs pl ql ml]|], pub, priv; reflexivity.
Qed.

(** Teardown is defined on every record and in every world. *)
Lemma oqs_pkey_ctx_free_total (key : option OQS_KEY) (e : Env) :
  exists t, oqs_pkey_ctx_free key e = Some (tt, t).
Proof.
  destruct key as [[sg pub priv]|]; [|eexists; reflexivity].
  unfold oqs_pkey_ctx_free, OQS_RAND_free, OQS_SIG_free, OPENSSL_secure_clear_free, OPENSSL_free.
  destruct sg as [[[r|] ecs pl ql ml]|], pub, priv; eexists; reflexivity.
Qed.

(** ** Allocation *)

Lemma reports_error_app_l (t1 t2 : trace) : reports_error t1 -> reports_error (t1 ++ t2).
Proof. intros [r Hr]. exists r. apply in_or_app. now left. Qed.

Lemma reports_error_app_r (t1 t2 : trace) : reports_error t2 -> reports_error (t1 ++ t2).
Proof. intros [r Hr]. exists r. apply in_or_app. now right. Qed.

Lemma reports_error_cons (ev : Ev.event) (t : trace) : reports_error t -> reports_error (ev :: t).
Proof. intros [r Hr]. exists r. now right. Qed.

Lemma reports_error_here (r : Z) (t : trace) : reports_error (Ev.OQSerr r :: t).
Proof. exists r. now left. Qed.

#[local] Hint Resolve reports_error_app_l reports_error_app_r reports_error_cons
  reports_error_here : oqs.

(** Allocation is defined in every world.  It fails, leaves the caller's
    pointer as it was and reports an error, or it succeeds with the record
    built around the engine the world gives for the selector. *)
Lemma oqs_key_init_cases (p : option OQS_KEY) (nid : Z) (keytype : oqs_key_type_t) (e : Env) :
  (exists t, oqs_key_init p nid keytype e = Some ((0, p), t) /\ reports_error t)
  \/ (exists r sg,
        on_OQS_RAND_new e = Some r
        /\ on_OQS_SIG_new e r (get_oqs_alg_id nid) = Some sg
        /\ oqs_key_init p nid keytype e
           = Some ((1, Some (built e sg keytype)), built_trace r sg keytype)).
Proof.
  unfold oqs_key_init, OPENSSL_zalloc, OQS_RAND_new, OQS_SIG_new, OPENSSL_malloc,
    OPENSSL_secure_malloc, OQSerr, built, built_trace, bind, ret, emit.
  cbv beta.
  destruct (on_OPENSSL_zalloc e) eqn:Ez; cbv beta iota.
  2:{ left. eexists. split; [reflexivity|]. cbn. auto with oqs. }
  destruct (on_OQS_RAND_new e) as [r|] eqn:Er; cbv beta iota.
  2:{ left. eexists. split; [reflexivity|]. cbn. auto with oqs. }
  destruct (on_OQS_SIG_new e r (get_oqs_alg_id nid)) as [sg|] eqn:Es; cbv beta iota.
  2:{ left. eexists. split; [reflexivity|]. cbn. auto with oqs. }
  destruct (on_OPENSSL_malloc e (pub_key_len sg)) eqn:Em; cbv beta iota.
  2:{ left. destruct sg as [[rr|] ecs pl ql ml];
      (eexists; split; [reflexivity|]; cbn; auto 10 with oqs). }
  destruct keytype; cbv beta iota.
  - right. exists r, sg. split; [reflexivity|]. split; [exact Es|].
    reflexivity.
  - destruct (on_OPENSSL_secure_malloc e (priv_key_len sg)) eqn:Esm; cbv beta iota.
    + right. exists r, sg. split; [reflexivity|]. split; [exact Es|].
      reflexivity.
    + left. destruct sg as [[rr|] ecs pl ql ml];
        (eexists; split; [reflexivity|]; cbn; auto 10 with oqs).
Qed.

(** Allocation succeeds in a world that gives it what it asks for. *)
Lemma oqs_key_init_ok (p : option OQS_KEY) (nid : Z) (keytype : oqs_key_type_t) (e : Env)
  (r : OQS_RAND) (sg : OQS_SIG) :
  allocation_succeeds e nid keytype r sg ->
  oqs_key_init p nid keytype e
  = Some ((1, Some (built e sg keytype)), built_trace r sg keytype).
Proof.
  intros (Hz & Hr & Hs & Hm & Hsm).
  unfold oqs_key_init, OPENSSL_zalloc, OQS_RAND_new, OQS_SIG_new, OPENSSL_malloc,
    OPENSSL_secure_malloc, built, built_trace, bind, ret.
  cbv beta. rewrite Hz. cbv beta iota. rewrite Hr. cbv beta iota.
  rewrite Hs. cbv beta iota. rewrite Hm. cbv beta iota.
  destruct keytype; [reflexivity|].
  cbv beta iota. rewrite (Hsm eq_refl). reflexivity.
Qed.

(** ** Copies *)

Lemma blen_nonneg (b : bytes) : 0 <= blen b.
Proof. unfold blen. lia. Qed.

Lemma blen_fresh (e : Env) (n : Z) : 0 <= n -> blen (fresh e n) = n.
Proof. intros Hn. unfold blen, fresh. rewrite length_map, length_seq. lia. Qed.

Lemma blen_app (a b : bytes) : blen (a ++ b) = blen a + blen b.
Proof. unfold blen. rewrite length_app. lia. Qed.

(** Filling a whole block from the start of a source. *)
Lemma memcpy_whole (dest src : bytes) (n : Z) :
  0 <= n -> n <= blen src -> blen dest = n ->
  memcpy dest 0 src n = Some (firstn (Z.to_nat n) src).
Proof.
  intros Hn Hsrc Hdest. unfold memcpy.
  replace (0 <=? 0) with true by reflexivity.
  replace (0 <=? n) with true by (symmetry; apply Z.leb_le; lia).
  replace (n <=? blen src) with true by (symmetry; apply Z.leb_le; lia).
  replace (0 + n <=? blen dest) with true by (symmetry; apply Z.leb_le; lia).
  cbn [andb Z.to_nat firstn app]. f_equal.
  rewrite skipn_all2 by (unfold blen in Hdest; lia).
  apply app_nil_r.
Qed.

(** Two copies, one after the other, fill a block with the two sources. *)
Lemma memcpy_pair (dest a b : bytes) :
  blen dest = blen a + blen b ->
  exists mid,
    memcpy dest 0 a (blen a) = Some mid
    /\ memcpy mid (blen a) b (blen b) = Some (a ++ b).
Proof.
  intros Hdest.
  pose proof (blen_nonneg a) as Ha. pose proof (blen_nonneg b) as Hb.
  exists (a ++ skipn (Z.to_nat (blen a)) dest).
  assert (Hmid : blen (a ++ skipn (Z.to_nat (blen a)) dest) = blen a + blen b).
  { rewrite blen_app. unfold blen in *. rewrite length_skipn. lia. }
  split.
  - unfold memcpy.
    replace (0 <=? 0) with true by reflexivity.
    replace (0 <=? blen a) with true by (symmetry; apply Z.leb_le; lia).
    replace (blen a <=? blen a) with true by (symmetry; apply Z.leb_le; lia).
    replace (0 + blen a <=? blen dest) with true by (symmetry; apply Z.leb_le; lia).
    cbn [andb Z.to_nat firstn app]. f_equal. f_equal.
    apply firstn_all2. unfold blen. lia.
  - unfold memcpy.
    replace (0 <=? blen a) with true by (symmetry; apply Z.leb_le; lia).
    replace (0 <=? blen b) with true by (symmetry; apply Z.leb_le; lia).
    replace (blen b <=? blen b) with true by (symmetry; apply Z.leb_le; lia).
    rewrite Hmid.
    replace (blen a + blen b <=? blen a + blen b) with true by (symmetry; apply Z.leb_le; lia).
    cbn [andb]. f_equal.
    rewrite firstn_app.
    replace (Z.to_nat (blen a) - List.length a)%nat with 0%nat by (unfold blen; lia).
    rewrite (firstn_all2 a) by (unfold blen; lia).
    rewrite (firstn_all2 b) by (unfold blen; lia).
    set (mid := a ++ skipn (Z.to_nat (blen a)) dest) in *.
    rewrite (skipn_all2 mid) by (unfold blen in Hmid |- *; lia).
    cbn [firstn]. now rewrite !app_nil_r.
Qed.

(** ** Public-key decode *)

(** The parameter test of the decoders, spelled out. *)
Lemma parameters_present_true (palg : option X509_ALGOR) (alg : X509_ALGOR) :
  palg = Some alg -> parameter_type alg <> V_ASN1_UNDEF -> parameters_present palg = true.
Proof.
  intros -> Hp. unfold parameters_present, X509_ALGOR_get0.
  apply negb_true_iff, Z.eqb_neq, Hp.
Qed.

Lemma parameters_present_false (palg : option X509_ALGOR) :
  palg = None \/ (exists alg, palg = Some alg /\ parameter_type alg = V_ASN1_UNDEF) ->
  parameters_present palg = false.
Proof.
  intros [->|[alg [-> Hp]]]; [reflexivity|].
  unfold parameters_present, X509_ALGOR_get0. rewrite Hp, Z.eqb_refl. reflexivity.
Qed.

(** Public-key decode is defined in every world where it does not copy
    out of bounds; a failure leaves the key object as it was, and success
    means that every check passed. *)
Lemma oqs_pub_decode_cases (pkey : EVP_PKEY) (pk : X509_PUBKEY) (e : Env)
  (res : option (Z * EVP_PKEY * trace)) :
  oqs_pub_decode pkey pk e = res ->
  (exists t, res = Some ((0, pkey), t)
             /\ (on_X509_PUBKEY_get0_param e = false \/ reports_error t))
  \/ (exists r sg raw,
        on_X509_PUBKEY_get0_param e = true
        /\ ASN1_STRING_get0_data (public_key pk) = Some raw
        /\ parameters_present (algor pk) = false
        /\ on_OQS_RAND_new e = Some r
        /\ on_OQS_SIG_new e r (get_oqs_alg_id (ameth_pkey_id pkey)) = Some sg
        /\ ASN1_STRING_length (public_key pk) = pub_key_len sg
        /\ oqs_key_init None (ameth_pkey_id pkey) KEY_TYPE_PUBLIC e
           = Some ((1, Some (built e sg KEY_TYPE_PUBLIC)), built_trace r sg KEY_TYPE_PUBLIC)
        /\ res
           = match memcpy (fresh e (pub_key_len sg)) 0 raw (pub_key_len sg) with
             | Some pub =>
                 Some ((1, EVP_PKEY_assign pkey (ameth_pkey_id pkey)
                             (Some {| s := Some sg; pubkey := Some pub; privkey := None |})),
                       built_trace r sg KEY_TYPE_PUBLIC)
             | None => None
             end).
Proof.
  unfold oqs_pub_decode, X509_PUBKEY_get0_param.
  unfold bind at 1.
  destruct (on_X509_PUBKEY_get0_param e) eqn:Eg; [|intros <-; left; failed].
  cbv beta iota.
  destruct (ASN1_STRING_get0_data (public_key pk)) as [raw|] eqn:Eraw;
    [|intros <-; left; failed].
  destruct (parameters_present (algor pk)) eqn:Epar; [intros <-; left; failed|].
  unfold bind at 1.
  destruct (oqs_key_init_cases None (ameth_pkey_id pkey) KEY_TYPE_PUBLIC e)
    as [[t [Hinit Herr]]|[r [sg [Hr [Hs Hinit]]]]]; rewrite Hinit; cbv beta iota.
  - intros <-. left. failed.
  - unfold bind, ret, memcpy_to, deref, OQSerr, emit, set_pubkey. cbn.
    destruct (ASN1_STRING_length (public_key pk) =? pub_key_len sg) eqn:Elen; cbn.
    + intros <-. right. exists r, sg, raw. apply Z.eqb_eq in Elen.
      repeat (split; [first [reflexivity | assumption]|]).
      rewrite Elen.
      destruct (memcpy (fresh e (pub_key_len sg)) 0 raw (pub_key_len sg)); cbn; [|reflexivity].
      rewrite ?app_nil_r. reflexivity.
    + intros <-. left. destruct sg as [[rr|] ecs pl ql ml]; failed.
Qed.

(** Public-key decode succeeds on a well-formed container without
    parameters, of the engine's length, in a world that gives allocation
    what it asks for. *)
Lemma oqs_pub_decode_ok (pkey : EVP_PKEY) (pk : X509_PUBKEY) (e : Env)
  (r : OQS_RAND) (sg : OQS_SIG) (raw : bytes) :
  on_X509_PUBKEY_get0_param e = true ->
  ASN1_STRING_get0_data (public_key pk) = Some raw ->
  blen raw = ASN1_STRING_length (public_key pk) ->
  parameters_present (algor pk) = false ->
  allocation_succeeds e (ameth_pkey_id pkey) KEY_TYPE_PUBLIC r sg ->
  ASN1_STRING_length (public_key pk) = pub_key_len sg ->
  oqs_pub_decode pkey pk e
  = Some ((1, {| ameth_pkey_id := ameth_pkey_id pkey;
                 ptr := Some {| s := Some sg; pubkey := Some raw; privkey := None |} |}),
          built_trace r sg KEY_TYPE_PUBLIC).
Proof.
  intros Hg Hraw Hwf Hpar Halloc Hlen.
  pose proof (oqs_key_init_ok None _ _ _ _ _ Halloc) as Hinit.
  destruct (oqs_pub_decode_cases pkey pk e _ eq_refl)
    as [[t [Hfail _]]|(r' & sg' & raw' & _ & Hraw' & _ & Hr' & Hs' & Hlen' & _ & Hres)].
  - exfalso. revert Hfail.
    unfold oqs_pub_decode, X509_PUBKEY_get0_param.
    unfold bind at 1. rewrite Hg. cbv beta iota. rewrite Hraw, Hpar.
    unfold bind at 1. rewrite Hinit. cbv beta iota.
    unfold bind, ret, memcpy_to, deref, set_pubkey. cbn.
    rewrite Hlen, Z.eqb_refl. cbn.
    rewrite memcpy_whole
      by (rewrite ?blen_fresh; pose proof (blen_nonneg raw); lia).
    cbn. discriminate.
  - destruct Halloc as (_ & Hr & Hs & _).
    rewrite Hr in Hr'. injection Hr' as <-.
    rewrite Hs in Hs'. injection Hs' as <-.
    rewrite Hraw in Hraw'. injection Hraw' as <-.
    rewrite Hres.
    rewrite memcpy_whole
      by (rewrite ?blen_fresh; pose proof (blen_nonneg raw); lia).
    rewrite firstn_all2 by (unfold blen in Hwf; lia).
    reflexivity.
Qed.

(** C4. Public-key decode fails when the algorithm identifier carries
    parameters of any type but the "absent" one, and it fails when the
    length of the raw bytes is not the public-key length of the engine the
    world gives for the scheme; when both tests pass, on a well-formed
    container in a world that gives allocation what it asks for, it
    succeeds with a new public-only record that holds the raw bytes. *)
Theorem oqs_pub_decode_checks (pkey : EVP_PKEY) (pk : X509_PUBKEY) (e : Env) :
  (forall alg,
      algor pk = Some alg -> parameter_type alg <> V_ASN1_UNDEF ->
      exists t, oqs_pub_decode pkey pk e = Some ((0, pkey), t))
  /\ (forall r sg,
        on_OQS_RAND_new e = Some r ->
        on_OQS_SIG_new e r (get_oqs_alg_id (ameth_pkey_id pkey)) = Some sg ->
        ASN1_STRING_length (public_key pk) <> pub_key_len sg ->
        exists t, oqs_pub_decode pkey pk e = Some ((0, pkey), t))
  /\ (forall r sg raw,
        on_X509_PUBKEY_get0_param e = true ->
        ASN1_STRING_get0_data (public_key pk) = Some raw ->
        blen raw = ASN1_STRING_length (public_key pk) ->
        (algor pk = None
         \/ exists alg, algor pk = Some alg /\ parameter_type alg = V_ASN1_UNDEF) ->
        allocation_succeeds e (ameth_pkey_id pkey) KEY_TYPE_PUBLIC r sg ->
        ASN1_STRING_length (public_key pk) = pub_key_len sg ->
        oqs_pub_decode pkey pk e
        = Some ((1, {| ameth_pkey_id := ameth_pkey_id pkey;
                       ptr := Some {| s := Some sg; pubkey := Some raw; privkey := None |} |}),
                built_trace r sg KEY_TYPE_PUBLIC)).
Proof.
  split; [|split].
  - intros alg Halg Hp.
    destruct (oqs_pub_decode_cases pkey pk e _ eq_refl)
      as [[t [Hfail _]]|(r & sg & raw & _ & _ & Hpar & _)]; [now exists t|].
    rewrite (parameters_present_true _ _ Halg Hp) in Hpar. discriminate.
  - intros r sg Hr Hs Hlen.
    destruct (oqs_pub_decode_cases pkey pk e _ eq_refl)
      as [[t [Hfail _]]|(r' & sg' & raw & _ & _ & _ & Hr' & Hs' & Hlen' & _)]; [now exists t|].
    rewrite Hr in Hr'. injection Hr' as <-.
    rewrite Hs in Hs'. injection Hs' as <-.
    contradiction.
  - intros r sg raw Hg Hraw Hwf Hpar Halloc Hlen.
    apply oqs_pub_decode_ok; try assumption.
    now apply parameters_present_false.
Qed.

(** ** Private-key decode *)

Lemma d2i_ASN1_OCTET_STRING_payload (e : Env) (p8 : PKCS8_PRIV_KEY_INFO) :
  d2i_ASN1_OCTET_STRING (ASN1_STRING_get0_data (p8_pkey p8))
    (ASN1_STRING_length (p8_pkey p8)) e
  = Some (option_map (fun c => {| ASN1_STRING_length := blen c;
                                  ASN1_STRING_get0_data := Some c |}) (payload_of e p8),
          released (payload_of e p8) (fun _ => Ev.d2i_ASN1_OCTET_STRING b_oct)).
Proof.
  unfold d2i_ASN1_OCTET_STRING, payload_of.
  destruct (ASN1_STRING_get0_data (p8_pkey p8)) as [b|]; [|reflexivity].
  destruct (der_octet_string_content _); cbv beta;
    destruct (on_d2i_ASN1_OCTET_STRING e); reflexivity.
Qed.

(** Private-key decode either fails and leaves the key object as it was,
    or every check passed and the outcome is that of the two copies. *)
Lemma oqs_priv_decode_cases (pkey : EVP_PKEY) (p8 : PKCS8_PRIV_KEY_INFO) (e : Env)
  (res : option (Z * EVP_PKEY * trace)) :
  oqs_priv_decode pkey p8 e = res ->
  (exists t, res = Some ((0, pkey), t)
             /\ (on_PKCS8_pkey_get0 e = false \/ reports_error t))
  \/ (exists r sg,
        on_PKCS8_pkey_get0 e = true
        /\ parameters_present (pkeyalg p8) = false
        /\ on_OQS_RAND_new e = Some r
        /\ on_OQS_SIG_new e r (get_oqs_alg_id (ameth_pkey_id pkey)) = Some sg
        /\ payload_length e p8 = priv_key_len sg + pub_key_len sg
        /\ oqs_key_init None (ameth_pkey_id pkey) KEY_TYPE_PRIVATE e
           = Some ((1, Some (built e sg KEY_TYPE_PRIVATE)), built_trace r sg KEY_TYPE_PRIVATE)
        /\ res
           = match payload_of e p8 with
             | Some c =>
                 match memcpy (fresh e (priv_key_len sg)) 0 c (priv_key_len sg),
                       memcpy (fresh e (pub_key_len sg)) 0
                         (skipn (Z.to_nat (priv_key_len sg)) c) (pub_key_len sg) with
                 | Some priv, Some pub =>
                     Some ((1, EVP_PKEY_assign pkey (ameth_pkey_id pkey)
                                 (Some {| s := Some sg; pubkey := Some pub;
                                          privkey := Some priv |})),
                           Ev.d2i_ASN1_OCTET_STRING b_oct
                           :: built_trace r sg KEY_TYPE_PRIVATE
                           ++ [Ev.ASN1_OCTET_STRING_free b_oct])
                 | _, _ => None
                 end
             | None => None
             end).
Proof.
  unfold oqs_priv_decode, PKCS8_pkey_get0.
  unfold bind at 1.
  destruct (on_PKCS8_pkey_get0 e) eqn:Eg; [|intros <-; left; failed].
  cbv beta iota.
  unfold bind at 1. rewrite d2i_ASN1_OCTET_STRING_payload.
  unfold payload_length.
  destruct (parameters_present (pkeyalg p8)) eqn:Epar.
  { intros <-. left. destruct (payload_of e p8); failed. }
  destruct (oqs_key_init_cases None (ameth_pkey_id pkey) KEY_TYPE_PRIVATE e)
    as [[t [Hinit Herr]]|[r [sg [Hr [Hs Hinit]]]]].
  { intros <-. left. destruct (payload_of e p8); cbn; unfold bind at 1;
      rewrite Hinit; failed. }
  destruct (payload_of e p8) as [c|] eqn:Epay; cbn [option_map released].
  - unfold bind at 1. rewrite Hinit. cbv beta iota.
    unfold bind, ret, memcpy_to, deref, OQSerr, emit, set_pubkey, set_privkey,
      ASN1_OCTET_STRING_free. cbn.
    destruct (blen c =? priv_key_len sg + pub_key_len sg) eqn:Elen; cbn.
    + intros <-. right. exists r, sg. apply Z.eqb_eq in Elen.
      repeat (split; [first [reflexivity | assumption]|]).
      destruct (memcpy (fresh e (priv_key_len sg)) 0 c (priv_key_len sg)); cbn;
        [|reflexivity].
      destruct (memcpy (fresh e (pub_key_len sg)) 0 _ (pub_key_len sg)); cbn;
        [|reflexivity].
      rewrite ?app_nil_r. reflexivity.
    + intros <-. left. destruct sg as [[rr|] ecs pl ql ml]; failed.
  - unfold bind at 1. rewrite Hinit. cbv beta iota.
    unfold bind, ret, memcpy_to, deref, OQSerr, emit, undefined. cbn -[Z.eqb Z.add].
    destruct (0 =? priv_key_len sg + pub_key_len sg) eqn:Elen; cbn -[Z.eqb Z.add].
    + intros <-. right. exists r, sg. apply Z.eqb_eq in Elen.
      repeat (split; [first [reflexivity | assumption]|]).
      reflexivity.
    + intros <-. left. destruct sg as [[rr|] ecs pl ql ml]; failed.
Qed.

(** Private-key decode succeeds on a container without parameters whose
    payload has the engine's two lengths, in a world that gives allocation
    what it asks for: the payload is split at the private-key length. *)
Lemma oqs_priv_decode_ok (pkey : EVP_PKEY) (p8 : PKCS8_PRIV_KEY_INFO) (e : Env)
  (r : OQS_RAND) (sg : OQS_SIG) (c : bytes) :
  on_PKCS8_pkey_get0 e = true ->
  payload_of e p8 = Some c ->
  parameters_present (pkeyalg p8) = false ->
  allocation_succeeds e (ameth_pkey_id pkey) KEY_TYPE_PRIVATE r sg ->
  blen c = priv_key_len sg + pub_key_len sg ->
  0 <= priv_key_len sg -> 0 <= pub_key_len sg ->
  oqs_priv_decode pkey p8 e
  = Some ((1, {| ameth_pkey_id := ameth_pkey_id pkey;
                 ptr := Some {| s := Some sg;
                                pubkey := Some (skipn (Z.to_nat (priv_key_len sg)) c);
                                privkey := Some (firstn (Z.to_nat (priv_key_len sg)) c) |} |}),
          Ev.d2i_ASN1_OCTET_STRING b_oct
          :: built_trace r sg KEY_TYPE_PRIVATE ++ [Ev.ASN1_OCTET_STRING_free b_oct]).
Proof.
  intros Hg Hpay Hpar Halloc Hlen Hpriv Hpub.
  pose proof (oqs_key_init_ok None _ _ _ _ _ Halloc) as Hinit.
  assert (Hskip : blen (skipn (Z.to_nat (priv_key_len sg)) c) = pub_key_len sg).
  { unfold blen in *. rewrite length_skipn. lia. }
  unfold oqs_priv_decode, PKCS8_pkey_get0.
  unfold bind at 1. rewrite Hg. cbv beta iota.
  unfold bind at 1. rewrite d2i_ASN1_OCTET_STRING_payload, Hpay, Hpar.
  cbn [option_map released].
  unfold bind at 1. rewrite Hinit. cbv beta iota.
  unfold bind, ret, memcpy_to, deref, set_pubkey, set_privkey, ASN1_OCTET_STRING_free, emit.
  cbn -[Z.eqb Z.add]. rewrite Hlen, Z.eqb_refl. cbn -[Z.eqb Z.add].
  rewrite memcpy_whole by (rewrite ?blen_fresh; lia).
  cbn -[Z.eqb Z.add].
  rewrite memcpy_whole by (rewrite ?blen_fresh; lia).
  cbn -[Z.eqb Z.add].
  rewrite (firstn_all2 (n := Z.to_nat (pub_key_len sg)))
    by (unfold blen in Hskip; lia).
  rewrite ?app_nil_r. reflexivity.
Qed.

(** C5. Private-key decode fails when the length of the unwrapped payload
    is not the sum of the private-key and public-key lengths of the engine
    the world gives for the scheme; when it is, on a container that passes
    the other checks in a world that gives allocation what it asks for, the
    payload is split at the private-key length: the first part becomes the
    private bytes and the second part the public bytes. *)
Theorem oqs_priv_decode_split (pkey : EVP_PKEY) (p8 : PKCS8_PRIV_KEY_INFO) (e : Env) :
  (forall r sg,
      on_OQS_RAND_new e = Some r ->
      on_OQS_SIG_new e r (get_oqs_alg_id (ameth_pkey_id pkey)) = Some sg ->
      payload_length e p8 <> priv_key_len sg + pub_key_len sg ->
      exists t, oqs_priv_decode pkey p8 e = Some ((0, pkey), t))
  /\ (forall r sg c,
        on_PKCS8_pkey_get0 e = true ->
        payload_of e p8 = Some c ->
        (pkeyalg p8 = None
         \/ exists alg, pkeyalg p8 = Some alg /\ parameter_type alg = V_ASN1_UNDEF) ->
        allocation_succeeds e (ameth_pkey_id pkey) KEY_TYPE_PRIVATE r sg ->
        0 <= priv_key_len sg -> 0 <= pub_key_len sg ->
        blen c = priv_key_len sg + pub_key_len sg ->
        exists t,
          oqs_priv_decode pkey p8 e
          = Some ((1, {| ameth_pkey_id := ameth_pkey_id pkey;
                         ptr := Some {| s := Some sg;
                                        pubkey := Some (skipn (Z.to_nat (priv_key_len sg)) c);
                                        privkey := Some (firstn (Z.to_nat (priv_key_len sg)) c)
                                     |} |}), t)).
Proof.
  split.
  - intros r sg Hr Hs Hlen.
    destruct (oqs_priv_decode_cases pkey p8 e _ eq_refl)
      as [[t [Hfail _]]|(r' & sg' & _ & _ & Hr' & Hs' & Hlen' & _)]; [now exists t|].
    rewrite Hr in Hr'. injection Hr' as <-.
    rewrite Hs in Hs'. injection Hs' as <-.
    contradiction.
  - intros r sg c Hg Hpay Hpar Halloc Hpriv Hpub Hlen.
    eexists. apply oqs_priv_decode_ok; try eassumption.
    now apply parameters_present_false.
Qed.

(** ** Containers without an algorithm identifier *)

(** C10. In both decoders the parameter test is made on the algorithm
    identifier of the container only when it has one: a container whose
    algorithm identifier is missing passes the test, and it decodes, in
    every world, exactly as the same container with an identifier whose
    parameters are absent. *)
Theorem decode_without_algor (pkey : EVP_PKEY) (e : Env) (aobj : ASN1_OBJECT) :
  parameters_present None = false
  /\ (forall key_bits,
        oqs_pub_decode pkey {| algor := None; public_key := key_bits |} e
        = oqs_pub_decode pkey
            {| algor := Some {| algorithm := aobj; parameter_type := V_ASN1_UNDEF |};
               public_key := key_bits |} e)
  /\ (forall version octets,
        oqs_priv_decode pkey
          {| p8_version := version; pkeyalg := None; p8_pkey := octets |} e
        = oqs_priv_decode pkey
            {| p8_version := version;
               pkeyalg := Some {| algorithm := aobj; parameter_type := V_ASN1_UNDEF |};
               p8_pkey := octets |} e).
Proof.
  assert (Habsent : parameters_present
                      (Some {| algorithm := aobj; parameter_type := V_ASN1_UNDEF |}) = false).
  { apply parameters_present_false. right. eexists. split; reflexivity. }
  split; [reflexivity|split].
  - intros key_bits. unfold oqs_pub_decode, X509_PUBKEY_get0_param, bind.
    cbn [algor public_key]. cbv beta.
    destruct (on_X509_PUBKEY_get0_param e); [|reflexivity].
    cbv beta iota. rewrite Habsent. reflexivity.
  - intros version octets. unfold oqs_priv_decode, PKCS8_pkey_get0, bind.
    cbn [pkeyalg p8_pkey]. cbv beta.
    destruct (on_PKCS8_pkey_get0 e); [|reflexivity].
    cbv beta iota. rewrite Habsent. reflexivity.
Qed.

(** ** The size query of sign *)

(** C8, as the code has it.  The size query of sign is marked by the
    signature buffer, not by the message: with a private-capable record
    in the key object, sign called with a null signature buffer succeeds,
    stores the engine's maximum signature length in the length, and calls
    nothing, neither the engine's signing operation nor the error report,
    whatever the message pointer is.  A null message is no size query:
    with a signature buffer whose announced length the engine's maximum
    fits in, the engine's signing operation is called, on the null
    message. *)
Theorem pkey_oqs_digestsign_size_query (ctx : EVP_MD_CTX) (pctx : EVP_PKEY_CTX)
  (pkey : EVP_PKEY) (k : OQS_KEY) (sg : OQS_SIG) (priv : bytes)
  (siglen : Z) (tbs : option bytes) (tbslen : Z) (e : Env) :
  EVP_MD_CTX_pkey_ctx ctx = Some pctx ->
  ctx_pkey pctx = Some pkey ->
  ptr pkey = Some k ->
  s k = Some sg ->
  privkey k = Some priv ->
  pkey_oqs_digestsign ctx None siglen tbs tbslen e = Some ((1, None, max_sig_len sg), [])
  /\ forall sigbuf buflen len,
       max_sig_len sg <= buflen ->
       exists res t,
         pkey_oqs_digestsign ctx (Some sigbuf) buflen None len e
         = Some (res, Ev.OQS_SIG_sign sg :: t)
         /\ (fst (fst res) = 1
             <-> fst (fst (on_OQS_SIG_sign e sg priv None len sigbuf buflen)) = OQS_SUCCESS).
Proof.
  intros Hctx Hpctx Hptr Hs Hpriv.
  unfold pkey_oqs_digestsign. rewrite Hctx.
  unfold bind, ret, deref. cbn -[Z.ltb Z.eqb]. rewrite Hpctx. cbn -[Z.ltb Z.eqb]. rewrite Hptr.
  destruct k as [s0 pub0 priv0]. cbn in Hs, Hpriv. subst s0 priv0.
  split; [reflexivity|].
  intros sigbuf buflen len Hlen. apply Z.ltb_ge in Hlen. rewrite Hlen.
  unfold OQS_SIG_sign, OQSerr, emit, ask. cbv beta iota.
  destruct (on_OQS_SIG_sign e sg priv None len sigbuf buflen) as [[status out] outlen].
  cbn [fst]. destruct (Z.eqb_spec status OQS_SUCCESS) as [Hst|Hst]; cbn [negb].
  - do 2 eexists. split; [reflexivity|]. cbn. tauto.
  - do 2 eexists. split; [reflexivity|]. cbn. split; [discriminate|contradiction].
Qed.

(** ** Private-key encode *)

(** What private-key encode does with a valid private-capable record, by
    the answers of the secure allocator, the octet-string encoder and the
    container accessor. *)
Lemma oqs_priv_encode_run (p8 : PKCS8_PRIV_KEY_INFO) (pkey : EVP_PKEY) (e : Env)
  (k : OQS_KEY) (sg : OQS_SIG) (priv pub : bytes) :
  ptr pkey = Some k ->
  valid_private_record k sg priv pub ->
  let buflen := priv_key_len sg + pub_key_len sg in
  let penclen := blen (der_octet_string (priv ++ pub)) in
  oqs_priv_encode p8 pkey e
  = if negb (on_OPENSSL_secure_malloc e buflen)
    then Some ((0, p8), [Ev.OQSerr ERR_R_MALLOC_FAILURE])
    else if negb (on_i2d_ASN1_OCTET_STRING e)
    then Some ((0, p8), [Ev.OPENSSL_secure_malloc b_buf buflen;
                         Ev.OQSerr ERR_R_MALLOC_FAILURE])
    else if negb (on_PKCS8_pkey_set0 e)
    then Some ((0, p8), [Ev.OPENSSL_secure_malloc b_buf buflen;
                         Ev.i2d_ASN1_OCTET_STRING b_penc penclen;
                         Ev.OPENSSL_secure_clear_free b_buf buflen;
                         Ev.OPENSSL_clear_free b_penc penclen;
                         Ev.OQSerr ERR_R_MALLOC_FAILURE])
    else Some ((1, encoded_p8 (ameth_pkey_id pkey) priv pub),
               [Ev.OPENSSL_secure_malloc b_buf buflen;
                Ev.i2d_ASN1_OCTET_STRING b_penc penclen;
                Ev.OPENSSL_secure_clear_free b_buf buflen]).
Proof.
  intros Hptr (Hs & Hpriv & Hpub & Hlpriv & Hlpub) buflen penclen.
  pose proof (blen_nonneg priv) as Hnpriv. pose proof (blen_nonneg pub) as Hnpub.
  assert (Hfresh : blen (fresh e buflen) = blen priv + blen pub)
    by (rewrite blen_fresh; subst buflen; lia).
  destruct (memcpy_pair (fresh e buflen) priv pub Hfresh) as (mid & Hc1 & Hc2).
  rewrite Hlpriv in Hc1. rewrite Hlpriv, Hlpub in Hc2.
  unfold oqs_priv_encode. rewrite Hptr.
  unfold bind at 1. cbn [deref ret]. cbv beta iota. rewrite Hs.
  unfold bind at 1. cbn [deref ret]. cbv beta iota.
  fold buflen. unfold bind at 1. unfold OPENSSL_secure_malloc at 1.
  destruct (on_OPENSSL_secure_malloc e buflen); cbn [negb]; [|reflexivity].
  cbv beta iota. rewrite Hpriv, Hpub.
  unfold memcpy_to, i2d_ASN1_OCTET_STRING, PKCS8_pkey_set0.
  unfold bind, ret, deref, OQSerr, emit, OPENSSL_secure_clear_free, OPENSSL_clear_free, undefined.
  cbn -[Z.ltb Z.add der_octet_string blen]. rewrite Hc1.
  cbn -[Z.ltb Z.add der_octet_string blen]. rewrite Hc2.
  cbn -[Z.ltb Z.add der_octet_string blen].
  replace (buflen <? 0) with false by (symmetry; apply Z.ltb_ge; subst buflen; lia).
  replace (blen (priv ++ pub) <? buflen) with false
    by (symmetry; apply Z.ltb_ge; rewrite blen_app; subst buflen; lia).
  cbn -[Z.ltb Z.add der_octet_string blen].
  rewrite firstn_all2 by (pose proof (blen_app priv pub); unfold blen in *; subst buflen; lia).
  fold penclen.
  destruct (on_i2d_ASN1_OCTET_STRING e); cbn -[Z.add der_octet_string blen];
    [|reflexivity].
  replace (penclen <? 0) with false
    by (symmetry; apply Z.ltb_ge; apply blen_nonneg).
  destruct (on_PKCS8_pkey_set0 e); cbn -[Z.add der_octet_string blen]; reflexivity.
Qed.

(** On every path of encode that gets past the octet-string encoder, the
    buffer taken from the secure allocator is cleared and freed over its
    whole length. *)
Lemma oqs_priv_encode_clears_buffer (p8 : PKCS8_PRIV_KEY_INFO) (pkey : EVP_PKEY) (e : Env)
  (k : OQS_KEY) (sg : OQS_SIG) (priv pub : bytes) :
  ptr pkey = Some k ->
  valid_private_record k sg priv pub ->
  on_i2d_ASN1_OCTET_STRING e = true ->
  exists r p8' t,
    oqs_priv_encode p8 pkey e = Some ((r, p8'), t)
    /\ (In (Ev.OPENSSL_secure_malloc b_buf (priv_key_len sg + pub_key_len sg)) t ->
        In (Ev.OPENSSL_secure_clear_free b_buf (priv_key_len sg + pub_key_len sg)) t).
Proof.
  intros Hptr Hvalid Hi2d.
  rewrite (oqs_priv_encode_run p8 pkey e k sg priv pub Hptr Hvalid), Hi2d.
  destruct (on_OPENSSL_secure_malloc e _), (on_PKCS8_pkey_set0 e); cbn [negb];
    do 3 eexists; (split; [reflexivity|]); cbn; intuition congruence.
Qed.

(** C1. The code at the failing input.  Private-key encode takes its
    buffer from the secure allocator; when the octet-string encoder then
    fails, encode reports the error and returns 0 with the buffer, which
    holds the private bytes, neither cleared nor freed. *)
Theorem oqs_priv_encode_i2d_failure (p8 : PKCS8_PRIV_KEY_INFO) (pkey : EVP_PKEY) (e : Env)
  (k : OQS_KEY) (sg : OQS_SIG) (priv pub : bytes) :
  ptr pkey = Some k ->
  valid_private_record k sg priv pub ->
  on_OPENSSL_secure_malloc e (priv_key_len sg + pub_key_len sg) = true ->
  on_i2d_ASN1_OCTET_STRING e = false ->
  exists t,
    oqs_priv_encode p8 pkey e = Some ((0, p8), t)
    /\ In (Ev.OPENSSL_secure_malloc b_buf (priv_key_len sg + pub_key_len sg)) t
    /\ (forall num, ~ In (Ev.OPENSSL_secure_clear_free b_buf num) t)
    /\ (forall p, ~ In (Ev.OPENSSL_free p) t).
Proof.
  intros Hptr Hvalid Hsm Hi2d.
  rewrite (oqs_priv_encode_run p8 pkey e k sg priv pub Hptr Hvalid), Hsm, Hi2d.
  cbn [negb]. eexists. split; [reflexivity|].
  cbn. repeat split; [now left| |]; intros x [Hx|[Hx|[]]]; discriminate.
Qed.

(** ** The private-key round trip *)

Lemma firstn_app_exact {A : Type} (a b : list A) : firstn (List.length a) (a ++ b) = a.
Proof.
  rewrite firstn_app, Nat.sub_diag, firstn_all. cbn. apply app_nil_r.
Qed.

Lemma skipn_app_exact {A : Type} (a b : list A) : skipn (List.length a) (a ++ b) = b.
Proof.
  rewrite skipn_app, Nat.sub_diag, skipn_all. reflexivity.
Qed.

(** The payload of an encoded container is the private bytes followed by
    the public bytes. *)
Lemma payload_of_encoded_p8 (e : Env) (nid : Z) (priv pub : bytes) :
  on_d2i_ASN1_OCTET_STRING e = true ->
  blen (priv ++ pub) < 2 ^ 31 ->
  payload_of e (encoded_p8 nid priv pub) = Some (priv ++ pub).
Proof.
  intros Hd2i Hlen. unfold payload_of, encoded_p8.
  cbn [p8_pkey ASN1_STRING_get0_data ASN1_STRING_length]. rewrite Hd2i.
  rewrite firstn_all2 by (unfold blen; lia).
  now apply der_octet_string_roundtrip.
Qed.

(** C3. Encoding a valid private-capable record and decoding the
    container it gives yields a record with the same private bytes and the
    same public bytes, in a world where the collaborators of both
    operations succeed and give decode an engine of the same two lengths. *)
Theorem oqs_priv_roundtrip (p8 : PKCS8_PRIV_KEY_INFO) (pkey target : EVP_PKEY) (e : Env)
  (k : OQS_KEY) (sg : OQS_SIG) (priv pub : bytes) (r : OQS_RAND) (sg' : OQS_SIG) :
  ptr pkey = Some k ->
  valid_private_record k sg priv pub ->
  priv_key_len sg + pub_key_len sg < 2 ^ 31 ->
  on_OPENSSL_secure_malloc e (priv_key_len sg + pub_key_len sg) = true ->
  on_i2d_ASN1_OCTET_STRING e = true ->
  on_PKCS8_pkey_set0 e = true ->
  on_PKCS8_pkey_get0 e = true ->
  on_d2i_ASN1_OCTET_STRING e = true ->
  allocation_succeeds e (ameth_pkey_id target) KEY_TYPE_PRIVATE r sg' ->
  priv_key_len sg' = priv_key_len sg ->
  pub_key_len sg' = pub_key_len sg ->
  exists p8' t1 t2,
    oqs_priv_encode p8 pkey e = Some ((1, p8'), t1)
    /\ oqs_priv_decode target p8' e
       = Some ((1, {| ameth_pkey_id := ameth_pkey_id target;
                      ptr := Some {| s := Some sg'; pubkey := Some pub;
                                     privkey := Some priv |} |}), t2).
Proof.
  intros Hptr Hvalid Hint Hsm Hi2d Hset Hget Hd2i Halloc Hlpriv' Hlpub'.
  pose proof Hvalid as (_ & _ & _ & Hlpriv & Hlpub).
  exists (encoded_p8 (ameth_pkey_id pkey) priv pub). do 2 eexists. split.
  - rewrite (oqs_priv_encode_run p8 pkey e k sg priv pub Hptr Hvalid), Hsm, Hi2d, Hset.
    reflexivity.
  - pose proof (blen_nonneg priv) as Hnpriv. pose proof (blen_nonneg pub) as Hnpub.
    rewrite (oqs_priv_decode_ok target _ e r sg' (priv ++ pub)); try assumption.
    + rewrite Hlpriv', <- Hlpriv. unfold blen. rewrite Nat2Z.id.
      rewrite firstn_app_exact, skipn_app_exact. reflexivity.
    + apply payload_of_encoded_p8; [assumption|]. rewrite blen_app. lia.
    + apply parameters_present_false. right. eexists. split; reflexivity.
    + rewrite blen_app. lia.
    + lia.
    + lia.
Qed.

(** ** Key generation *)

(** Key generation is defined in every world: it fails, reports an error
    and leaves the key object as it was, or it succeeds with the record
    built around the engine, holding the key pair the engine left. *)
Lemma pkey_oqs_keygen_cases (ctx : EVP_PKEY_CTX) (pkey : EVP_PKEY) (e : Env)
  (res : option (Z * EVP_PKEY * trace)) :
  pkey_oqs_keygen ctx pkey e = res ->
  (exists t, res = Some ((0, pkey), t) /\ reports_error t)
  \/ (exists r sg priv pub,
        on_OQS_RAND_new e = Some r
        /\ on_OQS_SIG_new e r (get_oqs_alg_id (pmeth_pkey_id ctx)) = Some sg
        /\ res = Some ((1, EVP_PKEY_assign pkey (pmeth_pkey_id ctx)
                            (Some {| s := Some sg; pubkey := Some pub;
                                     privkey := Some priv |})),
                       built_trace r sg KEY_TYPE_PRIVATE ++ [Ev.OQS_SIG_keygen sg])).
Proof.
  unfold pkey_oqs_keygen.
  unfold bind at 1.
  destruct (oqs_key_init_cases None (pmeth_pkey_id ctx) KEY_TYPE_PRIVATE e)
    as [[t [Hinit Herr]]|[r [sg [Hr [Hs Hinit]]]]]; rewrite Hinit; cbv beta iota.
  - intros <-. left. eexists. split; [reflexivity|]. cbn. auto 10 with oqs.
  - change (1 =? 0) with false. cbv beta iota.
    unfold OQS_SIG_keygen, bind, ret, deref, emit, ask, OQSerr, set_pubkey, set_privkey.
    cbn -[Z.eqb].
    destruct (on_OQS_SIG_keygen e sg (fresh e (priv_key_len sg)) (fresh e (pub_key_len sg)))
      as [[status priv] pub].
    destruct (status =? OQS_SUCCESS); cbn -[Z.eqb].
    + intros <-. right. exists r, sg, priv, pub.
      repeat (split; [assumption|]). rewrite ?app_nil_r. reflexivity.
    + intros <-. left. destruct sg as [[rr|] ecs pl ql ml];
        (eexists; split; [reflexivity|]; cbn; auto 10 with oqs).
Qed.

(** ** The records the adapter constructs *)

(** C9. A record constructed by key generation, by public-key decode or
    by private-key decode that has private bytes has public bytes; and
    the call that made it took the private bytes from the secure allocator
    only after it had the public bytes from the allocator. *)
Theorem constructed_private_has_public (k : OQS_KEY) (t : trace) :
  constructed k t ->
  privkey k <> None ->
  pubkey k <> None
  /\ exists t1 t2 sg,
       t = t1 ++ Ev.OPENSSL_malloc b_pubkey (pub_key_len sg) :: t2
       /\ In (Ev.OPENSSL_secure_malloc b_privkey (priv_key_len sg)) t2
       /\ (forall num, ~ In (Ev.OPENSSL_secure_malloc b_privkey num) t1).
Proof.
  intros [ctx pkey pkey' e Hrun Hptr|pkey pkey' pk e Hrun Hptr|pkey pkey' p8 e Hrun Hptr] Hpriv.
  - destruct (pkey_oqs_keygen_cases ctx pkey e _ Hrun)
      as [[t' [Hfail _]]|(r & sg & priv & pub & _ & _ & Hres)]; [discriminate|].
    injection Hres as -> ->. cbn in Hptr. injection Hptr as <-.
    split; [discriminate|].
    exists [Ev.OPENSSL_zalloc b_oqs_key; Ev.OQS_RAND_new r; Ev.OQS_SIG_new sg],
      [Ev.OPENSSL_secure_malloc b_privkey (priv_key_len sg); Ev.OQS_SIG_keygen sg], sg.
    split; [reflexivity|]. split; [now left|].
    intros num [Hx|[Hx|[Hx|[]]]]; discriminate.
  - destruct (oqs_pub_decode_cases pkey pk e _ Hrun)
      as [[t' [Hfail _]]|(r & sg & raw & _ & _ & _ & _ & _ & _ & _ & Hres)]; [discriminate|].
    destruct (memcpy _ _ _ _); [|discriminate].
    injection Hres as -> ->. cbn in Hptr. injection Hptr as <-.
    now contradiction Hpriv.
  - destruct (oqs_priv_decode_cases pkey p8 e _ Hrun)
      as [[t' [Hfail _]]|(r & sg & _ & _ & _ & _ & _ & _ & Hres)]; [discriminate|].
    destruct (payload_of e p8) as [c|]; [|discriminate].
    destruct (memcpy _ _ _ _); [|discriminate].
    destruct (memcpy _ _ _ _); [|discriminate].
    injection Hres as -> ->. cbn in Hptr. injection Hptr as <-.
    split; [discriminate|].
    exists [Ev.d2i_ASN1_OCTET_STRING b_oct; Ev.OPENSSL_zalloc b_oqs_key;
            Ev.OQS_RAND_new r; Ev.OQS_SIG_new sg],
      [Ev.OPENSSL_secure_malloc b_privkey (priv_key_len sg);
       Ev.ASN1_OCTET_STRING_free b_oct], sg.
    split; [reflexivity|]. split; [now left|].
    intros num [Hx|[Hx|[Hx|[Hx|[]]]]]; discriminate.
Qed.

(** ** Unsupported algorithms *)

(** C6, as the code has it.  For an identifier that is not the one
    supported scheme the selector is -1, and allocation hands it to the
    engine constructor without a test of its own, so the outcome is the
    engine's:
    - an engine that gives an instance for -1 makes allocation succeed
      and build a record around it;
    - when the engine refuses, allocation fails without a record and
      reports ERR_R_FATAL, exactly as it does for the supported scheme
      when its engine cannot be constructed; a public-key decode, a
      private-key decode and a key generation that reach the allocation
      report ERR_R_FATAL once more, return 0 and leave the key object as
      it was;
    - with an engine that knows no selector -1, in any world, allocation,
      the two decoders and key generation fail for that identifier, with
      an error report unless a decoder's container accessor refused. *)
Theorem unsupported_algorithm_left_to_engine (nid : Z) (e : Env) :
  nid <> NID_picnicL1FS ->
  get_oqs_alg_id nid = -1
  /\ (forall p keytype r sg,
        on_OPENSSL_zalloc e = true ->
        on_OQS_RAND_new e = Some r ->
        on_OQS_SIG_new e r (-1) = Some sg ->
        on_OPENSSL_malloc e (pub_key_len sg) = true ->
        (keytype = KEY_TYPE_PRIVATE -> on_OPENSSL_secure_malloc e (priv_key_len sg) = true) ->
        oqs_key_init p nid keytype e
        = Some ((1, Some (built e sg keytype)), built_trace r sg keytype))
  /\ (forall r,
        on_OPENSSL_zalloc e = true ->
        on_OQS_RAND_new e = Some r ->
        on_OQS_SIG_new e r (-1) = None ->
        (forall p keytype,
            oqs_key_init p nid keytype e = Some ((0, p), engine_refused_trace r))
        /\ (forall p keytype e',
              on_OPENSSL_zalloc e' = true ->
              on_OQS_RAND_new e' = Some r ->
              on_OQS_SIG_new e' r OQS_SIG_picnic_L1_FS = None ->
              oqs_key_init p NID_picnicL1FS keytype e' = oqs_key_init p nid keytype e)
        /\ (forall pkey pk res t,
              ameth_pkey_id pkey = nid ->
              oqs_pub_decode pkey pk e = Some (res, t) ->
              In (Ev.OPENSSL_zalloc b_oqs_key) t ->
              res = (0, pkey)
              /\ t = engine_refused_trace r ++ [Ev.OQSerr ERR_R_FATAL])
        /\ (forall pkey p8 res t,
              ameth_pkey_id pkey = nid ->
              oqs_priv_decode pkey p8 e = Some (res, t) ->
              In (Ev.OPENSSL_zalloc b_oqs_key) t ->
              res = (0, pkey)
              /\ t = released (payload_of e p8) (fun _ => Ev.d2i_ASN1_OCTET_STRING b_oct)
                     ++ engine_refused_trace r ++ [Ev.OQSerr ERR_R_FATAL])
        /\ (forall ctx pkey,
              pmeth_pkey_id ctx = nid ->
              pkey_oqs_keygen ctx pkey e
              = Some ((0, pkey), engine_refused_trace r ++ [Ev.OQSerr ERR_R_FATAL])))
  /\ ((forall r, on_OQS_SIG_new e r (-1) = None) ->
      (forall p keytype,
          exists t, oqs_key_init p nid keytype e = Some ((0, p), t) /\ reports_error t)
      /\ (forall pkey pk,
            ameth_pkey_id pkey = nid ->
            exists t, oqs_pub_decode pkey pk e = Some ((0, pkey), t)
                      /\ (on_X509_PUBKEY_get0_param e = false \/ reports_error t))
      /\ (forall pkey p8,
            ameth_pkey_id pkey = nid ->
            exists t, oqs_priv_decode pkey p8 e = Some ((0, pkey), t)
                      /\ (on_PKCS8_pkey_get0 e = false \/ reports_error t))
      /\ (forall ctx pkey,
            pmeth_pkey_id ctx = nid ->
            exists t, pkey_oqs_keygen ctx pkey e = Some ((0, pkey), t) /\ reports_error t)).
Proof.
  intros Hnid.
  assert (Hsel : get_oqs_alg_id nid = -1).
  { unfold get_oqs_alg_id. apply Z.eqb_neq in Hnid. now rewrite Hnid. }
  split; [exact Hsel|]. split; [|split].
  - (* the engine accepts *)
    intros p keytype r sg Hz Hr Hs Hm Hsm.
    apply oqs_key_init_ok. unfold allocation_succeeds. rewrite Hsel. auto.
  - (* the engine refuses *)
    intros r Hz Hr Hs.
    assert (Hinit : forall p keytype,
               oqs_key_init p nid keytype e = Some ((0, p), engine_refused_trace r)).
    { intros p keytype.
      unfold oqs_key_init, OPENSSL_zalloc, OQS_RAND_new, OQS_SIG_new, bind, ret, OQSerr, emit.
      cbv beta. rewrite Hz. cbv beta iota. rewrite Hr. cbv beta iota.
      rewrite Hsel, Hs. reflexivity. }
    split; [exact Hinit|]. split; [|split; [|split]].
    + intros p keytype e' Hz' Hr' Hs'. rewrite Hinit.
      unfold oqs_key_init, OPENSSL_zalloc, OQS_RAND_new, OQS_SIG_new, bind, ret, OQSerr, emit.
      cbv beta. rewrite Hz'. cbv beta iota. rewrite Hr'. cbv beta iota.
      unfold get_oqs_alg_id. rewrite Z.eqb_refl, Hs'. reflexivity.
    + intros pkey pk res t Hid. subst nid.
      unfold oqs_pub_decode, X509_PUBKEY_get0_param. unfold bind at 1.
      destruct (on_X509_PUBKEY_get0_param e); cbv beta iota.
      2:{ intros Hrun Hin. injection Hrun as _ <-. destruct Hin. }
      destruct (ASN1_STRING_get0_data (public_key pk)) as [raw|].
      2:{ intros Hrun Hin. injection Hrun as _ <-.
          destruct Hin as [Hx|[]]. discriminate Hx. }
      destruct (parameters_present (algor pk)).
      { intros Hrun Hin. injection Hrun as _ <-.
        destruct Hin as [Hx|[]]. discriminate Hx. }
      unfold bind at 1. rewrite Hinit. cbv beta iota.
      change (0 =? 0) with true. cbv beta iota.
      unfold OQSerr, bind, ret, emit. cbv beta iota.
      intros Hrun _. injection Hrun as <- <-. split; reflexivity.
    + intros pkey p8 res t Hid. subst nid.
      unfold oqs_priv_decode, PKCS8_pkey_get0. unfold bind at 1.
      destruct (on_PKCS8_pkey_get0 e); cbv beta iota.
      2:{ intros Hrun Hin. injection Hrun as _ <-. destruct Hin. }
      unfold bind at 1. rewrite d2i_ASN1_OCTET_STRING_payload.
      destruct (parameters_present (pkeyalg p8)).
      { intros Hrun Hin. exfalso. revert Hrun Hin.
        destruct (payload_of e p8); cbn; intros Hrun; injection Hrun as _ <-;
          cbn; intuition discriminate. }
      destruct (payload_of e p8) as [c|]; cbn [option_map released];
        unfold bind at 1; rewrite Hinit; cbv beta iota;
        change (0 =? 0) with true; cbv beta iota;
        unfold OQSerr, bind, ret, emit; cbv beta iota;
        intros Hrun _; injection Hrun as <- <-; split; reflexivity.
    + intros ctx pkey Hid. subst nid.
      unfold pkey_oqs_keygen. unfold bind at 1. rewrite Hinit. cbv beta iota.
      change (0 =? 0) with true. cbv beta iota.
      reflexivity.
  - (* an engine that knows no selector -1 *)
    intros Hengine.
    assert (Hno : forall r sg, on_OQS_SIG_new e r (get_oqs_alg_id nid) = Some sg -> False).
    { intros r sg Hs. rewrite Hsel, Hengine in Hs. discriminate. }
    split; [|split; [|split]].
    + intros p keytype.
      destruct (oqs_key_init_cases p nid keytype e) as [Hfail|(r & sg & _ & Hs & _)];
        [exact Hfail|]. destruct (Hno r sg Hs).
    + intros pkey pk Hid.
      destruct (oqs_pub_decode_cases pkey pk e _ eq_refl)
        as [Hfail|(r & sg & raw & _ & _ & _ & _ & Hs & _)]; [exact Hfail|].
      rewrite Hid in Hs. destruct (Hno r sg Hs).
    + intros pkey p8 Hid.
      destruct (oqs_priv_decode_cases pkey p8 e _ eq_refl)
        as [Hfail|(r & sg & _ & _ & _ & Hs & _)]; [exact Hfail|].
      rewrite Hid in Hs. destruct (Hno r sg Hs).
    + intros ctx pkey Hid.
      destruct (pkey_oqs_keygen_cases ctx pkey e _ eq_refl)
        as [Hfail|(r & sg & priv & pub & _ & Hs & _)]; [exact Hfail|].
      rewrite Hid in Hs. destruct (Hno r sg Hs).
Qed.

(** ** Error reports *)

Lemma oqs_pub_encode_reports (pk : X509_PUBKEY) (pkey : EVP_PKEY) (e : Env)
  (pk' : X509_PUBKEY) (t : trace) :
  oqs_pub_encode pk pkey e = Some ((0, pk'), t) -> reports_error t.
Proof.
  intros Hrun.
  unfold oqs_pub_encode, OPENSSL_memdup, X509_PUBKEY_set0_param, OPENSSL_free, OQSerr,
    bind, ret, emit in Hrun.
  crunch Hrun; cbn; auto 10 with oqs; discriminate.
Qed.



(** ** What allocation and the decoders build *)

Lemma blen_fresh_max (e : Env) (n : Z) : blen (fresh e n) = Z.max 0 n.
Proof. unfold blen, fresh. rewrite length_map, length_seq. lia. Qed.

(** A copy leaves the length of its destination as it was. *)
Lemma memcpy_blen (dest src out : bytes) (off n : Z) :
  memcpy dest off src n = Some out -> blen out = blen dest.
Proof.
  unfold memcpy.
  destruct ((0 <=? off) && (0 <=? n) && (n <=? blen src) && (off + n <=? blen dest)) eqn:E;
    [|discriminate].
  intros Hout. injection Hout as <-.
  apply andb_prop in E as [E E4]. apply andb_prop in E as [E E3].
  apply andb_prop in E as [E1 E2].
  apply Z.leb_le in E1, E2, E3, E4.
  rewrite !blen_app. unfold blen in *.
  rewrite !length_firstn, length_skipn. lia.
Qed.

(** X7. A successful allocation stores, in place of the caller's pointer, a
    record that has its engine, public bytes of the engine's public-key
    length, and private bytes, of the engine's private-key length, exactly
    when a private record was asked for. *)
Theorem oqs_key_init_success_shape (p : option OQS_KEY) (nid : Z) (keytype : oqs_key_type_t)
  (e : Env) (q : option OQS_KEY) (t : trace) :
  oqs_key_init p nid keytype e = Some ((1, q), t) ->
  exists k sg pub,
    q = Some k
    /\ s k = Some sg
    /\ pubkey k = Some pub
    /\ blen pub = Z.max 0 (pub_key_len sg)
    /\ match keytype with
       | KEY_TYPE_PRIVATE =>
           exists priv, privkey k = Some priv /\ blen priv = Z.max 0 (priv_key_len sg)
       | KEY_TYPE_PUBLIC => privkey k = None
       end.
Proof.
  intros Hrun.
  destruct (oqs_key_init_cases p nid keytype e)
    as [[t' [Hinit _]]|(r & sg & _ & _ & Hinit)]; rewrite Hinit in Hrun; [discriminate|].
  injection Hrun as <- <-.
  exists (built e sg keytype), sg, (fresh e (pub_key_len sg)).
  repeat (split; [first [reflexivity | apply blen_fresh_max]|]).
  destruct keytype; cbn; [reflexivity|].
  eexists. split; [reflexivity|apply blen_fresh_max].
Qed.

(** X10. The records the two decoders store keep the sizes of the engine:
    public-key decode gives a public-only record whose public bytes have
    the engine's public-key length, and private-key decode a record whose
    private and public bytes each have the engine's length. *)
Theorem decoded_record_sizes (pkey pkey' : EVP_PKEY) (e : Env) (t : trace) :
  (forall pk,
      oqs_pub_decode pkey pk e = Some ((1, pkey'), t) ->
      exists sg pub,
        ptr pkey' = Some {| s := Some sg; pubkey := Some pub; privkey := None |}
        /\ blen pub = pub_key_len sg
        /\ ameth_pkey_id pkey' = ameth_pkey_id pkey)
  /\ (forall p8,
        oqs_priv_decode pkey p8 e = Some ((1, pkey'), t) ->
        exists sg pub priv,
          ptr pkey' = Some {| s := Some sg; pubkey := Some pub; privkey := Some priv |}
          /\ blen pub = pub_key_len sg
          /\ blen priv = priv_key_len sg
          /\ ameth_pkey_id pkey' = ameth_pkey_id pkey).
Proof.
  split.
  - intros pk Hrun.
    destruct (oqs_pub_decode_cases pkey pk e _ Hrun)
      as [[t' [Hfail _]]|(r & sg & raw & _ & _ & _ & _ & _ & _ & _ & Hres)]; [discriminate|].
    destruct (memcpy _ _ _ _) as [pub|] eqn:Hcp; [|discriminate].
    injection Hres as -> ->. exists sg, pub. split; [reflexivity|]. split; [|reflexivity].
    pose proof (memcpy_blen _ _ _ _ _ Hcp) as Hlen. rewrite blen_fresh_max in Hlen.
    unfold memcpy in Hcp.
    destruct (0 <=? pub_key_len sg) eqn:E; [apply Z.leb_le in E; lia|].
    cbn in Hcp. discriminate.
  - intros p8 Hrun.
    destruct (oqs_priv_decode_cases pkey p8 e _ Hrun)
      as [[t' [Hfail _]]|(r & sg & _ & _ & _ & _ & _ & _ & Hres)]; [discriminate|].
    destruct (payload_of e p8) as [c|]; [|discriminate].
    destruct (memcpy (fresh e (priv_key_len sg)) _ _ _) as [priv|] eqn:Hcp1; [|discriminate].
    destruct (memcpy (fresh e (pub_key_len sg)) _ _ _) as [pub|] eqn:Hcp2; [|discriminate].
    injection Hres as -> ->. exists sg, pub, priv. split; [reflexivity|].
    pose proof (memcpy_blen _ _ _ _ _ Hcp1) as Hl1. rewrite blen_fresh_max in Hl1.
    pose proof (memcpy_blen _ _ _ _ _ Hcp2) as Hl2. rewrite blen_fresh_max in Hl2.
    unfold memcpy in Hcp1, Hcp2.
    destruct (0 <=? priv_key_len sg) eqn:E1; [|cbn in Hcp1; discriminate].
    destruct (0 <=? pub_key_len sg) eqn:E2; [|cbn in Hcp2; discriminate].
    apply Z.leb_le in E1, E2. repeat split; lia.
Qed.

(** ** Public-key encode and compare *)

(** What public-key encode does with a record that has its engine and
    public bytes of at least the engine's length, by the answers of the
    allocator and the container accessor. *)
Lemma oqs_pub_encode_run (pk : X509_PUBKEY) (pkey : EVP_PKEY) (e : Env)
  (k : OQS_KEY) (sg : OQS_SIG) (pub : bytes) :
  ptr pkey = Some k -> s k = Some sg -> pubkey k = Some pub ->
  0 <= pub_key_len sg <= blen pub ->
  oqs_pub_encode pk pkey e
  = if negb (on_OPENSSL_memdup e (pub_key_len sg))
    then Some ((0, pk), [Ev.OQSerr ERR_R_MALLOC_FAILURE])
    else if negb (on_X509_PUBKEY_set0_param e)
    then Some ((0, pk), [Ev.OPENSSL_memdup b_penc (pub_key_len sg);
                         Ev.OPENSSL_free b_penc; Ev.OQSerr ERR_R_MALLOC_FAILURE])
    else Some ((1, {| algor := Some {| algorithm := OBJ_nid2obj (ameth_pkey_id pkey);
                                       parameter_type := V_ASN1_UNDEF |};
                      public_key :=
                        {| ASN1_STRING_length := pub_key_len sg;
                           ASN1_STRING_get0_data :=
                             Some (firstn (Z.to_nat (pub_key_len sg)) pub) |} |}),
               [Ev.OPENSSL_memdup b_penc (pub_key_len sg)]).
Proof.
  intros Hptr Hs Hpub [Hlo Hhi].
  unfold oqs_pub_encode. rewrite Hptr, Hs, Hpub.
  unfold OPENSSL_memdup, X509_PUBKEY_set0_param, OPENSSL_free, OQSerr, bind, ret, emit.
  replace (pub_key_len sg <? 0) with false by (symmetry; apply Z.ltb_ge; lia).
  replace (blen pub <? pub_key_len sg) with false by (symmetry; apply Z.ltb_ge; lia).
  cbn [orb].
  destruct (on_OPENSSL_memdup e (pub_key_len sg)); cbn [negb]; [|reflexivity].
  destruct (on_X509_PUBKEY_set0_param e); reflexivity.
Qed.

(** X2. Whenever public-key encode fails it has reported an error, and the
    copy of the public bytes, if it was made, has been freed. *)
Theorem oqs_pub_encode_failure_frees_copy (pk pk' : X509_PUBKEY) (pkey : EVP_PKEY)
  (e : Env) (t : trace) :
  oqs_pub_encode pk pkey e = Some ((0, pk'), t) ->
  reports_error t
  /\ (forall num t1 t2,
        t = t1 ++ Ev.OPENSSL_memdup b_penc num :: t2 -> In (Ev.OPENSSL_free b_penc) t2).
Proof.
  intros Hrun. split; [exact (oqs_pub_encode_reports _ _ _ _ _ Hrun)|].
  unfold oqs_pub_encode, OPENSSL_memdup, X509_PUBKEY_set0_param, OPENSSL_free, OQSerr,
    bind, ret, emit in Hrun.
  crunch Hrun; try discriminate; intros num t1 t2 Ht;
    repeat (destruct t1 as [|? t1]; cbn in Ht; try discriminate);
    try (injection Ht as _ <-; cbn; tauto).
Qed.

(** Public-key encode succeeds on a record whose public bytes have the
    engine's length, in a world whose allocator and accessor answer well:
    the container holds the scheme, absent parameters and the bytes. *)
Lemma oqs_pub_encode_ok (pk : X509_PUBKEY) (pkey : EVP_PKEY) (e : Env)
  (k : OQS_KEY) (sg : OQS_SIG) (pub : bytes) :
  ptr pkey = Some k -> s k = Some sg -> pubkey k = Some pub ->
  blen pub = pub_key_len sg ->
  on_OPENSSL_memdup e (pub_key_len sg) = true ->
  on_X509_PUBKEY_set0_param e = true ->
  oqs_pub_encode pk pkey e
  = Some ((1, {| algor := Some {| algorithm := OBJ_nid2obj (ameth_pkey_id pkey);
                                  parameter_type := V_ASN1_UNDEF |};
                 public_key := {| ASN1_STRING_length := pub_key_len sg;
                                  ASN1_STRING_get0_data := Some pub |} |}),
          [Ev.OPENSSL_memdup b_penc (pub_key_len sg)]).
Proof.
  intros Hptr Hs Hpub Hlen Hdup Hset.
  pose proof (blen_nonneg pub) as Hn.
  rewrite (oqs_pub_encode_run pk pkey e k sg pub Hptr Hs Hpub) by lia.
  rewrite Hdup, Hset. cbn [negb].
  rewrite firstn_all2 by (unfold blen in Hlen; lia).
  reflexivity.
Qed.

(** The container that public-key encode stores decodes to a public-only
    record with the encoded bytes. *)
Lemma oqs_pub_decode_encoded (target : EVP_PKEY) (e : Env) (aobj : ASN1_OBJECT)
  (sg : OQS_SIG) (pub : bytes) (r : OQS_RAND) (sg' : OQS_SIG) :
  blen pub = pub_key_len sg ->
  on_X509_PUBKEY_get0_param e = true ->
  allocation_succeeds e (ameth_pkey_id target) KEY_TYPE_PUBLIC r sg' ->
  pub_key_len sg' = pub_key_len sg ->
  oqs_pub_decode target
    {| algor := Some {| algorithm := aobj; parameter_type := V_ASN1_UNDEF |};
       public_key := {| ASN1_STRING_length := pub_key_len sg;
                        ASN1_STRING_get0_data := Some pub |} |} e
  = Some ((1, {| ameth_pkey_id := ameth_pkey_id target;
                 ptr := Some {| s := Some sg'; pubkey := Some pub; privkey := None |} |}),
          built_trace r sg' KEY_TYPE_PUBLIC).
Proof.
  intros Hlen Hget Halloc Hlen'.
  apply (oqs_pub_decode_ok target _ e r sg' pub);
    cbn [public_key algor ASN1_STRING_get0_data ASN1_STRING_length].
  - exact Hget.
  - reflexivity.
  - exact Hlen.
  - apply parameters_present_false. right. eexists. split; reflexivity.
  - exact Halloc.
  - now symmetry.
Qed.

(** X1. Encoding the public key of a record and decoding the container it
    gives yields a public-only record with the same public bytes, in a
    world where the collaborators succeed and give decode an engine of the
    same public-key length. *)
Theorem oqs_pub_roundtrip (pk : X509_PUBKEY) (pkey target : EVP_PKEY) (e : Env)
  (k : OQS_KEY) (sg : OQS_SIG) (pub : bytes) (r : OQS_RAND) (sg' : OQS_SIG) :
  ptr pkey = Some k -> s k = Some sg -> pubkey k = Some pub ->
  blen pub = pub_key_len sg ->
  on_OPENSSL_memdup e (pub_key_len sg) = true ->
  on_X509_PUBKEY_set0_param e = true ->
  on_X509_PUBKEY_get0_param e = true ->
  allocation_succeeds e (ameth_pkey_id target) KEY_TYPE_PUBLIC r sg' ->
  pub_key_len sg' = pub_key_len sg ->
  exists pk' t1 t2,
    oqs_pub_encode pk pkey e = Some ((1, pk'), t1)
    /\ oqs_pub_decode target pk' e
       = Some ((1, {| ameth_pkey_id := ameth_pkey_id target;
                      ptr := Some {| s := Some sg'; pubkey := Some pub; privkey := None |} |}),
               t2).
Proof.
  intros Hptr Hs Hpub Hlen Hdup Hset Hget Halloc Hlen'.
  do 3 eexists. split.
  - exact (oqs_pub_encode_ok pk pkey e k sg pub Hptr Hs Hpub Hlen Hdup Hset).
  - exact (oqs_pub_decode_encoded target e _ sg pub r sg' Hlen Hget Halloc Hlen').
Qed.

(** X3. Comparing two key objects: the answer is -2 when either holds no
    record; otherwise, when both records have public bytes of at least the
    first engine's public-key length, it is 1 when those leading bytes
    agree and 0 when they differ.  Compare makes no call and reports
    nothing, and it never looks at the second record's engine. *)
Theorem oqs_pub_cmp_answer (a b : EVP_PKEY) (e : Env) :
  (ptr a = None \/ ptr b = None -> oqs_pub_cmp a b e = Some (-2, []))
  /\ (forall ka kb sg pa pb,
        ptr a = Some ka -> ptr b = Some kb ->
        s ka = Some sg -> pubkey ka = Some pa -> pubkey kb = Some pb ->
        pub_key_len sg <= blen pa -> pub_key_len sg <= blen pb ->
        exists r,
          oqs_pub_cmp a b e = Some (r, [])
          /\ (r = 1 <-> firstn (Z.to_nat (pub_key_len sg)) pa
                        = firstn (Z.to_nat (pub_key_len sg)) pb)
          /\ (r = 0 <-> firstn (Z.to_nat (pub_key_len sg)) pa
                        <> firstn (Z.to_nat (pub_key_len sg)) pb)).
Proof.
  split.
  - unfold oqs_pub_cmp. intros [Ha|Hb].
    + now rewrite Ha.
    + rewrite Hb. now destruct (ptr a).
  - intros ka kb sg pa pb Ha Hb Hs Hpa Hpb Hla Hlb.
    unfold oqs_pub_cmp. rewrite Ha, Hb, Hs, Hpa, Hpb.
    unfold CRYPTO_memcmp, deref, bind, ret. cbv beta iota.
    destruct (pub_key_len sg <=? 0) eqn:Ez; cbv beta iota.
    + apply Z.leb_le in Ez. exists 1. split; [reflexivity|].
      replace (Z.to_nat (pub_key_len sg)) with 0%nat by lia. cbn.
      split; split; intros; first [reflexivity | discriminate | congruence].
    + replace (blen pa <? pub_key_len sg) with false by (symmetry; apply Z.ltb_ge; lia).
      replace (blen pb <? pub_key_len sg) with false by (symmetry; apply Z.ltb_ge; lia).
      cbn [orb]. cbv beta iota.
      destruct (list_eq_dec byte_eq_dec _ _) as [Heq|Hne]; cbv beta iota.
      * exists 1. split; [reflexivity|].
        split; split; intros; first [reflexivity | assumption | discriminate | congruence].
      * exists 0. split; [reflexivity|].
        split; split; intros; first [reflexivity | assumption | discriminate | congruence].
Qed.

(** X4. A key object compares as equal to the one decoded from its own
    encoded public key. *)
Theorem oqs_pub_cmp_after_roundtrip (pk : X509_PUBKEY) (pkey target : EVP_PKEY) (e : Env)
  (k : OQS_KEY) (sg : OQS_SIG) (pub : bytes) (r : OQS_RAND) (sg' : OQS_SIG) :
  ptr pkey = Some k -> s k = Some sg -> pubkey k = Some pub ->
  blen pub = pub_key_len sg ->
  on_OPENSSL_memdup e (pub_key_len sg) = true ->
  on_X509_PUBKEY_set0_param e = true ->
  on_X509_PUBKEY_get0_param e = true ->
  allocation_succeeds e (ameth_pkey_id target) KEY_TYPE_PUBLIC r sg' ->
  pub_key_len sg' = pub_key_len sg ->
  exists pk' t1 decoded t2,
    oqs_pub_encode pk pkey e = Some ((1, pk'), t1)
    /\ oqs_pub_decode target pk' e = Some ((1, decoded), t2)
    /\ oqs_pub_cmp pkey decoded e = Some (1, [])
    /\ oqs_pub_cmp decoded pkey e = Some (1, []).
Proof.
  intros Hptr Hs Hpub Hlen Hdup Hset Hget Halloc Hlen'.
  pose proof (oqs_pub_encode_ok pk pkey e k sg pub Hptr Hs Hpub Hlen Hdup Hset) as Henc.
  pose proof (oqs_pub_decode_encoded target e (OBJ_nid2obj (ameth_pkey_id pkey))
                sg pub r sg' Hlen Hget Halloc Hlen') as Hdec.
  do 4 eexists. split; [exact Henc|]. split; [exact Hdec|].
  split.
  - unfold oqs_pub_cmp. rewrite Hptr. cbn [ptr]. rewrite Hs.
    cbn [pubkey]. rewrite Hpub.
    unfold CRYPTO_memcmp, deref, bind, ret. cbv beta iota.
    destruct (pub_key_len sg <=? 0); cbv beta iota; [reflexivity|].
    replace (blen pub <? pub_key_len sg) with false by (symmetry; apply Z.ltb_ge; lia).
    cbn [orb]. cbv beta iota.
    destruct (list_eq_dec byte_eq_dec _ _); [reflexivity|congruence].
  - unfold oqs_pub_cmp. rewrite Hptr. cbn [ptr s pubkey].
    rewrite Hpub.
    unfold CRYPTO_memcmp, deref, bind, ret. cbv beta iota. rewrite Hlen'.
    destruct (pub_key_len sg <=? 0); cbv beta iota; [reflexivity|].
    replace (blen pub <? pub_key_len sg) with false by (symmetry; apply Z.ltb_ge; lia).
    cbn [orb]. cbv beta iota.
    destruct (list_eq_dec byte_eq_dec _ _); [reflexivity|congruence].
Qed.

(** ** The key queries *)

(** X5. The size query answers with the engine's maximum signature length
    as an [int]: the number the size query of sign stores in the length
    when an [int] holds it, and that number less 2^32, which is negative,
    when it needs the 32nd bit.  On a key object with no record, or a
    record with no engine, it reports an error and answers 0. *)
Theorem oqs_size_answer (pkey : EVP_PKEY) (e : Env) :
  ((ptr pkey = None \/ exists k, ptr pkey = Some k /\ s k = None) ->
   oqs_size pkey e = Some (0, [Ev.OQSerr ERR_R_FATAL]))
  /\ (forall k sg,
        ptr pkey = Some k -> s k = Some sg ->
        oqs_size pkey e = Some (int_of (max_sig_len sg), [])
        /\ (0 <= max_sig_len sg < 2 ^ 31 -> oqs_size pkey e = Some (max_sig_len sg, []))
        /\ (2 ^ 31 <= max_sig_len sg < 2 ^ 32 ->
            oqs_size pkey e = Some (max_sig_len sg - 2 ^ 32, []))
        /\ forall pctx ctx priv siglen tbs tbslen,
            EVP_MD_CTX_pkey_ctx ctx = Some pctx -> ctx_pkey pctx = Some pkey ->
            privkey k = Some priv ->
            pkey_oqs_digestsign ctx None siglen tbs tbslen e
            = Some ((1, None, max_sig_len sg), [])).
Proof.
  split.
  - unfold oqs_size. intros [Hp|(k & Hp & Hs)]; rewrite Hp; [|rewrite Hs]; reflexivity.
  - intros k sg Hp Hs.
    assert (Hrun : oqs_size pkey e = Some (int_of (max_sig_len sg), [])).
    { unfold oqs_size. rewrite Hp, Hs. reflexivity. }
    split; [exact Hrun|]. split; [|split].
    + intros Hrange. rewrite Hrun. do 2 f_equal. unfold int_of.
      rewrite Z.mod_small by lia. lia.
    + intros Hrange. rewrite Hrun. do 2 f_equal. unfold int_of.
      replace (max_sig_len sg + 2 ^ 31)
        with (max_sig_len sg - 2 ^ 31 + 1 * 2 ^ 32) by lia.
      rewrite Z.mod_add by lia. rewrite Z.mod_small by lia. lia.
    + intros pctx ctx priv siglen tbs tbslen Hctx Hpctx Hpriv.
      unfold pkey_oqs_digestsign. rewrite Hctx.
      unfold deref, bind, ret. cbv beta iota. rewrite Hpctx. cbv beta iota. rewrite Hp.
      destruct k as [s0 pub0 priv0]. cbn in Hs, Hpriv. subst s0 priv0. reflexivity.
Qed.

(** X6. The bit-size and security-bits queries read the engine without a
    test: they are defined exactly when the key object has a record with
    an engine (where the size query reports an error instead), they make
    no call, and the bit size they give is the engine's public-key length,
    the byte count of the public key that encode stores. *)
Theorem oqs_bits_answer (pkey : EVP_PKEY) (e : Env) :
  (oqs_bits pkey e <> None <-> exists k sg, ptr pkey = Some k /\ s k = Some sg)
  /\ (oqs_security_bits pkey e <> None <-> exists k sg, ptr pkey = Some k /\ s k = Some sg)
  /\ (forall k sg,
        ptr pkey = Some k -> s k = Some sg ->
        oqs_bits pkey e = Some (pub_key_len sg, [])
        /\ oqs_security_bits pkey e = Some (estimated_classical_security sg, [])
        /\ forall pk pk' t,
            oqs_pub_encode pk pkey e = Some ((1, pk'), t) ->
            ASN1_STRING_length (public_key pk') = pub_key_len sg).
Proof.
  unfold oqs_bits, oqs_security_bits, deref, bind, ret, undefined.
  split; [|split].
  - split.
    + intros Hdef. destruct (ptr pkey) as [k|]; [|now contradiction Hdef].
      cbv beta iota in Hdef. destruct (s k) as [sg|] eqn:Hs; [|now contradiction Hdef].
      now exists k, sg.
    + intros (k & sg & -> & Hs). cbv beta iota. rewrite Hs. discriminate.
  - split.
    + intros Hdef. destruct (ptr pkey) as [k|]; [|now contradiction Hdef].
      cbv beta iota in Hdef. destruct (s k) as [sg|] eqn:Hs; [|now contradiction Hdef].
      now exists k, sg.
    + intros (k & sg & -> & Hs). cbv beta iota. rewrite Hs. discriminate.
  - intros k sg Hp Hs. rewrite Hp. cbv beta iota. rewrite Hs.
    split; [reflexivity|]. split; [reflexivity|].
    intros pk pk' t Henc.
    unfold oqs_pub_encode, OPENSSL_memdup, X509_PUBKEY_set0_param, OPENSSL_free, OQSerr,
      bind, ret, emit in Henc.
    rewrite Hp, Hs in Henc.
    crunch Henc; try discriminate; reflexivity.
Qed.

(** ** What a failed allocation leaves *)

(** The traces of a failed allocation, by the place where it failed. *)
Lemma oqs_key_init_failure_trace (p q : option OQS_KEY) (nid : Z) (keytype : oqs_key_type_t)
  (e : Env) (t : trace) :
  oqs_key_init p nid keytype e = Some ((0, q), t) ->
  t = [Ev.OQSerr ERR_R_MALLOC_FAILURE]
  \/ t = [Ev.OPENSSL_zalloc b_oqs_key; Ev.OQSerr ERR_R_FATAL; Ev.OPENSSL_free b_oqs_key]
  \/ (exists r,
        on_OQS_SIG_new e r (get_oqs_alg_id nid) = None
        /\ t = [Ev.OPENSSL_zalloc b_oqs_key; Ev.OQS_RAND_new r; Ev.OQSerr ERR_R_FATAL;
                Ev.OPENSSL_free b_oqs_key])
  \/ (exists r sg,
        t = [Ev.OPENSSL_zalloc b_oqs_key; Ev.OQS_RAND_new r; Ev.OQS_SIG_new sg;
             Ev.OQSerr ERR_R_MALLOC_FAILURE]
            ++ released (rand sg) Ev.OQS_RAND_free
            ++ [Ev.OQS_SIG_free sg; Ev.OPENSSL_free b_oqs_key])
  \/ (exists r sg,
        t = [Ev.OPENSSL_zalloc b_oqs_key; Ev.OQS_RAND_new r; Ev.OQS_SIG_new sg;
             Ev.OPENSSL_malloc b_pubkey (pub_key_len sg); Ev.OQSerr ERR_R_MALLOC_FAILURE]
            ++ released (rand sg) Ev.OQS_RAND_free
            ++ [Ev.OQS_SIG_free sg; Ev.OPENSSL_free b_pubkey; Ev.OPENSSL_free b_oqs_key]).
Proof.
  unfold oqs_key_init, OPENSSL_zalloc, OQS_RAND_new, OQS_SIG_new, OPENSSL_malloc,
    OPENSSL_secure_malloc, OQSerr, bind, ret, emit.
  cbv beta.
  destruct (on_OPENSSL_zalloc e); cbv beta iota.
  2:{ intros Hrun. injection Hrun as _ <-. now left. }
  destruct (on_OQS_RAND_new e) as [r|]; cbv beta iota.
  2:{ intros Hrun. injection Hrun as _ <-. right. now left. }
  destruct (on_OQS_SIG_new e r (get_oqs_alg_id nid)) as [sg|] eqn:Es; cbv beta iota.
  2:{ intros Hrun. injection Hrun as _ <-. right. right. left. now exists r. }
  destruct (on_OPENSSL_malloc e (pub_key_len sg)); cbv beta iota.
  2:{ intros Hrun. right. right. right. left. exists r, sg.
      destruct sg as [[rr|] ecs pl ql ml]; cbn in Hrun |- *; injection Hrun as _ <-;
        reflexivity. }
  destruct keytype; cbv beta iota; [discriminate|].
  destruct (on_OPENSSL_secure_malloc e (priv_key_len sg)); cbv beta iota; [discriminate|].
  intros Hrun. right. right. right. right. exists r, sg.
  destruct sg as [[rr|] ecs pl ql ml]; cbn in Hrun |- *; injection Hrun as _ <-;
    reflexivity.
Qed.

(** X8. A failed allocation leaves the caller's pointer as it was and holds
    on to no block: the record it allocated is freed, the public buffer,
    if it was allocated, is freed, the engine, if it was created, is
    freed, and no private buffer was taken from the secure allocator. *)
Theorem oqs_key_init_failure_releases (p q : option OQS_KEY) (nid : Z)
  (keytype : oqs_key_type_t) (e : Env) (t : trace) :
  oqs_key_init p nid keytype e = Some ((0, q), t) ->
  q = p
  /\ followed_by (Ev.OPENSSL_zalloc b_oqs_key) (Ev.OPENSSL_free b_oqs_key) t
  /\ (forall num, followed_by (Ev.OPENSSL_malloc b_pubkey num) (Ev.OPENSSL_free b_pubkey) t)
  /\ (forall sg, followed_by (Ev.OQS_SIG_new sg) (Ev.OQS_SIG_free sg) t)
  /\ (forall num, ~ In (Ev.OPENSSL_secure_malloc b_privkey num) t).
Proof.
  intros Hrun. split.
  { destruct (oqs_key_init_cases p nid keytype e)
      as [[t' [Hinit _]]|(r & sg & _ & _ & Hinit)]; rewrite Hinit in Hrun;
      [now injection Hrun as <- _|discriminate]. }
  destruct (oqs_key_init_failure_trace p q nid keytype e t Hrun)
    as [->|[->|[(r & _ & ->)|[(r & sg & ->)|(r & sg & ->)]]]];
    try (destruct (rand sg) as [rr|]; cbn [released app]);
    (split; [follows|]); (split; [intros num; follows|]);
    (split; [intros sg0; follows|]);
    intros num Hin; cbn in Hin; intuition discriminate.
Qed.

(** X9. When the engine refuses the selector, the randomness source that
    allocation created for it is never freed: teardown frees a source only
    through the engine that holds it, and there is none. *)
Theorem oqs_key_init_refusal_keeps_rand (p : option OQS_KEY) (nid : Z)
  (keytype : oqs_key_type_t) (e : Env) (r : OQS_RAND) :
  on_OPENSSL_zalloc e = true ->
  on_OQS_RAND_new e = Some r ->
  on_OQS_SIG_new e r (get_oqs_alg_id nid) = None ->
  exists t,
    oqs_key_init p nid keytype e = Some ((0, p), t)
    /\ In (Ev.OQS_RAND_new r) t
    /\ (forall r', ~ In (Ev.OQS_RAND_free r') t).
Proof.
  intros Hz Hr Hs.
  unfold oqs_key_init, OPENSSL_zalloc, OQS_RAND_new, OQS_SIG_new, OQSerr, bind, ret, emit.
  cbv beta. rewrite Hz. cbv beta iota. rewrite Hr. cbv beta iota. rewrite Hs.
  eexists. split; [reflexivity|]. cbn. split; [auto|].
  intros r' Hin. intuition discriminate.
Qed.

(** ** What a failed key generation leaves *)

(** The calls of teardown on a record that has its engine and both
    buffers. *)
Lemma oqs_pkey_ctx_free_full (sg : OQS_SIG) (pub priv : bytes) (e : Env) :
  oqs_pkey_ctx_free (Some {| s := Some sg; pubkey := Some pub; privkey := Some priv |}) e
  = Some (tt, released (rand sg) Ev.OQS_RAND_free
              ++ [Ev.OQS_SIG_free sg;
                  Ev.OPENSSL_secure_clear_free b_privkey (priv_key_len sg);
                  Ev.OPENSSL_free b_pubkey; Ev.OPENSSL_free b_oqs_key]).
Proof. destruct sg as [[rr|] ecs pl ql ml]; reflexivity. Qed.

(** X13. When the engine fails to generate the key pair, key generation
    reports the error, tears the record down, clearing the private buffer
    over the private-key length, and leaves the key object as it was. *)
Theorem pkey_oqs_keygen_engine_failure (ctx : EVP_PKEY_CTX) (pkey : EVP_PKEY) (e : Env)
  (r : OQS_RAND) (sg : OQS_SIG) :
  allocation_succeeds e (pmeth_pkey_id ctx) KEY_TYPE_PRIVATE r sg ->
  fst (fst (on_OQS_SIG_keygen e sg (fresh e (priv_key_len sg)) (fresh e (pub_key_len sg))))
    <> OQS_SUCCESS ->
  pkey_oqs_keygen ctx pkey e
  = Some ((0, pkey),
          built_trace r sg KEY_TYPE_PRIVATE
          ++ [Ev.OQS_SIG_keygen sg; Ev.OQSerr ERR_R_FATAL]
          ++ released (rand sg) Ev.OQS_RAND_free
          ++ [Ev.OQS_SIG_free sg;
              Ev.OPENSSL_secure_clear_free b_privkey (priv_key_len sg);
              Ev.OPENSSL_free b_pubkey; Ev.OPENSSL_free b_oqs_key]).
Proof.
  intros Halloc Hstatus.
  pose proof (oqs_key_init_ok None _ _ _ _ _ Halloc) as Hinit.
  unfold pkey_oqs_keygen. unfold bind at 1. rewrite Hinit. cbv beta iota.
  change (1 =? 0) with false. cbv beta iota.
  unfold bind at 1. cbn [deref ret]. cbv beta iota.
  unfold OQS_SIG_keygen. unfold built at 1 2 3. cbn [s privkey pubkey].
  unfold deref, bind at 1, ret, emit, ask. cbv beta iota.
  unfold bind. cbv beta iota.
  destruct (on_OQS_SIG_keygen e sg (fresh e (priv_key_len sg)) (fresh e (pub_key_len sg)))
    as [[status priv] pub].
  cbn [fst] in Hstatus. apply Z.eqb_neq in Hstatus. rewrite Hstatus. cbn [negb].
  unfold set_pubkey, set_privkey, built. cbn [s pubkey privkey].
  rewrite oqs_pkey_ctx_free_full. unfold OQSerr, emit.
  cbn [built_trace app]. rewrite ?app_nil_r. reflexivity.
Qed.

(** X14. However key generation fails, it has reported an error, the key
    object is as it was, the record it allocated has been freed, and a
    private buffer taken from the secure allocator has been cleared and
    freed over the size it was allocated with. *)
Theorem pkey_oqs_keygen_failure_releases (ctx : EVP_PKEY_CTX) (pkey pkey' : EVP_PKEY)
  (e : Env) (t : trace) :
  pkey_oqs_keygen ctx pkey e = Some ((0, pkey'), t) ->
  pkey' = pkey
  /\ reports_error t
  /\ followed_by (Ev.OPENSSL_zalloc b_oqs_key) (Ev.OPENSSL_free b_oqs_key) t
  /\ (forall num, followed_by (Ev.OPENSSL_malloc b_pubkey num) (Ev.OPENSSL_free b_pubkey) t)
  /\ (forall num, followed_by (Ev.OPENSSL_secure_malloc b_privkey num)
                    (Ev.OPENSSL_secure_clear_free b_privkey num) t).
Proof.
  intros Hrun.
  destruct (pkey_oqs_keygen_cases ctx pkey e _ Hrun)
    as [[t' [Hres Hrep]]|(r & sg & priv & pub & _ & _ & Hres)]; [|discriminate].
  injection Hres as -> <-. split; [reflexivity|]. split; [exact Hrep|].
  revert Hrun. unfold pkey_oqs_keygen. unfold bind at 1.
  destruct (oqs_key_init_cases None (pmeth_pkey_id ctx) KEY_TYPE_PRIVATE e)
    as [[ti [Hinit _]]|(r & sg & Hr & Hs & Hinit)]; rewrite Hinit; cbv beta iota.
  - change (0 =? 0) with true. cbv beta iota.
    unfold OQSerr, bind, ret, emit. cbn [oqs_pkey_ctx_free]. unfold ret. cbv beta iota.
    intros Hrun. injection Hrun as <-.
    destruct (oqs_key_init_failure_trace _ _ _ _ _ _ Hinit)
      as [->|[->|[(r & _ & ->)|[(r & sg & ->)|(r & sg & ->)]]]];
      try (destruct (rand sg) as [rr|]; cbn [released app]);
      cbn [app]; (split; [follows|]); (split; intros num; follows).
  - change (1 =? 0) with false. cbv beta iota.
    unfold bind at 1. cbn [deref ret]. cbv beta iota.
    unfold OQS_SIG_keygen. unfold built at 1 2 3. cbn [s privkey pubkey].
    unfold deref, bind at 1, ret, emit, ask. cbv beta iota.
    unfold bind. cbv beta iota.
    destruct (on_OQS_SIG_keygen e sg (fresh e (priv_key_len sg)) (fresh e (pub_key_len sg)))
      as [[status priv] pub].
    destruct (status =? OQS_SUCCESS); cbn [negb]; [discriminate|].
    unfold set_pubkey, set_privkey, built. cbn [s pubkey privkey].
    rewrite oqs_pkey_ctx_free_full. unfold OQSerr, emit.
    intros Hrun. injection Hrun as <-.
    destruct (rand sg) as [rr|]; cbn [released app built_trace];
      (split; [follows|]); (split; intros num; follows).
Qed.

(** ** What a failed decode leaves *)

Lemma oqs_pkey_ctx_free_public (sg : OQS_SIG) (pub : bytes) (e : Env) :
  oqs_pkey_ctx_free (Some {| s := Some sg; pubkey := Some pub; privkey := None |}) e
  = Some (tt, released (rand sg) Ev.OQS_RAND_free
              ++ [Ev.OQS_SIG_free sg; Ev.OPENSSL_free b_pubkey; Ev.OPENSSL_free b_oqs_key]).
Proof. destruct sg as [[rr|] ecs pl ql ml]; reflexivity. Qed.

(** The traces of a failed public-key decode, by the place where it
    failed. *)
Lemma oqs_pub_decode_failure_trace (pkey pkey' : EVP_PKEY) (pk : X509_PUBKEY) (e : Env)
  (t : trace) :
  oqs_pub_decode pkey pk e = Some ((0, pkey'), t) ->
  t = []
  \/ t = [Ev.OQSerr ERR_R_FATAL]
  \/ (exists q ti,
        oqs_key_init None (ameth_pkey_id pkey) KEY_TYPE_PUBLIC e = Some ((0, q), ti)
        /\ t = ti ++ [Ev.OQSerr ERR_R_FATAL])
  \/ (exists r sg,
        ASN1_STRING_length (public_key pk) <> pub_key_len sg
        /\ t = built_trace r sg KEY_TYPE_PUBLIC
               ++ [Ev.OQSerr ERR_R_FATAL]
               ++ released (rand sg) Ev.OQS_RAND_free
               ++ [Ev.OQS_SIG_free sg; Ev.OPENSSL_free b_pubkey;
                   Ev.OPENSSL_free b_oqs_key]).
Proof.
  unfold oqs_pub_decode, X509_PUBKEY_get0_param.
  unfold bind at 1.
  destruct (on_X509_PUBKEY_get0_param e); cbv beta iota.
  2:{ intros Hrun. injection Hrun as _ <-. now left. }
  destruct (ASN1_STRING_get0_data (public_key pk)) as [raw|].
  2:{ intros Hrun. injection Hrun as _ <-. right. now left. }
  destruct (parameters_present (algor pk)).
  { intros Hrun. injection Hrun as _ <-. right. now left. }
  unfold bind at 1.
  destruct (oqs_key_init_cases None (ameth_pkey_id pkey) KEY_TYPE_PUBLIC e)
    as [[ti [Hinit _]]|(r & sg & _ & _ & Hinit)]; rewrite Hinit; cbv beta iota.
  - intros Hrun. right. right. left. exists None, ti. split; [reflexivity|].
    cbn in Hrun. now injection Hrun as _ <-.
  - change (1 =? 0) with false. cbv beta iota.
    unfold bind at 1. cbn [deref ret]. cbv beta iota.
    unfold built at 1. cbn [s]. unfold bind at 1. cbn [deref ret]. cbv beta iota.
    destruct (ASN1_STRING_length (public_key pk) =? pub_key_len sg) eqn:Elen; cbn [negb].
    + unfold memcpy_to, deref, bind, ret. cbv beta iota. cbn [built pubkey].
      destruct (memcpy _ _ _ _); cbv beta iota; discriminate.
    + unfold built. unfold OQSerr, emit, bind, ret. cbv beta iota.
      rewrite oqs_pkey_ctx_free_public. intros Hrun.
      right. right. right. exists r, sg. apply Z.eqb_neq in Elen. split; [exact Elen|].
      cbn in Hrun |- *. rewrite app_nil_r in Hrun. now injection Hrun as _ <-.
Qed.

(** The traces of a failed private-key decode, by the place where it
    failed; each starts with the decoding of the octet string, when it
    gave one. *)
Lemma oqs_priv_decode_failure_trace (pkey pkey' : EVP_PKEY) (p8 : PKCS8_PRIV_KEY_INFO)
  (e : Env) (t : trace) :
  oqs_priv_decode pkey p8 e = Some ((0, pkey'), t) ->
  let d := released (payload_of e p8) (fun _ => Ev.d2i_ASN1_OCTET_STRING b_oct) in
  (on_PKCS8_pkey_get0 e = false /\ t = [])
  \/ t = d ++ [Ev.OQSerr ERR_R_FATAL]
  \/ (exists q ti,
        oqs_key_init None (ameth_pkey_id pkey) KEY_TYPE_PRIVATE e = Some ((0, q), ti)
        /\ t = d ++ ti ++ [Ev.OQSerr ERR_R_FATAL])
  \/ (exists r sg,
        payload_length e p8 <> priv_key_len sg + pub_key_len sg
        /\ t = d ++ built_trace r sg KEY_TYPE_PRIVATE
               ++ [Ev.OQSerr ERR_R_FATAL]
               ++ released (rand sg) Ev.OQS_RAND_free
               ++ [Ev.OQS_SIG_free sg;
                   Ev.OPENSSL_secure_clear_free b_privkey (priv_key_len sg);
                   Ev.OPENSSL_free b_pubkey; Ev.OPENSSL_free b_oqs_key]).
Proof.
  intros Hrun d. subst d. revert Hrun.
  unfold oqs_priv_decode, PKCS8_pkey_get0.
  unfold bind at 1.
  destruct (on_PKCS8_pkey_get0 e); cbv beta iota.
  2:{ intros Hrun. injection Hrun as _ <-. now left. }
  unfold bind at 1. rewrite d2i_ASN1_OCTET_STRING_payload.
  unfold payload_length.
  set (d := released (payload_of e p8) (fun _ => Ev.d2i_ASN1_OCTET_STRING b_oct)).
  destruct (parameters_present (pkeyalg p8)).
  { intros Hrun. right. left.
    destruct (payload_of e p8); cbn in Hrun; now injection Hrun as _ <-. }
  destruct (oqs_key_init_cases None (ameth_pkey_id pkey) KEY_TYPE_PRIVATE e)
    as [[ti [Hinit _]]|(r & sg & _ & _ & Hinit)].
  { intros Hrun. right. right. left. exists None, ti. split; [exact Hinit|].
    revert Hrun. destruct (payload_of e p8); cbn [option_map]; unfold bind at 1;
      rewrite Hinit; cbn; intros Hrun; now injection Hrun as _ <-. }
  intros Hrun. right. right. right. exists r, sg. revert Hrun.
  destruct (payload_of e p8) as [c|]; cbn [option_map]; unfold bind at 1;
    rewrite Hinit; cbv beta iota; change (1 =? 0) with false; cbv beta iota;
    unfold bind at 1; cbn [deref ret]; cbv beta iota;
    unfold built at 1; cbn [s]; unfold bind at 1; cbn [deref ret]; cbv beta iota;
    cbn [ASN1_STRING_length ASN1_STRING_get0_data].
  - destruct (blen c =? priv_key_len sg + pub_key_len sg) eqn:Elen; cbn [negb].
    + unfold memcpy_to, ASN1_OCTET_STRING_free, emit, deref, bind, ret. cbv beta iota.
      cbn [built privkey pubkey option_map set_privkey set_pubkey].
      destruct (memcpy _ _ _ _); cbv beta iota; [|discriminate].
      destruct (memcpy _ _ _ _); cbv beta iota; discriminate.
    + unfold built. unfold OQSerr, emit, bind, ret. cbv beta iota.
      rewrite oqs_pkey_ctx_free_full. intros Hrun.
      apply Z.eqb_neq in Elen. split; [exact Elen|].
      cbn in Hrun |- *. rewrite ?app_nil_r in Hrun. now injection Hrun as _ <-.
  - destruct (0 =? priv_key_len sg + pub_key_len sg) eqn:Elen; cbn [negb].
    + unfold memcpy_to, deref, bind, ret, undefined. cbv beta iota.
      cbn [built privkey pubkey option_map]. discriminate.
    + unfold built. unfold OQSerr, emit, bind, ret. cbv beta iota.
      rewrite oqs_pkey_ctx_free_full. intros Hrun.
      apply Z.eqb_neq in Elen. split; [exact Elen|].
      cbn in Hrun |- *. rewrite ?app_nil_r in Hrun. now injection Hrun as _ <-.
Qed.

(** X11. However a decoder fails, the key object is as it was and the record
    the decoder allocated is gone: the record is freed, the public buffer,
    if allocated, is freed, the engine, if created, is freed, and in
    private-key decode the private buffer, if taken from the secure
    allocator, is cleared and freed over the size it was allocated with. *)
Theorem decode_failure_releases (pkey pkey' : EVP_PKEY) (e : Env) (t : trace) :
  (forall pk,
      oqs_pub_decode pkey pk e = Some ((0, pkey'), t) ->
      pkey' = pkey
      /\ followed_by (Ev.OPENSSL_zalloc b_oqs_key) (Ev.OPENSSL_free b_oqs_key) t
      /\ (forall num,
            followed_by (Ev.OPENSSL_malloc b_pubkey num) (Ev.OPENSSL_free b_pubkey) t)
      /\ (forall sg, followed_by (Ev.OQS_SIG_new sg) (Ev.OQS_SIG_free sg) t))
  /\ (forall p8,
        oqs_priv_decode pkey p8 e = Some ((0, pkey'), t) ->
        pkey' = pkey
        /\ followed_by (Ev.OPENSSL_zalloc b_oqs_key) (Ev.OPENSSL_free b_oqs_key) t
        /\ (forall num,
              followed_by (Ev.OPENSSL_malloc b_pubkey num) (Ev.OPENSSL_free b_pubkey) t)
        /\ (forall sg, followed_by (Ev.OQS_SIG_new sg) (Ev.OQS_SIG_free sg) t)
        /\ (forall num,
              followed_by (Ev.OPENSSL_secure_malloc b_privkey num)
                (Ev.OPENSSL_secure_clear_free b_privkey num) t)).
Proof.
  split.
  - intros pk Hrun. split.
    { destruct (oqs_pub_decode_cases pkey pk e _ Hrun)
        as [[t' [Hres _]]|(r & sg & raw & _ & _ & _ & _ & _ & _ & _ & Hres)].
      - now injection Hres as -> _.
      - destruct (memcpy _ _ _ _); discriminate. }
    destruct (oqs_pub_decode_failure_trace pkey pkey' pk e t Hrun)
      as [->|[->|[(q & ti & Hinit & ->)|(r & sg & _ & ->)]]].
    + (split; [follows|]); (split; intros ?; follows).
    + (split; [follows|]); (split; intros ?; follows).
    + destruct (oqs_key_init_failure_trace _ _ _ _ _ _ Hinit)
        as [->|[->|[(r & _ & ->)|[(r & sg & ->)|(r & sg & ->)]]]];
        try (destruct (rand sg) as [rr|]; cbn [released app]);
        cbn [app]; (split; [follows|]); (split; intros ?; follows).
    + destruct (rand sg) as [rr|]; cbn [released app built_trace];
        (split; [follows|]); (split; intros ?; follows).
  - intros p8 Hrun. split.
    { destruct (oqs_priv_decode_cases pkey p8 e _ Hrun)
        as [[t' [Hres _]]|(r & sg & _ & _ & _ & _ & _ & _ & Hres)].
      - now injection Hres as -> _.
      - destruct (payload_of e p8); [|discriminate].
        destruct (memcpy _ _ _ _); [|discriminate].
        destruct (memcpy _ _ _ _); discriminate. }
    destruct (oqs_priv_decode_failure_trace pkey pkey' p8 e t Hrun)
      as [[_ ->]|[->|[(q & ti & Hinit & ->)|(r & sg & _ & ->)]]].
    + (split; [follows|]); (split; [intros ?; follows|]); (split; intros ?; follows).
    + destruct (payload_of e p8); cbn [released app];
        (split; [follows|]); (split; [intros ?; follows|]); (split; intros ?; follows).
    + destruct (oqs_key_init_failure_trace _ _ _ _ _ _ Hinit)
        as [->|[->|[(r & _ & ->)|[(r & sg & ->)|(r & sg & ->)]]]];
        try (destruct (rand sg) as [rr|]; cbn [released app]);
        destruct (payload_of e p8); cbn [released app];
        (split; [follows|]); (split; [intros ?; follows|]); (split; intros ?; follows).
    + destruct (rand sg) as [rr|]; destruct (payload_of e p8);
        cbn [released app built_trace];
        (split; [follows|]); (split; [intros ?; follows|]); (split; intros ?; follows).
Qed.

(** X12. Private-key decode frees the octet string it decoded on success
    only: a successful decode decodes it first and frees it last, and a
    decode that fails after decoding it never frees it. *)
Theorem oqs_priv_decode_frees_octets_on_success_only (pkey pkey' : EVP_PKEY)
  (p8 : PKCS8_PRIV_KEY_INFO) (e : Env) (t : trace) :
  (oqs_priv_decode pkey p8 e = Some ((1, pkey'), t) ->
   In (Ev.d2i_ASN1_OCTET_STRING b_oct) t
   /\ followed_by (Ev.d2i_ASN1_OCTET_STRING b_oct) (Ev.ASN1_OCTET_STRING_free b_oct) t)
  /\ (oqs_priv_decode pkey p8 e = Some ((0, pkey'), t) ->
      ~ In (Ev.ASN1_OCTET_STRING_free b_oct) t
      /\ (on_PKCS8_pkey_get0 e = true -> payload_of e p8 <> None ->
          In (Ev.d2i_ASN1_OCTET_STRING b_oct) t)).
Proof.
  split.
  - intros Hrun.
    destruct (oqs_priv_decode_cases pkey p8 e _ Hrun)
      as [[t' [Hres _]]|(r & sg & _ & _ & _ & _ & _ & _ & Hres)]; [discriminate|].
    destruct (payload_of e p8); [|discriminate].
    destruct (memcpy _ _ _ _); [|discriminate].
    destruct (memcpy _ _ _ _); [|discriminate].
    injection Hres as _ ->. cbn [built_trace app]. split; [now left|follows].
  - intros Hrun.
    destruct (oqs_priv_decode_failure_trace pkey pkey' p8 e t Hrun)
      as [[Hget ->]|[->|[(q & ti & Hinit & ->)|(r & sg & _ & ->)]]].
    + split; [intros []|]. intros Hget'. congruence.
    + destruct (payload_of e p8); cbn [released app];
        (split; [intros Hin; cbn in Hin; intuition discriminate|]);
        intros _ Hp; [now left|now contradiction Hp].
    + destruct (oqs_key_init_failure_trace _ _ _ _ _ _ Hinit)
        as [->|[->|[(r & _ & ->)|[(r & sg & ->)|(r & sg & ->)]]]];
        try (destruct (rand sg) as [rr|]; cbn [released app]);
        destruct (payload_of e p8); cbn [released app];
        (split; [intros Hin; cbn in Hin; intuition discriminate|]);
        intros _ Hp; first [now left | now contradiction Hp].
    + destruct (rand sg) as [rr|]; destruct (payload_of e p8);
        cbn [released app built_trace];
        (split; [intros Hin; cbn in Hin; intuition discriminate|]);
        intros _ Hp; first [now left | now contradiction Hp].
Qed.

(** ** Sign and verify *)

(** Sign with a signature buffer, on a private-capable record: a length
    below the engine's maximum signature length is refused with an error
    report before the engine is called, and the buffer and the length stay
    as they were; otherwise the engine signs, and the answer is 1 exactly
    when its status is the success status, with the buffer and the length
    as the engine left them. *)
Theorem pkey_oqs_digestsign_answer (ctx : EVP_MD_CTX) (pctx : EVP_PKEY_CTX)
  (pkey : EVP_PKEY) (k : OQS_KEY) (sg : OQS_SIG) (priv sigbuf : bytes)
  (siglen : Z) (tbs : option bytes) (tbslen : Z) (e : Env) :
  EVP_MD_CTX_pkey_ctx ctx = Some pctx ->
  ctx_pkey pctx = Some pkey ->
  ptr pkey = Some k ->
  s k = Some sg ->
  privkey k = Some priv ->
  pkey_oqs_digestsign ctx (Some sigbuf) siglen tbs tbslen e
  = if siglen <? max_sig_len sg
    then Some ((0, Some sigbuf, siglen), [Ev.OQSerr ERR_R_FATAL])
    else
      let '(status, out, outlen) := on_OQS_SIG_sign e sg priv tbs tbslen sigbuf siglen in
      if status =? OQS_SUCCESS
      then Some ((1, Some out, outlen), [Ev.OQS_SIG_sign sg])
      else Some ((0, Some out, outlen), [Ev.OQS_SIG_sign sg; Ev.OQSerr ERR_R_FATAL]).
Proof.
  intros Hctx Hpctx Hptr Hs Hpriv.
  unfold pkey_oqs_digestsign. rewrite Hctx.
  unfold deref, bind at 1, ret. cbv beta iota. rewrite Hpctx.
  unfold bind at 1. cbv beta iota. rewrite Hptr.
  destruct k as [s0 pub0 priv0]. cbn in Hs, Hpriv. subst s0 priv0. cbv beta iota.
  destruct (siglen <? max_sig_len sg); [reflexivity|].
  unfold OQS_SIG_sign, OQSerr, bind, emit, ask. cbv beta iota.
  destruct (on_OQS_SIG_sign e sg priv tbs tbslen sigbuf siglen) as [[status out] outlen].
  destruct (status =? OQS_SUCCESS); reflexivity.
Qed.

(** X15. Sign calls the engine only with the private bytes of a
    private-capable record, a signature buffer, and a length of at least
    the engine's maximum signature length. *)
Theorem pkey_oqs_digestsign_calls_engine_only (ctx : EVP_MD_CTX) (sig : option bytes)
  (siglen : Z) (tbs : option bytes) (tbslen : Z) (e : Env)
  (res : Z * option bytes * Z) (t : trace) (sg : OQS_SIG) :
  pkey_oqs_digestsign ctx sig siglen tbs tbslen e = Some (res, t) ->
  In (Ev.OQS_SIG_sign sg) t ->
  exists pctx pkey k priv sigbuf,
    EVP_MD_CTX_pkey_ctx ctx = Some pctx
    /\ ctx_pkey pctx = Some pkey
    /\ ptr pkey = Some k
    /\ s k = Some sg
    /\ privkey k = Some priv
    /\ sig = Some sigbuf
    /\ max_sig_len sg <= siglen.
Proof.
  intros Hrun Hin.
  unfold pkey_oqs_digestsign, OQS_SIG_sign, OQSerr, deref, undefined, bind, ret, emit, ask
    in Hrun.
  crunch Hrun; cbn in Hin;
    try (exfalso; intuition discriminate).
  all: destruct Hin as [Hin|Hin]; [|exfalso; cbn in Hin; intuition discriminate];
    injection Hin as <-;
    do 5 eexists; repeat (split; [first [eassumption | reflexivity]|]);
    match goal with Hlt : (_ <? _) = false |- _ => apply Z.ltb_ge in Hlt; exact Hlt end.
Qed.

(** Verify, on a record with an engine and public bytes, private bytes or
    not, and with a signature and a message: the engine verifies, and the
    answer is 1 exactly when its status is the success status; any other
    status is reported as an error and answered by 0. *)
Theorem pkey_oqs_digestverify_answer (ctx : EVP_MD_CTX) (pctx : EVP_PKEY_CTX)
  (pkey : EVP_PKEY) (k : OQS_KEY) (sg : OQS_SIG) (pub sig tbs : bytes)
  (siglen tbslen : Z) (e : Env) :
  EVP_MD_CTX_pkey_ctx ctx = Some pctx ->
  ctx_pkey pctx = Some pkey ->
  ptr pkey = Some k ->
  s k = Some sg ->
  pubkey k = Some pub ->
  pkey_oqs_digestverify ctx (Some sig) siglen (Some tbs) tbslen e
  = if on_OQS_SIG_verify e sg pub tbs tbslen sig siglen =? OQS_SUCCESS
    then Some (1, [Ev.OQS_SIG_verify sg])
    else Some (0, [Ev.OQS_SIG_verify sg; Ev.OQSerr ERR_R_FATAL]).
Proof.
  intros Hctx Hpctx Hptr Hs Hpub.
  unfold pkey_oqs_digestverify. rewrite Hctx.
  unfold deref, bind at 1, ret. cbv beta iota. rewrite Hpctx.
  unfold bind at 1. cbv beta iota. rewrite Hptr.
  destruct k as [s0 pub0 priv0]. cbn in Hs, Hpub. subst s0 pub0. cbv beta iota.
  unfold OQS_SIG_verify, OQSerr, bind, emit, ask. cbv beta iota.
  destruct (on_OQS_SIG_verify e sg pub tbs tbslen sig siglen =? OQS_SUCCESS); reflexivity.
Qed.


(** X17. A key object filled by public-key decode cannot sign: sign reports
    an error and answers 0 whatever the buffer, the size query included,
    and never calls the engine.  Verify does reach the engine with it. *)
Theorem decoded_public_key_cannot_sign (pkey pkey' : EVP_PKEY) (pk : X509_PUBKEY)
  (e : Env) (t : trace) (ctx : EVP_MD_CTX) (pctx : EVP_PKEY_CTX) :
  oqs_pub_decode pkey pk e = Some ((1, pkey'), t) ->
  EVP_MD_CTX_pkey_ctx ctx = Some pctx ->
  ctx_pkey pctx = Some pkey' ->
  (forall sig siglen tbs tbslen e',
      pkey_oqs_digestsign ctx sig siglen tbs tbslen e'
      = Some ((0, sig, siglen), [Ev.OQSerr ERR_R_FATAL]))
  /\ (exists sg,
        forall sig siglen tbs tbslen e',
        exists r t',
          pkey_oqs_digestverify ctx (Some sig) siglen (Some tbs) tbslen e'
          = Some (r, Ev.OQS_SIG_verify sg :: t')).
Proof.
  intros Hrun Hctx Hpctx.
  destruct (oqs_pub_decode_cases pkey pk e _ Hrun)
    as [[t' [Hfail _]]|(r & sg & raw & _ & _ & _ & _ & _ & _ & _ & Hres)]; [discriminate|].
  destruct (memcpy _ _ _ _) as [pub|]; [|discriminate].
  injection Hres as -> ->. split.
  - intros sig siglen tbs tbslen e'.
    unfold pkey_oqs_digestsign. rewrite Hctx.
    unfold deref, bind at 1, ret. cbv beta iota. rewrite Hpctx.
    unfold bind at 1. cbv beta iota. reflexivity.
  - exists sg. intros sig siglen tbs tbslen e'.
    unfold pkey_oqs_digestverify. rewrite Hctx.
    unfold deref, bind at 1, ret. cbv beta iota. rewrite Hpctx.
    unfold bind at 1. cbv beta iota. cbn [EVP_PKEY_assign ptr].
    unfold OQS_SIG_verify, OQSerr, bind, emit, ask. cbv beta iota.
    destruct (_ =? OQS_SUCCESS); do 2 eexists; reflexivity.
Qed.

(** ** Algorithm identifiers of signed items *)

(** X18. Item-sign answers 3 and stamps the scheme with absent parameters on
    the first algorithm identifier, and on the second when there is one;
    an identifier it stamped passes the sanity check of item-verify, which
    then answers by the digest initializer: 2 when it succeeds, 0 when it
    refuses. *)
Theorem oqs_item_sign_passes_item_verify (a1 : X509_ALGOR) (alg2 : option X509_ALGOR)
  (pkey : EVP_PKEY) (e : Env) :
  let '(r, alg1', alg2') := oqs_item_sign (Some a1) alg2 in
  r = 3
  /\ alg1' = Some {| algorithm := OBJ_nid2obj NID_picnicL1FS; parameter_type := V_ASN1_UNDEF |}
  /\ (alg2 = None -> alg2' = None)
  /\ (alg2 <> None -> alg2' = alg1')
  /\ oqs_item_verify alg1' pkey e
     = Some (if on_EVP_DigestVerifyInit e =? 0 then 0 else 2, [Ev.EVP_DigestVerifyInit]).
Proof.
  unfold oqs_item_sign, X509_ALGOR_set0.
  split; [reflexivity|]. split; [reflexivity|].
  split; [now intros ->|]. split; [destruct alg2; [reflexivity|now intros []]|].
  unfold oqs_item_verify, EVP_DigestVerifyInit, X509_ALGOR_get0, OBJ_obj2nid, OBJ_nid2obj,
    deref, bind, ret, emit, ask.
  cbn [algorithm parameter_type]. rewrite !Z.eqb_refl. cbn [negb orb].
  destruct (on_EVP_DigestVerifyInit e =? 0); reflexivity.
Qed.

(** X19. Item-verify answers 0 or 2, never 1.  It reaches the digest
    initializer only for the scheme's identifier with absent parameters;
    every other identifier is refused with an error report and without
    that call. *)
Theorem oqs_item_verify_answer (alg : X509_ALGOR) (pkey : EVP_PKEY) (e : Env) :
  exists r t,
    oqs_item_verify (Some alg) pkey e = Some (r, t)
    /\ (r = 0 \/ r = 2)
    /\ (In Ev.EVP_DigestVerifyInit t
        <-> OBJ_obj2nid (algorithm alg) = NID_picnicL1FS
            /\ parameter_type alg = V_ASN1_UNDEF)
    /\ (r = 2 -> In Ev.EVP_DigestVerifyInit t /\ on_EVP_DigestVerifyInit e <> 0)
    /\ (~ In Ev.EVP_DigestVerifyInit t -> t = [Ev.OQSerr ERR_R_FATAL]).
Proof.
  unfold oqs_item_verify, EVP_DigestVerifyInit, X509_ALGOR_get0, OQSerr,
    deref, bind, ret, emit, ask. cbv beta iota.
  destruct (Z.eqb_spec (OBJ_obj2nid (algorithm alg)) NID_picnicL1FS) as [En|En];
    destruct (Z.eqb_spec (parameter_type alg) V_ASN1_UNDEF) as [Ep|Ep]; cbn [negb orb].
  - destruct (Z.eqb_spec (on_EVP_DigestVerifyInit e) 0) as [Ei|Ei]; do 2 eexists;
      (split; [reflexivity|]); cbn;
      repeat split; auto; try tauto; try discriminate.
  - do 2 eexists. split; [reflexivity|]. cbn.
    repeat split; auto; try tauto; try discriminate; intuition discriminate.
  - do 2 eexists. split; [reflexivity|]. cbn.
    repeat split; auto; try tauto; try discriminate; intuition discriminate.
  - do 2 eexists. split; [reflexivity|]. cbn.
    repeat split; auto; try tauto; try discriminate; intuition discriminate.
Qed.

(** ** The two tables *)

(** X20. The table of engine selectors and the table of security levels know
    the same identifiers, as long as the scheme's selector is not the -1
    of an unknown one; and the signature information the adapter stamps
    carries the scheme, no digest, and the security level the table gives
    for the scheme, 128 bits. *)
Theorem tables_agree (nid : Z) (siginf : X509_SIG_INFO) :
  OQS_SIG_picnic_L1_FS <> -1 ->
  (get_oqs_alg_id nid = -1 <-> get_oqs_security_bits nid = -1)
  /\ (get_oqs_alg_id nid <> -1 <-> nid = NID_picnicL1FS)
  /\ fst (oqs_sig_info_set siginf) = 1
  /\ pknid (snd (oqs_sig_info_set siginf)) = NID_picnicL1FS
  /\ mdnid (snd (oqs_sig_info_set siginf)) = NID_undef
  /\ secbits (snd (oqs_sig_info_set siginf))
     = get_oqs_security_bits (pknid (snd (oqs_sig_info_set siginf)))
  /\ secbits (snd (oqs_sig_info_set siginf)) = 128.
Proof.
  intros Hsel. unfold get_oqs_alg_id, get_oqs_security_bits, oqs_sig_info_set.
  cbn [fst snd pknid mdnid secbits]. rewrite Z.eqb_refl.
  destruct (nid =? NID_picnicL1FS) eqn:En;
    [apply Z.eqb_eq in En|apply Z.eqb_neq in En];
    repeat split; intros; try reflexivity; try assumption; try congruence; try lia;
    unfold get_oqs_security_bits; now rewrite Z.eqb_refl.
Qed.

(** ** Printing *)

(** X21. Printing the private key of a key object that has no record, or a
    record without private bytes (a public-only one), prints the one line
    that marks an invalid private key, not the public bytes the record may
    have, and answers 1 when the line was written. *)
Theorem oqs_priv_print_invalid_key (pkey : EVP_PKEY) (indent : Z) (e : Env) :
  (ptr pkey = None \/ exists k, ptr pkey = Some k /\ privkey k = None) ->
  oqs_priv_print pkey indent e
  = Some (if on_BIO_printf e ("<INVALID PRIVATE KEY>" ++ nl) <=? 0 then 0 else 1,
          [Ev.BIO_printf indent ("<INVALID PRIVATE KEY>" ++ nl)]).
Proof.
  intros Hk. unfold oqs_priv_print, oqs_key_print, BIO_printf, bind, ret, emit, ask.
  cbv beta iota.
  destruct Hk as [->|(k & -> & Hpriv)].
  - destruct (_ <=? 0); reflexivity.
  - destruct k as [s0 pub0 priv0]. cbn in Hpriv. subst priv0.
    destruct (_ <=? 0); reflexivity.
Qed.

(** X22. On a record with its engine and both byte strings, when the output
    channel takes every line: the private print writes the name line, the
    private bytes and then the public bytes, each dump four columns in
    and of the engine's length, and ends as the public print does, which
    writes its name line and the public bytes only.  Both answer 1. *)
Theorem oqs_key_print_layout (pkey : EVP_PKEY) (indent : Z) (e : Env)
  (k : OQS_KEY) (sg : OQS_SIG) (priv pub : bytes) :
  ptr pkey = Some k -> s k = Some sg -> privkey k = Some priv -> pubkey k = Some pub ->
  (forall text, 0 < on_BIO_printf e text) ->
  on_ASN1_buf_print e <> 0 ->
  let nm := OBJ_nid2ln e (ameth_pkey_id pkey) in
  let pub_part := [Ev.BIO_printf indent ("pub:" ++ nl);
                   Ev.ASN1_buf_print (pub_key_len sg) (indent + 4)] in
  oqs_priv_print pkey indent e
  = Some (1, [Ev.BIO_printf indent (nm ++ " Private-Key:" ++ nl);
              Ev.BIO_printf indent ("priv:" ++ nl);
              Ev.ASN1_buf_print (priv_key_len sg) (indent + 4)] ++ pub_part)
  /\ oqs_pub_print pkey indent e
     = Some (1, Ev.BIO_printf indent (nm ++ " Public-Key:" ++ nl) :: pub_part).
Proof.
  intros Hptr Hs Hpriv Hpub Hprintf Hbuf nm pub_part. subst nm pub_part.
  assert (Hp : forall text, (on_BIO_printf e text <=? 0) = false)
    by (intros text; apply Z.leb_gt, Hprintf).
  apply Z.eqb_neq in Hbuf.
  destruct k as [s0 pub0 priv0]. cbn in Hs, Hpriv, Hpub. subst s0 pub0 priv0.
  unfold oqs_priv_print, oqs_pub_print, oqs_key_print, BIO_printf, ASN1_buf_print,
    deref, bind, ret, emit, ask.
  cbv beta iota. rewrite Hptr. cbv beta iota. cbn [s pubkey privkey].
  repeat (first [rewrite Hp | rewrite Hbuf]; cbv beta iota).
  split; reflexivity.
Qed.


(** ** Control requests *)

(** X24. The control entry answers 1, 0 or -2: 0, with an error report, to
    the digest request with a digest that is not null, and to that only;
    -2, without a report, to every request but the two it knows. *)
Theorem pkey_oqs_ctrl_answer (type p1 : Z) (p2 : option EVP_MD) (e : Env) :
  exists r t,
    pkey_oqs_ctrl type p1 p2 e = Some (r, t)
    /\ (r = 1 \/ r = 0 \/ r = -2)
    /\ (r = 0 <-> type = EVP_PKEY_CTRL_MD /\ p2 <> None)
    /\ (r = -2 <-> type <> EVP_PKEY_CTRL_MD /\ type <> EVP_PKEY_CTRL_DIGESTINIT)
    /\ (reports_error t <-> r = 0).
Proof.
  unfold pkey_oqs_ctrl, OQSerr, bind, ret, emit.
  destruct (Z.eqb_spec type EVP_PKEY_CTRL_MD) as [Em|Em].
  - destruct p2 as [md|]; do 2 eexists; (split; [reflexivity|]); cbn;
      repeat split; auto with oqs; try tauto; try discriminate; try lia;
      try (intros [? ?]; congruence); try (intros [reason [Hin|[]]]; discriminate);
      try (intros [reason []]).
  - destruct (Z.eqb_spec type EVP_PKEY_CTRL_DIGESTINIT) as [Ed|Ed];
      do 2 eexists; (split; [reflexivity|]); cbn;
      repeat split; auto; try tauto; try discriminate; try lia;
      try (intros [? ?]; congruence); try (intros [reason []]).
Qed.

End Properties.

(** ** Sample runs *)

#[local] Existing Instance sample_constants.

Lemma sample_key_valid :
  valid_private_record sample_key sample_sig sample_privkey sample_pubkey.
Proof. repeat split. Defined.

Lemma sample_allocation (keytype : oqs_key_type_t) :
  allocation_succeeds (sample_env no_fault) 1195 keytype sample_rand sample_sig.
Proof. repeat split. Defined.

(** The failing input of C1, run: the buffer of 82 bytes is taken from
    the secure allocator, the encoder fails, and the error report is the
    last call. *)
Example oqs_priv_encode_i2d_failure_run :
  oqs_priv_encode empty_p8 sample_pkey (sample_env i2d_fails)
  = Some ((0, empty_p8), [Ev.OPENSSL_secure_malloc b_buf 82; Ev.OQSerr 65]).
Proof. vm_compute. reflexivity. Qed.

Lemma oqs_priv_encode_i2d_failure_witness :
  exists t,
    oqs_priv_encode empty_p8 sample_pkey (sample_env i2d_fails) = Some ((0, empty_p8), t)
    /\ In (Ev.OPENSSL_secure_malloc b_buf (49 + 33)) t
    /\ (forall num, ~ In (Ev.OPENSSL_secure_clear_free b_buf num) t)
    /\ (forall p, ~ In (Ev.OPENSSL_free p) t).
Proof.
  apply (oqs_priv_encode_i2d_failure empty_p8 sample_pkey (sample_env i2d_fails)
           sample_key sample_sig sample_privkey sample_pubkey).
  - reflexivity.
  - exact sample_key_valid.
  - reflexivity.
  - reflexivity.
Defined.

Lemma oqs_priv_roundtrip_witness :
  exists p8' t1 t2,
    oqs_priv_encode empty_p8 sample_pkey (sample_env no_fault) = Some ((1, p8'), t1)
    /\ oqs_priv_decode empty_pkey p8' (sample_env no_fault)
       = Some ((1, {| ameth_pkey_id := 1195;
                      ptr := Some {| s := Some sample_sig; pubkey := Some sample_pubkey;
                                     privkey := Some sample_privkey |} |}), t2).
Proof.
  apply (oqs_priv_roundtrip empty_p8 sample_pkey empty_pkey (sample_env no_fault)
           sample_key sample_sig sample_privkey sample_pubkey sample_rand sample_sig).
  - reflexivity.
  - exact sample_key_valid.
  - reflexivity.
  - reflexivity.
  - reflexivity.
  - reflexivity.
  - reflexivity.
  - reflexivity.
  - exact (sample_allocation KEY_TYPE_PRIVATE).
  - reflexivity.
  - reflexivity.
Defined.

Lemma oqs_pub_decode_checks_witness :
  oqs_pub_decode empty_pkey sample_pubkey_container (sample_env no_fault)
  = Some ((1, {| ameth_pkey_id := 1195;
                 ptr := Some {| s := Some sample_sig; pubkey := Some sample_pubkey;
                                privkey := None |} |}),
          built_trace sample_rand sample_sig KEY_TYPE_PUBLIC).
Proof.
  apply (proj2 (proj2 (oqs_pub_decode_checks empty_pkey sample_pubkey_container
                         (sample_env no_fault)))).
  - reflexivity.
  - reflexivity.
  - reflexivity.
  - right. exists sample_algor. split; reflexivity.
  - exact (sample_allocation KEY_TYPE_PUBLIC).
  - reflexivity.
Defined.

Lemma oqs_priv_decode_split_witness :
  exists t,
    oqs_priv_decode empty_pkey sample_p8 (sample_env no_fault)
    = Some ((1, {| ameth_pkey_id := 1195;
                   ptr := Some {| s := Some sample_sig;
                                  pubkey := Some (skipn 49 (sample_privkey ++ sample_pubkey));
                                  privkey := Some (firstn 49 (sample_privkey ++ sample_pubkey))
                               |} |}), t).
Proof.
  apply (proj2 (oqs_priv_decode_split empty_pkey sample_p8 (sample_env no_fault))
           sample_rand sample_sig (sample_privkey ++ sample_pubkey)).
  - reflexivity.
  - vm_compute. reflexivity.
  - right. exists sample_algor. split; reflexivity.
  - exact (sample_allocation KEY_TYPE_PRIVATE).
  - discriminate.
  - discriminate.
  - reflexivity.
Defined.

Lemma unsupported_algorithm_left_to_engine_witness :
  oqs_key_init None 7 KEY_TYPE_PRIVATE (sample_env no_fault)
  = Some ((0, None), engine_refused_trace sample_rand)
  /\ oqs_key_init None 7 KEY_TYPE_PUBLIC lenient_engine_env
     = Some ((1, Some (built lenient_engine_env sample_sig KEY_TYPE_PUBLIC)),
             built_trace sample_rand sample_sig KEY_TYPE_PUBLIC).
Proof.
  split.
  - refine (proj1 (proj1 (proj2 (proj2 (@unsupported_algorithm_left_to_engine
                                          sample_constants 7 (sample_env no_fault) _)))
                     sample_rand eq_refl eq_refl eq_refl) None KEY_TYPE_PRIVATE).
    cbv. discriminate.
  - refine (proj1 (proj2 (@unsupported_algorithm_left_to_engine
                            sample_constants 7 lenient_engine_env _))
              None KEY_TYPE_PUBLIC sample_rand sample_sig eq_refl eq_refl eq_refl eq_refl _).
    + cbv. discriminate.
    + discriminate.
Defined.

(** C6 as the spec states it fails: the adapter has no test of the
    selector, so in a world whose engine gives an instance for every
    selector, allocation and key generation for the identifier 7, which
    is not the scheme's, succeed and leave a record.  And where the
    engine refuses the selector, the calls and the report for the
    identifier 7 are those for the scheme's own identifier in a world
    whose engine gives no instance: the report does not tell an
    unsupported identifier from an engine that failed. *)
Lemma unsupported_identifier_gets_a_record :
  oqs_key_init None 7 KEY_TYPE_PUBLIC lenient_engine_env
  = Some ((1, Some {| s := Some sample_sig;
                      pubkey := Some (fresh lenient_engine_env 33);
                      privkey := None |}),
          [Ev.OPENSSL_zalloc b_oqs_key; Ev.OQS_RAND_new sample_rand;
           Ev.OQS_SIG_new sample_sig; Ev.OPENSSL_malloc b_pubkey 33])
  /\ (exists t,
        pkey_oqs_keygen {| pmeth_pkey_id := 7; ctx_pkey := None |}
          {| ameth_pkey_id := 7; ptr := None |} lenient_engine_env
        = Some ((1, {| ameth_pkey_id := 7; ptr := Some sample_key |}), t))
  /\ oqs_key_init None 7 KEY_TYPE_PUBLIC (sample_env no_fault)
     = Some ((0, None), [Ev.OPENSSL_zalloc b_oqs_key; Ev.OQS_RAND_new sample_rand;
                         Ev.OQSerr 64; Ev.OPENSSL_free b_oqs_key])
  /\ oqs_key_init None 1195 KEY_TYPE_PUBLIC no_engine_env
     = Some ((0, None), [Ev.OPENSSL_zalloc b_oqs_key; Ev.OQS_RAND_new sample_rand;
                         Ev.OQSerr 64; Ev.OPENSSL_free b_oqs_key])
  /\ ~ (forall (nid : Z) (e : Env) (p : option OQS_KEY) (keytype : oqs_key_type_t),
          nid <> NID_picnicL1FS ->
          exists t, oqs_key_init p nid keytype e = Some ((0, p), t) /\ reports_error t).
Proof.
  split; [reflexivity|]. split; [|split; [reflexivity|split; [reflexivity|]]].
  - eexists. vm_compute. reflexivity.
  - intros Hall.
    destruct (Hall 7 lenient_engine_env None KEY_TYPE_PUBLIC) as [t [Hrun _]].
    + cbv. discriminate.
    + discriminate Hrun.
Qed.



Lemma pkey_oqs_digestsign_size_query_witness :
  pkey_oqs_digestsign sample_md_ctx None 0 (Some sample_message) 4 (sample_env no_fault)
  = Some ((1, None, 34032), [])
  /\ exists res t,
       pkey_oqs_digestsign sample_md_ctx (Some sample_signature_buffer) 34032 None 0
         (sample_env no_fault)
       = Some (res, Ev.OQS_SIG_sign sample_sig :: t)
       /\ (fst (fst res) = 1
           <-> fst (fst (on_OQS_SIG_sign (sample_env no_fault) sample_sig sample_privkey
                           None 0 sample_signature_buffer 34032)) = 0).
Proof.
  pose proof (pkey_oqs_digestsign_size_query sample_md_ctx sample_pkey_ctx sample_pkey
                sample_key sample_sig sample_privkey 0 (Some sample_message) 4
                (sample_env no_fault) eq_refl eq_refl eq_refl eq_refl eq_refl)
    as [Hquery Hnull].
  split; [exact Hquery|].
  refine (Hnull sample_signature_buffer 34032 0 _).
  cbn. lia.
Defined.

(** C8 as the spec states it fails: a null message pointer is no size
    query.  With the sample key and a signature buffer of 34032 bytes,
    sign on a null message calls the engine's signing operation, and the
    length it gives back is the engine's, not the maximum. *)
Lemma null_message_is_no_size_query :
  pkey_oqs_digestsign sample_md_ctx (Some sample_signature_buffer) 34032 None 0
    (sample_env no_fault)
  = Some ((1, Some sample_signature_buffer, 34000), [Ev.OQS_SIG_sign sample_sig])
  /\ ~ (forall (ctx : EVP_MD_CTX) (pctx : EVP_PKEY_CTX) (pkey : EVP_PKEY) (k : OQS_KEY)
               (sg : OQS_SIG) (priv : bytes) (sig : option bytes) (siglen tbslen : Z)
               (e : Env),
          EVP_MD_CTX_pkey_ctx ctx = Some pctx ->
          ctx_pkey pctx = Some pkey ->
          ptr pkey = Some k ->
          s k = Some sg ->
          privkey k = Some priv ->
          exists out,
            pkey_oqs_digestsign ctx sig siglen None tbslen e
            = Some ((1, out, max_sig_len sg), [])).
Proof.
  split; [reflexivity|].
  intros Hall.
  destruct (Hall sample_md_ctx sample_pkey_ctx sample_pkey sample_key sample_sig
              sample_privkey (Some sample_signature_buffer) 34032 0 (sample_env no_fault)
              eq_refl eq_refl eq_refl eq_refl eq_refl) as [out Hrun].
  discriminate Hrun.
Qed.

Lemma constructed_private_has_public_witness :
  pubkey sample_key <> None
  /\ exists t1 t2 sg,
       built_trace sample_rand sample_sig KEY_TYPE_PRIVATE ++ [Ev.OQS_SIG_keygen sample_sig]
       = t1 ++ Ev.OPENSSL_malloc b_pubkey (pub_key_len sg) :: t2
       /\ In (Ev.OPENSSL_secure_malloc b_privkey (priv_key_len sg)) t2
       /\ (forall num, ~ In (Ev.OPENSSL_secure_malloc b_privkey num) t1).
Proof.
  apply (constructed_private_has_public sample_key
           (built_trace sample_rand sample_sig KEY_TYPE_PRIVATE
              ++ [Ev.OQS_SIG_keygen sample_sig])).
  - apply (by_keygen sample_key _ keygen_ctx empty_pkey sample_pkey (sample_env no_fault)).
    + vm_compute. reflexivity.
    + reflexivity.
  - discriminate.
Defined.

(** A container without an algorithm identifier decodes. *)
Example oqs_pub_decode_without_algor_run :
  oqs_pub_decode empty_pkey
    {| algor := None; public_key := public_key sample_pubkey_container |}
    (sample_env no_fault)
  = Some ((1, {| ameth_pkey_id := 1195;
                 ptr := Some {| s := Some sample_sig; pubkey := Some sample_pubkey;
                                privkey := None |} |}),
          built_trace sample_rand sample_sig KEY_TYPE_PUBLIC).
Proof. vm_compute. reflexivity. Qed.

(** ** More sample runs *)

Lemma oqs_key_init_success_shape_witness :
  exists k sg pub,
    Some (built (sample_env no_fault) sample_sig KEY_TYPE_PRIVATE) = Some k
    /\ s k = Some sg
    /\ pubkey k = Some pub
    /\ blen pub = Z.max 0 (pub_key_len sg)
    /\ exists priv, privkey k = Some priv /\ blen priv = Z.max 0 (priv_key_len sg).
Proof.
  apply (oqs_key_init_success_shape None 1195 KEY_TYPE_PRIVATE (sample_env no_fault)
           (Some (built (sample_env no_fault) sample_sig KEY_TYPE_PRIVATE))
           (built_trace sample_rand sample_sig KEY_TYPE_PRIVATE)).
  reflexivity.
Defined.

Lemma sample_pub_decode_run :
  oqs_pub_decode empty_pkey sample_pubkey_container (sample_env no_fault)
  = Some ((1, sample_public_pkey), built_trace sample_rand sample_sig KEY_TYPE_PUBLIC).
Proof. vm_compute. reflexivity. Defined.

Lemma decoded_record_sizes_witness :
  exists sg pub,
    ptr sample_public_pkey = Some {| s := Some sg; pubkey := Some pub; privkey := None |}
    /\ blen pub = pub_key_len sg
    /\ ameth_pkey_id sample_public_pkey = ameth_pkey_id empty_pkey.
Proof.
  apply (proj1 (decoded_record_sizes empty_pkey sample_public_pkey (sample_env no_fault)
                  (built_trace sample_rand sample_sig KEY_TYPE_PUBLIC))
           sample_pubkey_container).
  exact sample_pub_decode_run.
Defined.

Lemma oqs_pub_encode_failure_frees_copy_witness :
  reports_error [Ev.OPENSSL_memdup b_penc 33; Ev.OPENSSL_free b_penc; Ev.OQSerr 65]
  /\ (forall num t1 t2,
        [Ev.OPENSSL_memdup b_penc 33; Ev.OPENSSL_free b_penc; Ev.OQSerr 65]
        = t1 ++ Ev.OPENSSL_memdup b_penc num :: t2 ->
        In (Ev.OPENSSL_free b_penc) t2).
Proof.
  apply (oqs_pub_encode_failure_frees_copy empty_pubkey empty_pubkey sample_pkey
           (sample_env set0_fails)).
  vm_compute. reflexivity.
Defined.

Lemma oqs_pub_roundtrip_witness :
  exists pk' t1 t2,
    oqs_pub_encode empty_pubkey sample_pkey (sample_env no_fault) = Some ((1, pk'), t1)
    /\ oqs_pub_decode empty_pkey pk' (sample_env no_fault)
       = Some ((1, {| ameth_pkey_id := 1195;
                      ptr := Some {| s := Some sample_sig; pubkey := Some sample_pubkey;
                                     privkey := None |} |}), t2).
Proof.
  apply (oqs_pub_roundtrip empty_pubkey sample_pkey empty_pkey (sample_env no_fault)
           sample_key sample_sig sample_pubkey sample_rand sample_sig);
    try reflexivity.
  exact (sample_allocation KEY_TYPE_PUBLIC).
Defined.

Lemma oqs_pub_cmp_answer_witness :
  exists r,
    oqs_pub_cmp sample_pkey sample_public_pkey (sample_env no_fault) = Some (r, [])
    /\ (r = 1 <-> firstn (Z.to_nat (pub_key_len sample_sig)) sample_pubkey
                  = firstn (Z.to_nat (pub_key_len sample_sig)) sample_pubkey)
    /\ (r = 0 <-> firstn (Z.to_nat (pub_key_len sample_sig)) sample_pubkey
                  <> firstn (Z.to_nat (pub_key_len sample_sig)) sample_pubkey).
Proof.
  apply (proj2 (oqs_pub_cmp_answer sample_pkey sample_public_pkey (sample_env no_fault))
           sample_key sample_public_key sample_sig sample_pubkey sample_pubkey);
    try reflexivity; discriminate.
Defined.

Lemma oqs_pub_cmp_after_roundtrip_witness :
  exists pk' t1 decoded t2,
    oqs_pub_encode empty_pubkey sample_pkey (sample_env no_fault) = Some ((1, pk'), t1)
    /\ oqs_pub_decode empty_pkey pk' (sample_env no_fault) = Some ((1, decoded), t2)
    /\ oqs_pub_cmp sample_pkey decoded (sample_env no_fault) = Some (1, [])
    /\ oqs_pub_cmp decoded sample_pkey (sample_env no_fault) = Some (1, []).
Proof.
  apply (oqs_pub_cmp_after_roundtrip empty_pubkey sample_pkey empty_pkey
           (sample_env no_fault) sample_key sample_sig sample_pubkey sample_rand sample_sig);
    try reflexivity.
  exact (sample_allocation KEY_TYPE_PUBLIC).
Defined.

Lemma oqs_size_answer_witness :
  oqs_size empty_pkey (sample_env no_fault) = Some (0, [Ev.OQSerr 64])
  /\ oqs_size sample_pkey (sample_env no_fault) = Some (34032, [])
  /\ oqs_size wide_pkey (sample_env no_fault) = Some (-1, []).
Proof.
  split; [|split].
  - exact (proj1 (oqs_size_answer empty_pkey (sample_env no_fault)) (or_introl eq_refl)).
  - refine (proj1 (proj2 (proj2 (oqs_size_answer sample_pkey (sample_env no_fault))
                            sample_key sample_sig eq_refl eq_refl)) _).
    cbn. lia.
  - refine (proj1 (proj2 (proj2 (proj2 (oqs_size_answer wide_pkey (sample_env no_fault))
                                   _ wide_sig eq_refl eq_refl))) _).
    cbn. lia.
Defined.

Lemma oqs_bits_answer_witness :
  oqs_bits sample_pkey (sample_env no_fault) = Some (33, [])
  /\ ~ (oqs_bits empty_pkey (sample_env no_fault) <> None).
Proof.
  split.
  - apply (proj2 (proj2 (oqs_bits_answer sample_pkey (sample_env no_fault)))
             sample_key sample_sig eq_refl eq_refl).
  - intros Hdef.
    destruct (proj1 (proj1 (oqs_bits_answer empty_pkey (sample_env no_fault))) Hdef)
      as (k & sg & Hk & _).
    discriminate Hk.
Defined.

Lemma oqs_key_init_failure_releases_witness :
  @None OQS_KEY = None
  /\ followed_by (Ev.OPENSSL_zalloc b_oqs_key) (Ev.OPENSSL_free b_oqs_key)
       refused_private_buffer_trace
  /\ (forall num, followed_by (Ev.OPENSSL_malloc b_pubkey num) (Ev.OPENSSL_free b_pubkey)
                    refused_private_buffer_trace)
  /\ (forall sg, followed_by (Ev.OQS_SIG_new sg) (Ev.OQS_SIG_free sg)
                   refused_private_buffer_trace)
  /\ (forall num, ~ In (Ev.OPENSSL_secure_malloc b_privkey num)
                      refused_private_buffer_trace).
Proof.
  apply (oqs_key_init_failure_releases None None 1195 KEY_TYPE_PRIVATE
           (sample_env secure_malloc_fails) refused_private_buffer_trace).
  reflexivity.
Defined.

Lemma oqs_key_init_refusal_keeps_rand_witness :
  exists t,
    oqs_key_init None 7 KEY_TYPE_PRIVATE (sample_env no_fault) = Some ((0, None), t)
    /\ In (Ev.OQS_RAND_new sample_rand) t
    /\ (forall r', ~ In (Ev.OQS_RAND_free r') t).
Proof.
  apply (oqs_key_init_refusal_keeps_rand None 7 KEY_TYPE_PRIVATE (sample_env no_fault)
           sample_rand); reflexivity.
Defined.

Lemma pkey_oqs_keygen_engine_failure_witness :
  pkey_oqs_keygen keygen_ctx empty_pkey (sample_env keygen_fails)
  = Some ((0, empty_pkey), failed_keygen_trace).
Proof.
  refine (pkey_oqs_keygen_engine_failure keygen_ctx empty_pkey (sample_env keygen_fails)
            sample_rand sample_sig _ _).
  - repeat split.
  - discriminate.
Defined.

Lemma pkey_oqs_keygen_failure_releases_witness :
  empty_pkey = empty_pkey
  /\ reports_error failed_keygen_trace
  /\ followed_by (Ev.OPENSSL_zalloc b_oqs_key) (Ev.OPENSSL_free b_oqs_key)
       failed_keygen_trace
  /\ (forall num, followed_by (Ev.OPENSSL_malloc b_pubkey num) (Ev.OPENSSL_free b_pubkey)
                    failed_keygen_trace)
  /\ (forall num, followed_by (Ev.OPENSSL_secure_malloc b_privkey num)
                    (Ev.OPENSSL_secure_clear_free b_privkey num) failed_keygen_trace).
Proof.
  apply (pkey_oqs_keygen_failure_releases keygen_ctx empty_pkey empty_pkey
           (sample_env keygen_fails) failed_keygen_trace).
  reflexivity.
Defined.

Lemma decode_failure_releases_witness :
  empty_pkey = empty_pkey
  /\ followed_by (Ev.OPENSSL_zalloc b_oqs_key) (Ev.OPENSSL_free b_oqs_key)
       (Ev.d2i_ASN1_OCTET_STRING b_oct :: refused_private_buffer_trace ++ [Ev.OQSerr 64])
  /\ (forall num,
        followed_by (Ev.OPENSSL_malloc b_pubkey num) (Ev.OPENSSL_free b_pubkey)
          (Ev.d2i_ASN1_OCTET_STRING b_oct :: refused_private_buffer_trace ++ [Ev.OQSerr 64]))
  /\ (forall sg,
        followed_by (Ev.OQS_SIG_new sg) (Ev.OQS_SIG_free sg)
          (Ev.d2i_ASN1_OCTET_STRING b_oct :: refused_private_buffer_trace ++ [Ev.OQSerr 64]))
  /\ (forall num,
        followed_by (Ev.OPENSSL_secure_malloc b_privkey num)
          (Ev.OPENSSL_secure_clear_free b_privkey num)
          (Ev.d2i_ASN1_OCTET_STRING b_oct :: refused_private_buffer_trace ++ [Ev.OQSerr 64])).
Proof.
  refine (proj2 (decode_failure_releases empty_pkey empty_pkey
                   (sample_env secure_malloc_fails) _) sample_p8 _).
  vm_compute. reflexivity.
Defined.

Lemma oqs_priv_decode_frees_octets_on_success_only_witness :
  ~ In (Ev.ASN1_OCTET_STRING_free b_oct) [Ev.d2i_ASN1_OCTET_STRING b_oct; Ev.OQSerr 64]
  /\ (on_PKCS8_pkey_get0 (sample_env no_fault) = true ->
      payload_of (sample_env no_fault) p8_with_null <> None ->
      In (Ev.d2i_ASN1_OCTET_STRING b_oct) [Ev.d2i_ASN1_OCTET_STRING b_oct; Ev.OQSerr 64]).
Proof.
  refine (proj2 (oqs_priv_decode_frees_octets_on_success_only empty_pkey empty_pkey
                   p8_with_null (sample_env no_fault) _) _).
  vm_compute. reflexivity.
Defined.

Lemma pkey_oqs_digestsign_answer_witness :
  pkey_oqs_digestsign sample_md_ctx (Some sample_sigbuf) 8 (Some sample_message) 4
    (sample_env no_fault)
  = Some ((0, Some sample_sigbuf, 8), [Ev.OQSerr 64])
  /\ pkey_oqs_digestsign sample_md_ctx (Some sample_sigbuf) 34032 (Some sample_message) 4
       (sample_env no_fault)
     = Some ((1, Some sample_sigbuf, 34000), [Ev.OQS_SIG_sign sample_sig]).
Proof.
  split.
  - exact (pkey_oqs_digestsign_answer sample_md_ctx sample_pkey_ctx sample_pkey sample_key
             sample_sig sample_privkey sample_sigbuf 8 (Some sample_message) 4
             (sample_env no_fault) eq_refl eq_refl eq_refl eq_refl eq_refl).
  - exact (pkey_oqs_digestsign_answer sample_md_ctx sample_pkey_ctx sample_pkey sample_key
             sample_sig sample_privkey sample_sigbuf 34032 (Some sample_message) 4
             (sample_env no_fault) eq_refl eq_refl eq_refl eq_refl eq_refl).
Defined.

Lemma pkey_oqs_digestsign_calls_engine_only_witness :
  exists pctx pkey k priv sigbuf,
    EVP_MD_CTX_pkey_ctx sample_md_ctx = Some pctx
    /\ ctx_pkey pctx = Some pkey
    /\ ptr pkey = Some k
    /\ s k = Some sample_sig
    /\ privkey k = Some priv
    /\ Some sample_sigbuf = Some sigbuf
    /\ max_sig_len sample_sig <= 34032.
Proof.
  refine (pkey_oqs_digestsign_calls_engine_only sample_md_ctx (Some sample_sigbuf) 34032
            (Some sample_message) 4 (sample_env no_fault)
            (1, Some sample_sigbuf, 34000) [Ev.OQS_SIG_sign sample_sig] sample_sig _ _).
  - reflexivity.
  - now left.
Defined.

Lemma pkey_oqs_digestverify_answer_witness :
  pkey_oqs_digestverify sample_public_md_ctx (Some sample_sigbuf) 8 (Some sample_message) 4
    (sample_env no_fault)
  = Some (1, [Ev.OQS_SIG_verify sample_sig])
  /\ pkey_oqs_digestverify sample_public_md_ctx (Some sample_sigbuf) 8 (Some sample_message) 4
       (sample_env verify_fails)
     = Some (0, [Ev.OQS_SIG_verify sample_sig; Ev.OQSerr 64]).
Proof.
  split.
  - exact (pkey_oqs_digestverify_answer sample_public_md_ctx _ sample_public_pkey
             sample_public_key sample_sig sample_pubkey sample_sigbuf sample_message 8 4
             (sample_env no_fault) eq_refl eq_refl eq_refl eq_refl eq_refl).
  - exact (pkey_oqs_digestverify_answer sample_public_md_ctx _ sample_public_pkey
             sample_public_key sample_sig sample_pubkey sample_sigbuf sample_message 8 4
             (sample_env verify_fails) eq_refl eq_refl eq_refl eq_refl eq_refl).
Defined.


Lemma decoded_public_key_cannot_sign_witness :
  (forall sig siglen tbs tbslen e',
      pkey_oqs_digestsign sample_public_md_ctx sig siglen tbs tbslen e'
      = Some ((0, sig, siglen), [Ev.OQSerr 64]))
  /\ (exists sg,
        forall sig siglen tbs tbslen e',
        exists r t',
          pkey_oqs_digestverify sample_public_md_ctx (Some sig) siglen (Some tbs) tbslen e'
          = Some (r, Ev.OQS_SIG_verify sg :: t')).
Proof.
  refine (decoded_public_key_cannot_sign empty_pkey sample_public_pkey
            sample_pubkey_container (sample_env no_fault) _ sample_public_md_ctx _
            sample_pub_decode_run eq_refl eq_refl).
Defined.

Lemma tables_agree_witness :
  (get_oqs_alg_id 7 = -1 <-> get_oqs_security_bits 7 = -1)
  /\ (get_oqs_alg_id 7 <> -1 <-> 7 = NID_picnicL1FS)
  /\ fst (oqs_sig_info_set {| mdnid := 0; pknid := 0; secbits := 0; siginf_flags := 0 |}) = 1
  /\ pknid (snd (oqs_sig_info_set {| mdnid := 0; pknid := 0; secbits := 0;
                                     siginf_flags := 0 |})) = NID_picnicL1FS
  /\ mdnid (snd (oqs_sig_info_set {| mdnid := 0; pknid := 0; secbits := 0;
                                     siginf_flags := 0 |})) = NID_undef
  /\ secbits (snd (oqs_sig_info_set {| mdnid := 0; pknid := 0; secbits := 0;
                                       siginf_flags := 0 |}))
     = get_oqs_security_bits
         (pknid (snd (oqs_sig_info_set {| mdnid := 0; pknid := 0; secbits := 0;
                                          siginf_flags := 0 |})))
  /\ secbits (snd (oqs_sig_info_set {| mdnid := 0; pknid := 0; secbits := 0;
                                       siginf_flags := 0 |})) = 128.
Proof.
  refine (@tables_agree sample_constants 7 _ _).
  cbv. discriminate.
Defined.

Lemma oqs_priv_print_invalid_key_witness :
  oqs_priv_print sample_public_pkey 2 (sample_env no_fault)
  = Some (1, [Ev.BIO_printf 2 ("<INVALID PRIVATE KEY>" ++ nl)]).
Proof.
  refine (oqs_priv_print_invalid_key sample_public_pkey 2 (sample_env no_fault) _).
  right. exists sample_public_key. split; reflexivity.
Defined.

Lemma oqs_key_print_layout_witness :
  oqs_priv_print sample_pkey 2 (sample_env no_fault)
  = Some (1, [Ev.BIO_printf 2 ("picnicL1FS" ++ " Private-Key:" ++ nl);
              Ev.BIO_printf 2 ("priv:" ++ nl);
              Ev.ASN1_buf_print 49 6;
              Ev.BIO_printf 2 ("pub:" ++ nl);
              Ev.ASN1_buf_print 33 6])
  /\ oqs_pub_print sample_pkey 2 (sample_env no_fault)
     = Some (1, [Ev.BIO_printf 2 ("picnicL1FS" ++ " Public-Key:" ++ nl);
                 Ev.BIO_printf 2 ("pub:" ++ nl);
                 Ev.ASN1_buf_print 33 6]).
Proof.
  refine (oqs_key_print_layout sample_pkey 2 (sample_env no_fault) sample_key sample_sig
            sample_privkey sample_pubkey eq_refl eq_refl eq_refl eq_refl _ _).
  - intros text. reflexivity.
  - discriminate.
Defined.

